(** * GitHub runner manager: reconciliation and lifecycle engine

    A shallow embedding of the parts of the runner manager that drive the
    runner population: the [retry] decorator (utilities.py), the OpenStack
    runner manager (openstack_runner_manager.py), the reactive queue consumer
    (reactive/consumer.py), the runner scaler (manager/runner_scaler.py) and
    the flush endpoint of the HTTP server (http_server.py).

    Python code that talks to the outside (cloud, platform, queue, SSH,
    metric sink) is embedded with explicit state passing: every external
    call is a field of a collaborator record acting on an abstract world
    [W], exceptions are the [Err] case of [result], and each embedded
    function returns, next to its result and the new world, the log of the
    external calls it issued, in program order. *)

From stdpp Require Import gmap strings list.
From Stdlib Require Import ZArith Lia Ascii.

Local Open Scope Z_scope.

(** ** Results of fallible calls *)

Inductive result (E A : Type) : Type :=
| Ok (a : A)
| Err (e : E).
Arguments Ok {E A} a.
Arguments Err {E A} e.

Definition is_ok {E A} (r : result E A) : bool :=
  match r with Ok _ => true | Err _ => false end.

(** * utilities.py: the [retry] decorator *)

Module Retry.

(** What [fn_with_retry] can raise: an exception coming out of the decorated
    function, or the [RuntimeError] of the line after the loop. *)
Inductive raised (Exn : Type) : Type :=
| Propagated (e : Exn)
| RuntimeError_unreachable.
Arguments Propagated {Exn} e.
Arguments RuntimeError_unreachable {Exn}.

Section retry.
(** [W] is the state the decorated function acts on, [A] its return type,
    [Exn] the exceptions it raises.  Delays are Python numbers (floats in
    general); their arithmetic is kept abstract: [delay_mul] is [*],
    [delay_min] is [min], and [sleep] is the effect of [time.sleep] on the
    world. *)
Context {W A Exn Delay : Type}.
Variable exception : Exn -> bool.        (* isinstance(err, exception) *)
Variable tries : Z.
Variable delay : Delay.
Variable max_delay : option Delay.
Variable backoff : Delay.
Variable delay_mul : Delay -> Delay -> Delay.
Variable delay_min : Delay -> Delay -> Delay.
Variable sleep : Delay -> W -> W.
Variable func : W -> result Exn A * W.

(** [current_delay *= backoff], capped by [max_delay] when it is given. *)
Definition next_delay (current_delay : Delay) : Delay :=
  let current_delay := delay_mul current_delay backoff in
  match max_delay with
  | Some m => delay_min current_delay m
  | None => current_delay
  end.

(** The body of [for _ in range(tries)], with the loop variables
    [remain_tries] and [current_delay]; [iters] is the number of
    iterations [range] still has to give.  Next to the outcome and the
    world, the loop reports what each call of [func] produced. *)
Fixpoint retry_loop (iters : nat) (remain_tries : Z) (current_delay : Delay)
    (w : W) : result (raised Exn) A * W * list (result Exn A) :=
  match iters with
  | O => (Err RuntimeError_unreachable, w, [])
  | S iters' =>
      let '(r, w1) := func w in
      match r with
      | Ok a => (Ok a, w1, [r])
      | Err err =>
          if exception err then
            let remain_tries := remain_tries - 1 in
            if remain_tries =? 0 then (Err (Propagated err), w1, [r])
            else
              let w2 := sleep current_delay w1 in
              let current_delay := next_delay current_delay in
              let '(out, w3, calls) :=
                retry_loop iters' remain_tries current_delay w2 in
              (out, w3, r :: calls)
          else (Err (Propagated err), w1, [r])
      end
  end.

(** [range(tries)] is empty for [tries <= 0]. *)
Definition fn_with_retry (w : W) :
    result (raised Exn) A * W * list (result Exn A) :=
  retry_loop (Z.to_nat tries) tries delay w.

(** [n] successive calls of the decorated function from world [w], with
    the sleeps of the back-off schedule between them. *)
Fixpoint run_calls (n : nat) (current_delay : Delay) (w : W) :
    list (result Exn A) * W :=
  match n with
  | O => ([], w)
  | S n' =>
      let '(r, w1) := func w in
      match n' with
      | O => ([r], w1)
      | S _ =>
          let '(rs, w2) :=
            run_calls n' (next_delay current_delay) (sleep current_delay w1) in
          (r :: rs, w2)
      end
  end.

(** A call that the wrapper retries: it raised an exception of the
    retried type. *)
Definition retried (r : result Exn A) : Prop :=
  exists err, r = Err err /\ exception err = true.

(** What the wrapper hands back after a last call [r]. *)
Definition handed_back (r : result Exn A) : result (raised Exn) A :=
  match r with
  | Ok a => Ok a
  | Err err => Err (Propagated err)
  end.

(** *** Facts about the retry loop *)

Lemma handed_back_not_unreachable (r : result Exn A) :
  handed_back r <> Err RuntimeError_unreachable.
Proof. destruct r; discriminate. Qed.

Lemma run_calls_more (n : nat) (current_delay : Delay) (w : W) :
  run_calls (S (S n)) current_delay w =
    (let '(r, w1) := func w in
     let '(rs, w2) :=
       run_calls (S n) (next_delay current_delay) (sleep current_delay w1) in
     (r :: rs, w2)).
Proof. reflexivity. Qed.

Lemma run_calls_length (n : nat) :
  forall (current_delay : Delay) (w : W),
    length (run_calls n current_delay w).1 = n.
Proof.
  induction n as [|n IH]; intros d w; [reflexivity|].
  destruct n as [|n'].
  - cbn. by destruct (func w).
  - rewrite run_calls_more. destruct (func w) as [r w1].
    specialize (IH (next_delay d) (sleep d w1)).
    destruct (run_calls (S n') (next_delay d) (sleep d w1)) as [rs w2].
    cbn in IH |- *. by rewrite IH.
Qed.

(** The loop invariant [remain_tries = number of iterations left] makes the
    [remain_tries == 0] test fire exactly in the last iteration. *)
Lemma retry_loop_spec (iters : nat) :
  forall (current_delay : Delay) (w : W),
    (1 <= iters)%nat ->
    exists (n : nat) (failed : list (result Exn A)) (last : result Exn A),
      (1 <= n <= iters)%nat /\
      run_calls n current_delay w =
        (failed ++ [last], (retry_loop iters (Z.of_nat iters) current_delay w).1.2) /\
      (retry_loop iters (Z.of_nat iters) current_delay w).2 = failed ++ [last] /\
      Forall retried failed /\
      (retry_loop iters (Z.of_nat iters) current_delay w).1.1 = handed_back last.
Proof.
  induction iters as [|k IH]; intros d w Hk; [lia|].
  cbn [retry_loop].
  destruct (func w) as [r w1] eqn:Hf.
  destruct r as [a|err].
  - exists 1%nat, [], (Ok a). cbn. rewrite Hf. repeat split; auto; lia.
  - destruct (exception err) eqn:Hexc.
    + destruct (Z.of_nat (S k) - 1 =? 0) eqn:Hz.
      * exists 1%nat, [], (Err err). cbn. rewrite Hf. repeat split; auto; lia.
      * apply Z.eqb_neq in Hz.
        assert (Hk1 : (1 <= k)%nat) by lia.
        replace (Z.of_nat (S k) - 1) with (Z.of_nat k) by lia.
        destruct (IH (next_delay d) (sleep d w1) Hk1)
          as (n & failed & last & Hn & Hrun & Hinv & Hall & Hout).
        destruct (retry_loop k (Z.of_nat k) (next_delay d) (sleep d w1))
          as [[out w2] calls] eqn:Hloop.
        cbn in Hrun, Hinv, Hout |- *.
        exists (S n), (Err err :: failed), last.
        destruct n as [|n']; [lia|].
        rewrite run_calls_more, Hf, Hrun. cbn.
        repeat split; try lia; try congruence.
        constructor; [exists err; auto | exact Hall].
    + exists 1%nat, [], (Err err). cbn. rewrite Hf. repeat split; auto; lia.
Qed.

(** A property of the world that every call and every sleep of the
    schedule keeps is kept by the loop. *)
Lemma retry_loop_invariant (P : W -> Prop) (Q : Delay -> Prop) :
  (forall w, P w -> P (func w).2) ->
  (forall d w, Q d -> P w -> P (sleep d w)) ->
  (forall d, Q d -> Q (next_delay d)) ->
  forall (iters : nat) (remain_tries : Z) (current_delay : Delay) (w : W),
    Q current_delay -> P w ->
    P (retry_loop iters remain_tries current_delay w).1.2.
Proof.
  intros Hfunc Hsleep Hnext.
  induction iters as [|k IH]; intros remain d w Hd Hw; [exact Hw|].
  cbn [retry_loop].
  specialize (Hfunc w Hw).
  destruct (func w) as [r w1]. cbn in Hfunc.
  destruct r as [a|err]; [exact Hfunc|].
  destruct (exception err); [|exact Hfunc].
  destruct (remain - 1 =? 0); [exact Hfunc|].
  specialize (IH (remain - 1) (next_delay d) (sleep d w1)
                (Hnext d Hd) (Hsleep d w1 Hd Hfunc)).
  destruct (retry_loop k (remain - 1) (next_delay d) (sleep d w1)) as [[out w3] calls].
  exact IH.
Qed.

(** The wrapper for [tries >= 1], in the form the other modules use. *)
Lemma fn_with_retry_spec (w : W) :
  1 <= tries ->
  exists (n : nat) (failed : list (result Exn A)) (last : result Exn A),
    (1 <= n)%nat /\ Z.of_nat n <= tries /\
    run_calls n delay w = (failed ++ [last], (fn_with_retry w).1.2) /\
    (fn_with_retry w).2 = failed ++ [last] /\
    Forall retried failed /\
    (fn_with_retry w).1.1 = handed_back last.
Proof.
  intros Htries. unfold fn_with_retry.
  assert (Hiters : (1 <= Z.to_nat tries)%nat) by lia.
  destruct (retry_loop_spec (Z.to_nat tries) delay w Hiters)
    as (n & failed & last & Hn & Hrun & Hinv & Hall & Hout).
  rewrite Z2Nat.id in Hrun, Hinv, Hout by lia.
  exists n, failed, last.
  repeat split; try lia; assumption.
Qed.


(** Without the bound on [tries] the last line is reached: [range(0)] is
    empty. *)
Lemma retry_zero_tries_unreachable_reached (w : W) :
  tries <= 0 -> (fn_with_retry w).1.1 = Err RuntimeError_unreachable.
Proof.
  intros H. unfold fn_with_retry.
  replace (Z.to_nat tries) with O by lia. reflexivity.
Qed.

End retry.

(** A function that fails on its first two calls and then returns 42; the
    world counts the calls and adds up the seconds slept. *)
Definition flaky (w : nat * Z) : result string Z * (nat * Z) :=
  let '(calls, slept) := w in
  (if (calls <? 2)%nat then Err "ConnectionError"%string else Ok 42,
   (S calls, slept)).

Definition flaky_sleep (d : Z) (w : nat * Z) : nat * Z :=
  let '(calls, slept) := w in (calls, slept + d).

Example flaky_retried_three_times :
  fn_with_retry (fun _ => true) 3 5 None 2 Z.mul Z.min flaky_sleep flaky (O, 0)
  = (Ok 42, (3%nat, 15),
     [Err "ConnectionError"%string; Err "ConnectionError"%string; Ok 42]).
Proof. reflexivity. Qed.


End Retry.

(** * openstack_cloud/openstack_runner_manager.py *)

Module OpenStack.

(** ** Data *)

Record InstanceID : Type := {
  prefix : string;
  reactive : bool;
  suffix : string;
}.

Record OpenstackInstance : Type := {
  instance_id : InstanceID;
  server_id : string;
  created_at : Z;
  status : string;
}.

Record OpenStackServerConfig : Type := {
  image : string;
  flavor : string;
  network : string;
}.

(** Of [OpenStackRunnerManagerConfig] the functions below read only
    [server_config]. *)
Record OpenStackRunnerManagerConfig : Type := {
  name_prefix : string;
  server_config : option OpenStackServerConfig;
}.

(** What [ssh_conn.run(..., warn=True)] returns. *)
Record RunResult : Type := {
  ok : bool;
  stdout : string;
}.

(** The three lists of [_RunnerHealth]. *)
Record _RunnerHealth : Type := {
  healthy : list OpenstackInstance;
  unhealthy : list OpenstackInstance;
  unknown : list OpenstackInstance;
}.

Inductive HealthState : Type := HEALTHY | UNHEALTHY | UNKNOWN.

(** Exceptions that leave [create_runner]. [SSHRunError] stands for
    whatever [ssh_conn.run] raises; [RuntimeError] is the one of the
    [retry] wrapper. *)
Inductive exn : Type :=
| MissingServerConfigError
| RunnerCreateError
| RunnerStartError
| SSHRunError
| RuntimeError.

(** The calls the manager issues, in program order.  [CheckRunner] records
    what the health check answered: [Some true], [Some false], or [None]
    when it raised [OpenstackHealthCheckError]. *)
Inductive event : Type :=
| LaunchInstance (id : InstanceID)
| GetInstances
| GetSSHConnection (id : InstanceID)
| SSHRun (id : InstanceID) (cmd : string)
| CheckRunner (instance : OpenstackInstance) (answer : option bool)
| CheckActiveRunner (id : InstanceID)
| PullRunnerMetrics (id : InstanceID)
| DeleteInstance (id : InstanceID)
| CloudCleanup
| Sleep (seconds : Z).

(** [needle in hay] on Python strings. *)
Fixpoint contains (needle hay : string) : bool :=
  if String.prefix needle hay then true
  else match hay with
       | EmptyString => false
       | String _ hay' => contains needle hay'
       end.

Definition RUNNER_STARTUP_PROCESS : string := "/home/ubuntu/actions-runner/run.sh".
Definition _CONFIG_SCRIPT_PATH : string := "/home/ubuntu/actions-runner/config.sh".

(** ** The collaborators

    [OpenstackCloud], [health_checks] and [runner_metrics] are used through
    their contracts.  A call either answers or raises the exception the
    manager handles at that call: [None] from [launch_instance] and [false]
    from [delete_instance] are [OpenStackError], [None] from
    [get_ssh_connection] is [SSHError], [None] from the two health checks
    is [OpenstackHealthCheckError], [None] from [ssh_run] is an exception
    of the SSH library. *)
Record Collaborators (W Conn PulledMetrics : Type) : Type := {
  launch_instance :
    InstanceID -> string -> string -> string -> string -> W ->
    option OpenstackInstance * W;
  get_instances : W -> list OpenstackInstance * W;
  get_ssh_connection : OpenstackInstance -> W -> option Conn * W;
  delete_instance : InstanceID -> W -> bool * W;
  cloud_cleanup : W -> W;
  ssh_run : Conn -> string -> W -> option RunResult * W;
  check_runner : OpenstackInstance -> W -> option bool * W;
  check_active_runner : Conn -> OpenstackInstance -> W -> option bool * W;
  pull_runner_metrics : InstanceID -> Conn -> W -> PulledMetrics * W;
  _generate_cloud_init : string -> W -> string * W;
  time_sleep : Z -> W -> W;
}.
Arguments launch_instance {W Conn PulledMetrics} c _ _ _ _ _ _.
Arguments get_instances {W Conn PulledMetrics} c _.
Arguments get_ssh_connection {W Conn PulledMetrics} c _ _.
Arguments delete_instance {W Conn PulledMetrics} c _ _.
Arguments cloud_cleanup {W Conn PulledMetrics} c _.
Arguments ssh_run {W Conn PulledMetrics} c _ _ _.
Arguments check_runner {W Conn PulledMetrics} c _ _.
Arguments check_active_runner {W Conn PulledMetrics} c _ _ _.
Arguments pull_runner_metrics {W Conn PulledMetrics} c _ _ _.
Arguments _generate_cloud_init {W Conn PulledMetrics} c _ _.
Arguments time_sleep {W Conn PulledMetrics} c _ _.

Section manager.
Context {W Conn PulledMetrics RunnerMetrics : Type}.
Variable config : OpenStackRunnerManagerConfig.
Variable cloud : Collaborators W Conn PulledMetrics.
(** [CloudInitStatus.DONE], a string constant of cloud_runner_manager.py. *)
Variable CloudInitStatus_DONE : string.
(** [PulledMetrics()] and [PulledMetrics.to_runner_metrics]. *)
Variable no_pulled_metrics : PulledMetrics.
Variable to_runner_metrics :
  PulledMetrics -> InstanceID -> Z -> option RunnerMetrics.

(** *** Waiting for a new runner *)

(** The body of [_wait_runner_startup], one attempt. *)
Definition _wait_runner_startup_attempt (instance : OpenstackInstance) (w : W) :
    result exn unit * W * list event :=
  let id := instance_id instance in
  let '(conn, w1) := get_ssh_connection cloud instance w in
  match conn with
  | None => (Err RunnerStartError, w1, [GetSSHConnection id])
  | Some ssh_conn =>
      let '(res, w2) := ssh_run cloud ssh_conn "cloud-init status" w1 in
      let log2 := [GetSSHConnection id; SSHRun id "cloud-init status"] in
      match res with
      | None => (Err SSHRunError, w2, log2)
      | Some result =>
          if negb (ok result) then (Err RunnerStartError, w2, log2)
          else if contains CloudInitStatus_DONE (stdout result) then (Ok tt, w2, log2)
          else
            let '(res, w3) := ssh_run cloud ssh_conn "ps aux" w2 in
            let log3 := log2 ++ [SSHRun id "ps aux"] in
            match res with
            | None => (Err SSHRunError, w3, log3)
            | Some result =>
                if negb (ok result) then (Err RunnerStartError, w3, log3)
                else if negb (contains RUNNER_STARTUP_PROCESS (stdout result))
                then (Err RunnerStartError, w3, log3)
                else (Ok tt, w3, log3)
            end
      end
  end.

(** The body of [_wait_runner_running], one attempt. *)
Definition _wait_runner_running_attempt (instance : OpenstackInstance) (w : W) :
    result exn unit * W * list event :=
  let id := instance_id instance in
  let '(conn, w1) := get_ssh_connection cloud instance w in
  match conn with
  | None => (Err RunnerStartError, w1, [GetSSHConnection id])
  | Some ssh_conn =>
      let '(answer, w2) := check_active_runner cloud ssh_conn instance w1 in
      let log2 := [GetSSHConnection id; CheckActiveRunner id] in
      match answer with
      | None => (Err RunnerStartError, w2, log2)
      | Some is_healthy =>
          if negb is_healthy then (Err RunnerStartError, w2, log2)
          else (Ok tt, w2, log2)
      end
  end.

(** An attempt as the [retry] wrapper sees it: the state is the world
    together with the log so far. *)
Definition logged (attempt : W -> result exn unit * W * list event)
    (s : W * list event) : result exn unit * (W * list event) :=
  let '(r, w', evs) := attempt s.1 in (r, (w', s.2 ++ evs)).

Definition logged_sleep (seconds : Z) (s : W * list event) : W * list event :=
  (time_sleep cloud seconds s.1, s.2 ++ [Sleep seconds]).

(** [@retry(tries=..., delay=60, local_logger=logger)]: the other
    arguments keep their defaults ([exception=Exception], [max_delay=None],
    [backoff=1]). *)
Definition retry_every_60s (tries : Z)
    (attempt : W -> result exn unit * W * list event) (s : W * list event) :
    result (Retry.raised exn) unit * (W * list event) * list (result exn unit) :=
  Retry.fn_with_retry (fun _ => true) tries 60 None 1 Z.mul Z.min
    logged_sleep (logged attempt) s.

Definition unwrap (r : result (Retry.raised exn) unit) : result exn unit :=
  match r with
  | Ok a => Ok a
  | Err (Retry.Propagated e) => Err e
  | Err Retry.RuntimeError_unreachable => Err RuntimeError
  end.

(** [@retry(tries=10, delay=60)] [_wait_runner_startup]. *)
Definition _wait_runner_startup (instance : OpenstackInstance)
    (s : W * list event) : result exn unit * (W * list event) :=
  let '(r, s', _) := retry_every_60s 10 (_wait_runner_startup_attempt instance) s in
  (unwrap r, s').

(** [@retry(tries=5, delay=60)] [_wait_runner_running]. *)
Definition _wait_runner_running (instance : OpenstackInstance)
    (s : W * list event) : result exn unit * (W * list event) :=
  let '(r, s', _) := retry_every_60s 5 (_wait_runner_running_attempt instance) s in
  (unwrap r, s').

Definition create_runner (id : InstanceID) (registration_jittoken : string)
    (w : W) : result exn unit * W * list event :=
  match server_config config with
  | None => (Err MissingServerConfigError, w, [])
  | Some sc =>
      let '(cloud_init, w0) := _generate_cloud_init cloud registration_jittoken w in
      let '(launched, w1) :=
        launch_instance cloud id (image sc) (flavor sc) (network sc) cloud_init w0 in
      match launched with
      | None => (Err RunnerCreateError, w1, [LaunchInstance id])
      | Some instance =>
          let '(r, s2) := _wait_runner_startup instance (w1, [LaunchInstance id]) in
          match r with
          | Err e => (Err e, s2.1, s2.2)
          | Ok _ =>
              let '(r, s3) := _wait_runner_running instance s2 in
              (r, s3.1, s3.2)
          end
      end
  end.

(** *** Health of the runners and cleanup *)

(** The branch of [_get_runners_health] a health-check answer selects. *)
Definition health_of_answer (answer : option bool) : HealthState :=
  match answer with
  | Some true => HEALTHY
  | Some false => UNHEALTHY
  | None => UNKNOWN
  end.

(** The loop of [_get_runners_health]: every runner is appended to one of
    the three lists. *)
Fixpoint check_runners (runner_list : list OpenstackInstance) (w : W) :
    _RunnerHealth * W * list event :=
  match runner_list with
  | [] => ({| healthy := []; unhealthy := []; unknown := [] |}, w, [])
  | runner :: rest =>
      let '(answer, w1) := check_runner cloud runner w in
      let '(h, w2, evs) := check_runners rest w1 in
      (match health_of_answer answer with
       | HEALTHY =>
           {| healthy := runner :: healthy h; unhealthy := unhealthy h;
              unknown := unknown h |}
       | UNHEALTHY =>
           {| healthy := healthy h; unhealthy := runner :: unhealthy h;
              unknown := unknown h |}
       | UNKNOWN =>
           {| healthy := healthy h; unhealthy := unhealthy h;
              unknown := runner :: unknown h |}
       end, w2, CheckRunner runner answer :: evs)
  end.

Definition _get_runners_health (w : W) : _RunnerHealth * W * list event :=
  let '(runner_list, w1) := get_instances cloud w in
  let '(h, w2, evs) := check_runners runner_list w1 in
  (h, w2, GetInstances :: evs).

(** [_run_runner_removal_script] raises [_GithubRunnerRemoveError] when the
    command fails or the SSH library raises; [_delete_runner] catches it,
    so what is left of the script is the command it runs. *)
Definition _delete_runner (instance : OpenstackInstance) (remove_token : string)
    (w : W) : PulledMetrics * W * list event :=
  let id := instance_id instance in
  let '(conn, w1) := get_ssh_connection cloud instance w in
  let '(pulled_metrics, w3, log3) :=
    match conn with
    | None => (no_pulled_metrics, w1, [GetSSHConnection id])
    | Some ssh_conn =>
        let '(pulled, w2) := pull_runner_metrics cloud id ssh_conn w1 in
        let cmd := (_CONFIG_SCRIPT_PATH ++ " remove --token " ++ remove_token)%string in
        let '(_, w3) := ssh_run cloud ssh_conn cmd w2 in
        (pulled, w3, [GetSSHConnection id; PullRunnerMetrics id; SSHRun id cmd])
    end in
  let '(_, w4) := delete_instance cloud id w3 in
  (pulled_metrics, w4, log3 ++ [DeleteInstance id]).

(** The loop [for runner in runners.unhealthy] of [cleanup]. *)
Fixpoint delete_unhealthy (runners : list OpenstackInstance) (remove_token : string)
    (w : W) : list RunnerMetrics * W * list event :=
  match runners with
  | [] => ([], w, [])
  | runner :: rest =>
      let '(pulled_metrics, w1, evs1) := _delete_runner runner remove_token w in
      let runner_metric :=
        to_runner_metrics pulled_metrics (instance_id runner) (created_at runner) in
      let '(extracted, w2, evs2) := delete_unhealthy rest remove_token w1 in
      (match runner_metric with
       | None => extracted
       | Some m => m :: extracted
       end, w2, evs1 ++ evs2)
  end.

Definition cleanup (remove_token : string) (w : W) :
    list RunnerMetrics * W * list event :=
  let '(runners, w1, log1) := _get_runners_health w in
  let '(extracted_runner_metrics, w2, log2) :=
    delete_unhealthy (unhealthy runners) remove_token w1 in
  (extracted_runner_metrics, cloud_cleanup cloud w2, log1 ++ log2 ++ [CloudCleanup]).

(** *** Reading a log *)

(** The instances the cloud was asked to delete. *)
Fixpoint deleted (log : list event) : list InstanceID :=
  match log with
  | [] => []
  | DeleteInstance id :: log' => id :: deleted log'
  | _ :: log' => deleted log'
  end.

(** The health verdict each checked runner got, in checking order. *)
Fixpoint verdicts (log : list event) : list (OpenstackInstance * HealthState) :=
  match log with
  | [] => []
  | CheckRunner runner answer :: log' =>
      (runner, health_of_answer answer) :: verdicts log'
  | _ :: log' => verdicts log'
  end.

Definition is_unhealthy (v : OpenstackInstance * HealthState) : bool :=
  match v.2 with UNHEALTHY => true | _ => false end.

(** The runners of a pass whose verdict is UNHEALTHY. *)
Definition unhealthy_in (log : list event) : list OpenstackInstance :=
  map fst (List.filter is_unhealthy (verdicts log)).

(** The events of the readiness wait: SSH connections, SSH commands, the
    active-runner check, and sleeps of 60 seconds. *)
Definition waiting_event (ev : event) : bool :=
  match ev with
  | GetSSHConnection _ | SSHRun _ _ | CheckActiveRunner _ => true
  | Sleep seconds => seconds =? 60
  | _ => false
  end.

Definition extends_by_waiting (log0 : list event) (s : W * list event) : Prop :=
  exists evs, s.2 = log0 ++ evs /\ Forall (fun ev => waiting_event ev = true) evs.

(** [n] attempts of the startup check, 60 seconds apart, from state [s]. *)
Definition startup_attempts (instance : OpenstackInstance) (n : nat)
    (s : W * list event) : list (result exn unit) * (W * list event) :=
  Retry.run_calls None 1 Z.mul Z.min logged_sleep
    (logged (_wait_runner_startup_attempt instance)) n 60 s.

(** [n] attempts of the running check, 60 seconds apart, from state [s]. *)
Definition running_attempts (instance : OpenstackInstance) (n : nat)
    (s : W * list event) : list (result exn unit) * (W * list event) :=
  Retry.run_calls None 1 Z.mul Z.min logged_sleep
    (logged (_wait_runner_running_attempt instance)) n 60 s.

(** *** Facts about cleanup *)

Lemma deleted_app (l1 l2 : list event) :
  deleted (l1 ++ l2) = deleted l1 ++ deleted l2.
Proof.
  induction l1 as [|ev l1 IH]; [reflexivity|].
  destruct ev; cbn; rewrite ?IH; reflexivity.
Qed.

Lemma verdicts_app (l1 l2 : list event) :
  verdicts (l1 ++ l2) = verdicts l1 ++ verdicts l2.
Proof.
  induction l1 as [|ev l1 IH]; [reflexivity|].
  destruct ev; cbn; rewrite ?IH; reflexivity.
Qed.

(** The health pass deletes nothing, gives one verdict per listed runner,
    and its [unhealthy] list is the runners with verdict UNHEALTHY. *)
Lemma check_runners_log (runner_list : list OpenstackInstance) :
  forall w : W,
    deleted (check_runners runner_list w).2 = [] /\
    map fst (verdicts (check_runners runner_list w).2) = runner_list /\
    unhealthy (check_runners runner_list w).1.1
      = unhealthy_in (check_runners runner_list w).2.
Proof.
  induction runner_list as [|runner rest IH]; intros w; [easy|].
  cbn [check_runners].
  destruct (check_runner cloud runner w) as [answer w1].
  specialize (IH w1).
  destruct (check_runners rest w1) as [[h w2] evs].
  cbn in IH |- *. destruct IH as (Hdel & Hver & Hun).
  unfold unhealthy_in in *. cbn.
  repeat split; [exact Hdel | by rewrite Hver |].
  destruct answer as [[|]|]; cbn; by rewrite Hun.
Qed.

Lemma _delete_runner_log (instance : OpenstackInstance) (remove_token : string) (w : W) :
  deleted (_delete_runner instance remove_token w).2 = [instance_id instance] /\
  verdicts (_delete_runner instance remove_token w).2 = [].
Proof.
  unfold _delete_runner.
  destruct (get_ssh_connection cloud instance w) as [[ssh_conn|] w1].
  - destruct (pull_runner_metrics cloud _ ssh_conn w1) as [pulled w2].
    destruct (ssh_run cloud ssh_conn _ w2) as [res w3].
    destruct (delete_instance cloud _ w3) as [deleted_ok w4]. easy.
  - destruct (delete_instance cloud _ w1) as [deleted_ok w4]. easy.
Qed.

Lemma delete_unhealthy_log (runners : list OpenstackInstance) (remove_token : string) :
  forall w : W,
    deleted (delete_unhealthy runners remove_token w).2 = map instance_id runners /\
    verdicts (delete_unhealthy runners remove_token w).2 = [].
Proof.
  induction runners as [|runner rest IH]; intros w; [easy|].
  cbn [delete_unhealthy].
  pose proof (_delete_runner_log runner remove_token w) as [Hd Hv].
  destruct (_delete_runner runner remove_token w) as [[pulled w1] evs1].
  specialize (IH w1).
  destruct (delete_unhealthy rest remove_token w1) as [[extracted w2] evs2].
  cbn in *. destruct IH as [IHd IHv].
  rewrite deleted_app, verdicts_app, Hd, Hv, IHd, IHv. easy.
Qed.

Lemma in_unhealthy_in (log : list event) (runner : OpenstackInstance) :
  In runner (unhealthy_in log) <-> In (runner, UNHEALTHY) (verdicts log).
Proof.
  unfold unhealthy_in. rewrite in_map_iff. split.
  - intros ([r v] & Heq & Hin). cbn in Heq. subst r.
    apply filter_In in Hin as [Hin Hv].
    unfold is_unhealthy in Hv. cbn in Hv. destruct v; try discriminate. exact Hin.
  - intros Hin. exists (runner, UNHEALTHY). split; [reflexivity|].
    apply filter_In. split; [exact Hin | reflexivity].
Qed.


(** *** Facts about the readiness wait of [create_runner] *)

Lemma _wait_runner_startup_attempt_waits (instance : OpenstackInstance) (w : W) :
  Forall (fun ev => waiting_event ev = true)
    (_wait_runner_startup_attempt instance w).2.
Proof.
  unfold _wait_runner_startup_attempt.
  destruct (get_ssh_connection cloud instance w) as [[ssh_conn|] w1];
    [|repeat constructor].
  destruct (ssh_run cloud ssh_conn "cloud-init status" w1) as [[res|] w2];
    [|repeat constructor].
  destruct (negb (ok res)); [repeat constructor|].
  destruct (contains CloudInitStatus_DONE (stdout res)); [repeat constructor|].
  destruct (ssh_run cloud ssh_conn "ps aux" w2) as [[res2|] w3];
    [|repeat constructor].
  destruct (negb (ok res2)); [repeat constructor|].
  destruct (negb (contains RUNNER_STARTUP_PROCESS (stdout res2)));
    repeat constructor.
Qed.

Lemma _wait_runner_running_attempt_waits (instance : OpenstackInstance) (w : W) :
  Forall (fun ev => waiting_event ev = true)
    (_wait_runner_running_attempt instance w).2.
Proof.
  unfold _wait_runner_running_attempt.
  destruct (get_ssh_connection cloud instance w) as [[ssh_conn|] w1];
    [|repeat constructor].
  destruct (check_active_runner cloud ssh_conn instance w1) as [[is_healthy|] w2];
    [|repeat constructor].
  destruct (negb is_healthy); repeat constructor.
Qed.

Lemma extends_by_waiting_refl (log0 : list event) (w : W) :
  extends_by_waiting log0 (w, log0).
Proof. exists []. split; [by rewrite app_nil_r | constructor]. Qed.

Lemma extends_by_waiting_trans (log0 : list event) (s1 s2 : W * list event) :
  extends_by_waiting log0 s1 -> extends_by_waiting s1.2 s2 ->
  extends_by_waiting log0 s2.
Proof.
  intros (evs1 & H1 & F1) (evs2 & H2 & F2).
  exists (evs1 ++ evs2). split.
  - by rewrite H2, H1, app_assoc.
  - apply Forall_app. by split.
Qed.

(** A retried wait only adds waiting events to the log. *)
Lemma retry_every_60s_waits (tries : Z)
    (attempt : W -> result exn unit * W * list event) (s : W * list event) :
  (forall w, Forall (fun ev => waiting_event ev = true) (attempt w).2) ->
  extends_by_waiting s.2 (retry_every_60s tries attempt s).1.2.
Proof.
  intros Hattempt. unfold retry_every_60s, Retry.fn_with_retry.
  apply (Retry.retry_loop_invariant (fun _ => true) None 1 Z.mul Z.min
           logged_sleep (logged attempt)
           (extends_by_waiting s.2) (fun d => d = 60)).
  - intros [w log] (evs & Hlog & Hall). unfold logged. cbn in *.
    specialize (Hattempt w). destruct (attempt w) as [[r w'] evs']. cbn in *.
    exists (evs ++ evs'). split; [by rewrite Hlog, app_assoc|].
    apply Forall_app. by split.
  - intros d [w log] -> (evs & Hlog & Hall). unfold logged_sleep. cbn in *.
    exists (evs ++ [Sleep 60]). split; [by rewrite Hlog, app_assoc|].
    apply Forall_app. split; [exact Hall | by repeat constructor].
  - intros d ->. reflexivity.
  - reflexivity.
  - destruct s. apply extends_by_waiting_refl.
Qed.

(** What a retried wait does, read off the [retry] wrapper: some [n]
    attempts with [1 <= n <= tries], all but the last failing, and the
    outcome of the last one is the outcome of the wait. *)
Lemma retry_every_60s_attempts (tries : Z)
    (attempt : W -> result exn unit * W * list event) (s : W * list event) :
  1 <= tries ->
  exists (n : nat) (failed : list (result exn unit)) (last : result exn unit),
    (1 <= n)%nat /\ Z.of_nat n <= tries /\
    Retry.run_calls None 1 Z.mul Z.min logged_sleep (logged attempt) n 60 s
      = (failed ++ [last], (retry_every_60s tries attempt s).1.2) /\
    Forall (fun r => is_ok r = false) failed /\
    unwrap (retry_every_60s tries attempt s).1.1 = last.
Proof.
  intros Htries. unfold retry_every_60s.
  destruct (Retry.fn_with_retry_spec (fun _ => true) tries 60 None 1 Z.mul Z.min
              logged_sleep (logged attempt) s Htries)
    as (n & failed & last & Hn & Hle & Hrun & _ & Hall & Hout).
  exists n, failed, last. repeat split; try assumption.
  - eapply Forall_impl; [exact Hall|].
    intros r (err & -> & _). reflexivity.
  - rewrite Hout. destruct last as [[]|e]; reflexivity.
Qed.

Lemma waiting_not_deleted (evs : list event) :
  Forall (fun ev => waiting_event ev = true) evs -> deleted evs = [].
Proof.
  induction 1 as [|ev evs Hev _ IH]; [reflexivity|].
  destruct ev; cbn in *; try discriminate; exact IH.
Qed.


End manager.

(** ** A concrete cloud

    A small world to run the manager in: SSH to a new instance works from
    a given second on, [cloud-init status] prints a fixed text, and the
    health check of a listed server follows its status.  The world also
    holds what the platform would answer about the runner
    ([PlatformRunnerHealth]: online, busy, deletable); nothing in
    [OpenStackRunnerManager] reads it. *)

Record PlatformRunnerHealth : Type := {
  online : bool;
  busy : bool;
  deletable : bool;
}.

Record DemoWorld : Type := {
  clock : Z;
  ssh_reachable_from : Z;
  cloud_init_output : string;
  platform_health : PlatformRunnerHealth;
  servers : list OpenstackInstance;
}.

Definition demo_sleep (seconds : Z) (w : DemoWorld) : DemoWorld :=
  {| clock := clock w + seconds;
     ssh_reachable_from := ssh_reachable_from w;
     cloud_init_output := cloud_init_output w;
     platform_health := platform_health w;
     servers := servers w |}.

Definition demo_check_runner (instance : OpenstackInstance) : option bool :=
  if String.eqb (status instance) "ACTIVE" then Some true
  else if String.eqb (status instance) "ERROR" then Some false
  else None.

Definition demo_cloud : Collaborators DemoWorld unit unit := {|
  launch_instance := fun id _ _ _ _ w =>
    (Some {| instance_id := id; server_id := "server-1";
             created_at := clock w; status := "ACTIVE" |}, w);
  get_instances := fun w => (servers w, w);
  get_ssh_connection := fun _ w =>
    (if ssh_reachable_from w <=? clock w then Some tt else None, w);
  delete_instance := fun _ w => (true, w);
  cloud_cleanup := fun w => w;
  ssh_run := fun _ cmd w =>
    (Some {| ok := true;
             stdout := if String.eqb cmd "cloud-init status"
                       then cloud_init_output w else EmptyString |}, w);
  check_runner := fun instance w => (demo_check_runner instance, w);
  check_active_runner := fun _ _ w => (Some true, w);
  pull_runner_metrics := fun _ _ w => (tt, w);
  _generate_cloud_init := fun _ w => ("#!/bin/sh"%string, w);
  time_sleep := demo_sleep;
|}.

Definition demo_server_config : OpenStackServerConfig :=
  {| image := "noble"; flavor := "m1.small"; network := "net" |}.

Definition demo_config : OpenStackRunnerManagerConfig :=
  {| name_prefix := "unit-0"; server_config := Some demo_server_config |}.

Definition demo_id : InstanceID :=
  {| prefix := "unit-0"; reactive := false; suffix := "a1b2" |}.

Definition demo_create_runner (w : DemoWorld) :
    result exn unit * DemoWorld * list event :=
  create_runner demo_config demo_cloud "done" demo_id "jit-token" w.

(** SSH never comes up, while the platform reports the runner online. *)
Definition unreachable_but_online : DemoWorld :=
  {| clock := 0; ssh_reachable_from := 1000000;
     cloud_init_output := "status: running";
     platform_health := {| online := true; busy := false; deletable := false |};
     servers := [] |}.

(** SSH is up after two minutes and cloud-init is done, while the platform
    reports the runner neither online nor deletable. *)
Definition reachable_but_offline : DemoWorld :=
  {| clock := 0; ssh_reachable_from := 120;
     cloud_init_output := "status: done";
     platform_health := {| online := false; busy := false; deletable := false |};
     servers := [] |}.

(** Three servers: one healthy, one in error, one whose health check
    fails. *)
Definition demo_server (tag st : string) : OpenstackInstance :=
  {| instance_id := {| prefix := "unit-0"; reactive := false; suffix := tag |};
     server_id := tag; created_at := 0; status := st |}.

Definition mixed_fleet : DemoWorld :=
  {| clock := 0; ssh_reachable_from := 0;
     cloud_init_output := "status: done";
     platform_health := {| online := true; busy := false; deletable := false |};
     servers := [demo_server "a" "ACTIVE"; demo_server "b" "ERROR";
                 demo_server "c" "BUILD"] |}.

(** Readiness as the platform sees it. *)
Definition ready_on_platform (h : PlatformRunnerHealth) : bool :=
  online h || deletable h.

(** The readiness rule under test, at a world: the runner is ready exactly
    when the platform has it online or deletable, and a runner that is not
    ready is deleted on the cloud. *)
Definition readiness_decided_by_platform_health (w : DemoWorld) : Prop :=
  is_ok (demo_create_runner w).1.1 = ready_on_platform (platform_health w) /\
  (is_ok (demo_create_runner w).1.1 = false ->
   In demo_id (deleted (demo_create_runner w).2)).

Example create_runner_gives_up_after_ten_attempts :
  demo_create_runner unreachable_but_online
  = (Err RunnerStartError, demo_sleep 540 unreachable_but_online,
     LaunchInstance demo_id ::
     concat (replicate 9 [GetSSHConnection demo_id; Sleep 60])
     ++ [GetSSHConnection demo_id]).
Proof. vm_compute. reflexivity. Qed.

Example create_runner_returns_on_third_attempt :
  demo_create_runner reachable_but_offline
  = (Ok tt, demo_sleep 120 reachable_but_offline,
     [LaunchInstance demo_id;
      GetSSHConnection demo_id; Sleep 60;
      GetSSHConnection demo_id; Sleep 60;
      GetSSHConnection demo_id; SSHRun demo_id "cloud-init status";
      GetSSHConnection demo_id; CheckActiveRunner demo_id]).
Proof. vm_compute. reflexivity. Qed.

(** Only the server in error is deleted; the one whose check failed is
    left for the next pass. *)
Example cleanup_of_mixed_fleet :
  deleted (cleanup demo_cloud tt (fun _ _ _ => Some tt) "token" mixed_fleet).2
    = [instance_id (demo_server "b" "ERROR")] /\
  verdicts (cleanup demo_cloud tt (fun _ _ _ => Some tt) "token" mixed_fleet).2
    = [(demo_server "a" "ACTIVE", HEALTHY); (demo_server "b" "ERROR", UNHEALTHY);
       (demo_server "c" "BUILD", UNKNOWN)].
Proof. split; reflexivity. Qed.



End OpenStack.

(** * reactive/consumer.py *)

Module Consumer.

(** ** Data *)

Definition END_PROCESSING_PAYLOAD : string := "__END__".

(** A queue message: its payload, and the delivery tag that tells two
    deliveries apart. *)
Record Message : Type := {
  delivery_tag : nat;
  payload : string;
}.

(** Of a pydantic [HttpUrl] the consumer reads the path. *)
Record HttpUrl : Type := {
  href : string;
  path : option string;
}.

Record JobDetails : Type := {
  labels : gset string;
  url : HttpUrl;
}.

Inductive exn : Type :=
| JobError
| PlatformApiError.

(** How a call of [consume] ends: it returns, an exception leaves it, or
    [simple_queue.get(block=True)] waits on a queue that stays empty. *)
Inductive outcome : Type :=
| Returned
| Raised (e : exn)
| BlockedOnGet.

(** How one pass through the body of [while True] ends. *)
Inductive step : Type :=
| Continue
| Break
| Raise (e : exn).

(** The calls the consumer issues, in program order.  A
    [CheckJobBeenPickedUp] records the answer: [None] when the platform
    raised [PlatformApiError]. *)
Inductive event : Type :=
| Get (msg : Message)
| Ack (msg : Message)
| Reject (msg : Message) (requeue : bool)
| CheckJobBeenPickedUp (job_url : HttpUrl) (answer : option bool)
| CreateRunners (num : Z) (is_reactive : bool)
| Sleep (seconds : Z).

(** ** The collaborators

    [platform_provider.check_job_been_picked_up] answers or raises
    [PlatformApiError] ([None]); [runner_manager.create_runners] returns
    the instance ids of the runners it created. *)
Record Collaborators (W InstanceID : Type) : Type := {
  check_job_been_picked_up : HttpUrl -> W -> option bool * W;
  create_runners : Z -> bool -> W -> list InstanceID * W;
  time_sleep : Z -> W -> W;
}.
Arguments check_job_been_picked_up {W InstanceID} c _ _.
Arguments create_runners {W InstanceID} c _ _ _.
Arguments time_sleep {W InstanceID} c _ _.

Section consumer.
Context {W InstanceID : Type}.
Variable env : Collaborators W InstanceID.
(** [str.lower]. *)
Variable lower : string -> string.
(** The field parsing of [JobDetails.parse_raw], before the validator of
    [url] runs; [None] is a [ValidationError]. *)
Variable parse_fields : string -> option JobDetails.
Variable supported_labels : gset string.

(** The validator of [url]: raises [ValueError] when [v.path] is falsy. *)
Definition check_job_url_path_is_not_empty (v : HttpUrl) : option HttpUrl :=
  match path v with
  | None => None
  | Some p => if String.eqb p EmptyString then None else Some v
  end.

Definition parse_raw (raw : string) : option JobDetails :=
  match parse_fields raw with
  | None => None
  | Some job =>
      match check_job_url_path_is_not_empty (url job) with
      | None => None
      | Some v => Some {| labels := labels job; url := v |}
      end
  end.

Definition _parse_job_details (msg : Message) : result exn JobDetails * list event :=
  match parse_raw (payload msg) with
  | None => (Err JobError, [Reject msg false])
  | Some job_details => (Ok job_details, [])
  end.

Definition lowered (ls : gset string) : gset string :=
  set_map lower ls.

Definition _validate_labels (labels supported_labels : gset string) : bool :=
  bool_decide (lowered labels ⊆ lowered supported_labels).

(** The loop [for _ in range(10)] of [_spawn_runner] with its [else]. *)
Fixpoint poll_job (polls : nat) (job_url : HttpUrl) (msg : Message) (w : W) :
    result exn unit * W * list event :=
  match polls with
  | O => (Ok tt, w, [Reject msg true])
  | S polls' =>
      let '(answer, w1) := check_job_been_picked_up env job_url w in
      match answer with
      | None => (Err PlatformApiError, w1, [CheckJobBeenPickedUp job_url answer])
      | Some true => (Ok tt, w1, [CheckJobBeenPickedUp job_url answer; Ack msg])
      | Some false =>
          let w2 := time_sleep env 30 w1 in
          let '(r, w3, evs) := poll_job polls' job_url msg w2 in
          (r, w3, CheckJobBeenPickedUp job_url answer :: Sleep 30 :: evs)
      end
  end.

Definition _spawn_runner (job_url : HttpUrl) (msg : Message) (w : W) :
    result exn unit * W * list event :=
  let '(instance_ids, w1) := create_runners env 1 true w in
  match instance_ids with
  | [] => (Ok tt, w1, [CreateRunners 1 true; Reject msg true])
  | _ :: _ =>
      let '(r, w2, evs) := poll_job 10 job_url msg w1 in
      (r, w2, CreateRunners 1 true :: evs)
  end.

(** The body of [while True] for the message [get] returned. *)
Definition handle_message (msg : Message) (w : W) : step * W * list event :=
  if String.eqb (payload msg) END_PROCESSING_PAYLOAD then (Break, w, [Get msg; Ack msg])
  else
    match _parse_job_details msg with
    | (Err e, evs) => (Raise e, w, Get msg :: evs)
    | (Ok job_details, evs) =>
        if negb (_validate_labels (labels job_details) supported_labels)
        then (Continue, w, Get msg :: evs ++ [Reject msg false])
        else
          let '(answer, w1) := check_job_been_picked_up env (url job_details) w in
          let checked := CheckJobBeenPickedUp (url job_details) answer in
          match answer with
          | None => (Raise PlatformApiError, w1, Get msg :: evs ++ [checked])
          | Some true => (Continue, w1, Get msg :: evs ++ [checked; Ack msg])
          | Some false =>
              let '(r, w2, evs2) := _spawn_runner (url job_details) msg w1 in
              (match r with Ok _ => Break | Err e => Raise e end,
               w2, Get msg :: evs ++ checked :: evs2)
          end
    end.

(** [consume], on the messages the queue delivers to this consumer, in
    order. *)
Fixpoint consume (deliveries : list Message) (w : W) : outcome * W * list event :=
  match deliveries with
  | [] => (BlockedOnGet, w, [])
  | msg :: rest =>
      let '(st, w1, evs) := handle_message msg w in
      match st with
      | Break => (Returned, w1, evs)
      | Raise e => (Raised e, w1, evs)
      | Continue =>
          let '(out, w2, evs2) := consume rest w1 in
          (out, w2, evs ++ evs2)
      end
  end.

(** *** Reading a log *)

(** An acknowledgement is justified when the message is the sentinel, or
    when the call just before it was [check_job_been_picked_up] on the URL
    of the message's job, and it answered [True]. *)
Definition ack_justified (prev : option event) (msg : Message) : Prop :=
  payload msg = END_PROCESSING_PAYLOAD \/
  exists job_details : JobDetails,
    parse_raw (payload msg) = Some job_details /\
    prev = Some (CheckJobBeenPickedUp (url job_details) (Some true)).

Fixpoint justified (prev : option event) (log : list event) : Prop :=
  match log with
  | [] => True
  | ev :: log' =>
      match ev with
      | Ack msg => ack_justified prev msg
      | _ => True
      end /\ justified (Some ev) log'
  end.

(** The messages received, and the messages settled (acknowledged or
    rejected), in order. *)
Fixpoint got (log : list event) : list Message :=
  match log with
  | [] => []
  | Get msg :: log' => msg :: got log'
  | _ :: log' => got log'
  end.

Fixpoint settled (log : list event) : list Message :=
  match log with
  | [] => []
  | Ack msg :: log' => msg :: settled log'
  | Reject msg _ :: log' => msg :: settled log'
  | _ :: log' => settled log'
  end.

(** [k] polls that found the job not picked up, each followed by its
    sleep. *)
Definition failed_polls (k : nat) (job_url : HttpUrl) : list event :=
  concat (replicate k [CheckJobBeenPickedUp job_url (Some false); Sleep 30]).

Definition is_create (ev : event) : bool :=
  match ev with CreateRunners _ _ => true | _ => false end.

(** The number of calls of [check_job_been_picked_up] in a log. *)
Fixpoint poll_count (log : list event) : nat :=
  match log with
  | [] => O
  | CheckJobBeenPickedUp _ _ :: log' => S (poll_count log')
  | _ :: log' => poll_count log'
  end.

(** What C7 states: after rejecting the poison message the loop goes on
    with the messages that follow. *)
Definition continues_after_poison (msg : Message) (rest : list Message) (w : W) : Prop :=
  consume (msg :: rest) w =
    (let '(out, w', evs) := consume rest w in
     (out, w', [Get msg; Reject msg false] ++ evs)).

(** *** Facts about [_spawn_runner] *)

Lemma poll_job_log (polls : nat) (job_url : HttpUrl) (msg : Message) :
  forall w : W,
  exists k : nat,
    (k <= polls)%nat /\
    ( ((k < polls)%nat /\
       (poll_job polls job_url msg w).1.1 = Ok tt /\
       (poll_job polls job_url msg w).2 =
         failed_polls k job_url ++
         [CheckJobBeenPickedUp job_url (Some true); Ack msg])
      \/
      (k = polls /\
       (poll_job polls job_url msg w).1.1 = Ok tt /\
       (poll_job polls job_url msg w).2 =
         failed_polls k job_url ++ [Reject msg true])
      \/
      ((k < polls)%nat /\
       (poll_job polls job_url msg w).1.1 = Err PlatformApiError /\
       (poll_job polls job_url msg w).2 =
         failed_polls k job_url ++ [CheckJobBeenPickedUp job_url None]) ).
Proof.
  induction polls as [|n IH]; intros w.
  - exists O. split; [lia|]. right. left. easy.
  - cbn [poll_job].
    destruct (check_job_been_picked_up env job_url w) as [[[|]|] w1].
    + exists O. split; [lia|]. left. repeat split; lia.
    + destruct (IH (time_sleep env 30 w1)) as (k & Hk & Hcases).
      destruct (poll_job n job_url msg (time_sleep env 30 w1)) as [[r w3] evs].
      cbn in Hcases |- *.
      exists (S k). split; [lia|].
      destruct Hcases as [(Hlt & Hr & Hlog)|[(Heq & Hr & Hlog)|(Hlt & Hr & Hlog)]].
      * left. repeat split; [lia | exact Hr | by rewrite Hlog].
      * right. left. repeat split; [lia | exact Hr | by rewrite Hlog].
      * right. right. repeat split; [lia | exact Hr | by rewrite Hlog].
    + exists O. split; [lia|]. right. right. repeat split; lia.
Qed.

Lemma justified_app (prev : option event) (l1 l2 : list event) :
  justified prev l1 -> (forall p, justified p l2) -> justified prev (l1 ++ l2).
Proof.
  revert prev. induction l1 as [|ev l1 IH]; intros prev H1 H2; [apply H2|].
  destruct H1 as [Hev H1]. split; [exact Hev | by apply IH].
Qed.

Lemma justified_split (log : list event) :
  forall (prev : option event) (pre post : list event) (msg : Message),
    justified prev log -> log = pre ++ Ack msg :: post ->
    ack_justified (match last pre with Some ev => Some ev | None => prev end) msg.
Proof.
  induction log as [|ev log IH]; intros prev pre post msg Hj Heq.
  - by destruct pre.
  - destruct pre as [|ev' pre]; cbn in Heq; inversion Heq; subst.
    + destruct Hj as [Hj _]. exact Hj.
    + destruct Hj as [_ Hj].
      specialize (IH (Some ev') pre post msg Hj eq_refl).
      destruct pre as [|ev'' pre]; [exact IH|].
      change (last (ev' :: ev'' :: pre)) with (last (ev'' :: pre)).
      destruct (last (ev'' :: pre)) eqn:Hlast; [exact IH|].
      by apply last_None in Hlast.
Qed.

Lemma poll_job_justified (polls : nat) (msg : Message) (job_details : JobDetails) :
  parse_raw (payload msg) = Some job_details ->
  forall (w : W) (prev : option event),
    justified prev (poll_job polls (url job_details) msg w).2.
Proof.
  intros Hparse. induction polls as [|n IH]; intros w prev; [easy|].
  cbn [poll_job].
  destruct (check_job_been_picked_up env (url job_details) w) as [[[|]|] w1].
  - cbn. repeat split. right. exists job_details. by split.
  - specialize (IH (time_sleep env 30 w1)
                  (Some (Sleep 30))).
    destruct (poll_job n (url job_details) msg (time_sleep env 30 w1)) as [[r w3] evs].
    cbn in IH |- *. by repeat split.
  - easy.
Qed.

Lemma poll_job_settled (polls : nat) (job_url : HttpUrl) (msg : Message) :
  forall w : W,
    got (poll_job polls job_url msg w).2 = [] /\
    Forall (fun ev => is_create ev = false /\ ev <> Reject msg false)
      (poll_job polls job_url msg w).2 /\
    (settled (poll_job polls job_url msg w).2 = [msg] \/
     (settled (poll_job polls job_url msg w).2 = [] /\
      (poll_job polls job_url msg w).1.1 = Err PlatformApiError)).
Proof.
  induction polls as [|n IH]; intros w.
  - cbn. repeat split; [|by left]. by repeat constructor.
  - cbn [poll_job].
    destruct (check_job_been_picked_up env job_url w) as [[[|]|] w1].
    + cbn. repeat split; [|by left]. by repeat constructor.
    + specialize (IH (time_sleep env 30 w1)).
      destruct (poll_job n job_url msg (time_sleep env 30 w1)) as [[r w3] evs].
      cbn in IH |- *. destruct IH as (Hg & Hf & Hs).
      repeat split; [exact Hg | | exact Hs]. by repeat constructor.
    + cbn. repeat split; [|by right]. by repeat constructor.
Qed.

Lemma got_app (l1 l2 : list event) : got (l1 ++ l2) = got l1 ++ got l2.
Proof.
  induction l1 as [|ev l1 IH]; [reflexivity|].
  destruct ev; cbn; rewrite ?IH; reflexivity.
Qed.

Lemma settled_app (l1 l2 : list event) : settled (l1 ++ l2) = settled l1 ++ settled l2.
Proof.
  induction l1 as [|ev l1 IH]; [reflexivity|].
  destruct ev; cbn; rewrite ?IH; reflexivity.
Qed.

Lemma poll_count_failed_polls (k : nat) (job_url : HttpUrl) (tail : list event) :
  poll_count (failed_polls k job_url ++ tail) = (k + poll_count tail)%nat.
Proof.
  induction k as [|k IH]; [reflexivity|].
  unfold failed_polls in *. cbn. by rewrite IH.
Qed.

(** C5.  [_spawn_runner] asks for one reactive runner.  When none was
    created it rejects the message with requeue and does not poll.
    Otherwise it polls [check_job_been_picked_up] at most 10 times: [k]
    polls answer [False], each followed by a sleep of 30 seconds, and then
    either the next poll (one of the 10) answers [True] and the message is
    acknowledged right after it, or [k = 10] and the message is rejected
    with requeue, or the next poll raises [PlatformApiError], which leaves
    [_spawn_runner] with the message unsettled. *)
Theorem spawn_runner_polls_at_most_ten_times
    (job_url : HttpUrl) (msg : Message) (w : W) :
  match (create_runners env 1 true w).1 with
  | [] =>
      _spawn_runner job_url msg w =
        (Ok tt, (create_runners env 1 true w).2,
         [CreateRunners 1 true; Reject msg true])
  | _ :: _ =>
      (poll_count (_spawn_runner job_url msg w).2 <= 10)%nat /\
      exists k : nat,
        (k <= 10)%nat /\
        ( ((k < 10)%nat /\
           (_spawn_runner job_url msg w).1.1 = Ok tt /\
           (_spawn_runner job_url msg w).2 =
             CreateRunners 1 true :: failed_polls k job_url ++
             [CheckJobBeenPickedUp job_url (Some true); Ack msg])
          \/
          (k = 10%nat /\
           (_spawn_runner job_url msg w).1.1 = Ok tt /\
           (_spawn_runner job_url msg w).2 =
             CreateRunners 1 true :: failed_polls k job_url ++ [Reject msg true])
          \/
          ((k < 10)%nat /\
           (_spawn_runner job_url msg w).1.1 = Err PlatformApiError /\
           (_spawn_runner job_url msg w).2 =
             CreateRunners 1 true :: failed_polls k job_url ++
             [CheckJobBeenPickedUp job_url None]) )
  end.
Proof.
  unfold _spawn_runner.
  destruct (create_runners env 1 true w) as [[|instance_id others] w1]; [reflexivity|].
  cbn [fst snd].
  destruct (poll_job_log 10 job_url msg w1) as (k & Hk & Hcases).
  destruct (poll_job 10 job_url msg w1) as [[r w2] evs]. cbn [fst snd] in Hcases |- *.
  assert (Hcount : (poll_count (CreateRunners 1 true :: evs) <= 10)%nat).
  { cbn [poll_count].
    destruct Hcases as [(Hlt & _ & ->)|[(Heq & _ & ->)|(Hlt & _ & ->)]];
      rewrite poll_count_failed_polls; cbn; lia. }
  split; [exact Hcount|].
  exists k. split; [exact Hk|].
  destruct Hcases as [(Hlt & Hr & Hlog)|[(Heq & Hr & Hlog)|(Hlt & Hr & Hlog)]].
  - left. by rewrite Hlog.
  - right. left. by rewrite Hlog.
  - right. right. by rewrite Hlog.
Qed.

(** *** Facts about the consume loop *)

Lemma _spawn_runner_justified (msg : Message) (job_details : JobDetails) (w : W) :
  parse_raw (payload msg) = Some job_details ->
  forall prev, justified prev (_spawn_runner (url job_details) msg w).2.
Proof.
  intros Hparse prev. unfold _spawn_runner.
  destruct (create_runners env 1 true w) as [[|instance_id others] w1]; [easy|].
  pose proof (poll_job_justified 10 msg job_details Hparse w1
                (Some (CreateRunners 1 true))) as Hj.
  destruct (poll_job 10 (url job_details) msg w1) as [[r w2] evs].
  cbn in Hj |- *. by split.
Qed.

Lemma _spawn_runner_settled (job_url : HttpUrl) (msg : Message) (w : W) :
  got (_spawn_runner job_url msg w).2 = [] /\
  Forall (fun ev => ev <> Reject msg false) (_spawn_runner job_url msg w).2 /\
  (settled (_spawn_runner job_url msg w).2 = [msg] \/
   (settled (_spawn_runner job_url msg w).2 = [] /\
    (_spawn_runner job_url msg w).1.1 = Err PlatformApiError)).
Proof.
  unfold _spawn_runner.
  destruct (create_runners env 1 true w) as [[|instance_id others] w1].
  - cbn. repeat split; [|by left]. by repeat constructor.
  - pose proof (poll_job_settled 10 job_url msg w1) as (Hg & Hf & Hs).
    destruct (poll_job 10 job_url msg w1) as [[r w2] evs].
    cbn in *. repeat split; [exact Hg | | exact Hs].
    constructor; [discriminate|].
    eapply Forall_impl; [exact Hf|]. by intros ev [_ Hev].
Qed.

Lemma handle_message_justified (msg : Message) (w : W) (prev : option event) :
  justified prev (handle_message msg w).2.
Proof.
  unfold handle_message.
  destruct (String.eqb (payload msg) END_PROCESSING_PAYLOAD) eqn:Hend.
  - apply String.eqb_eq in Hend. cbn. repeat split. by left.
  - unfold _parse_job_details.
    destruct (parse_raw (payload msg)) as [job_details|] eqn:Hparse; [|easy].
    destruct (negb (_validate_labels (labels job_details) supported_labels)); [easy|].
    destruct (check_job_been_picked_up env (url job_details) w) as [[[|]|] w1].
    + cbn. repeat split. right. exists job_details. by split.
    + pose proof (_spawn_runner_justified msg job_details w1 Hparse
                    (Some (CheckJobBeenPickedUp (url job_details) (Some false)))) as Hj.
      destruct (_spawn_runner (url job_details) msg w1) as [[r w2] evs2].
      cbn in Hj |- *. by repeat split.
    + easy.
Qed.

Lemma handle_message_settled (msg : Message) (w : W) :
  got (handle_message msg w).2 = [msg] /\
  (settled (handle_message msg w).2 = [msg] \/
   (settled (handle_message msg w).2 = [] /\
    (handle_message msg w).1.1 = Raise PlatformApiError)).
Proof.
  unfold handle_message.
  destruct (String.eqb (payload msg) END_PROCESSING_PAYLOAD); [by split; [|left]|].
  unfold _parse_job_details.
  destruct (parse_raw (payload msg)) as [job_details|]; [|by split; [|left]].
  destruct (negb (_validate_labels (labels job_details) supported_labels));
    [by split; [|left]|].
  destruct (check_job_been_picked_up env (url job_details) w) as [[[|]|] w1].
  - by split; [|left].
  - pose proof (_spawn_runner_settled (url job_details) msg w1) as (Hg & _ & Hs).
    destruct (_spawn_runner (url job_details) msg w1) as [[r w2] evs2].
    cbn in *. rewrite Hg. split; [reflexivity|].
    destruct Hs as [Hs|[Hs Hr]]; [by left|]. right. by rewrite Hs, Hr.
  - by split; [|right].
Qed.

Lemma consume_justified (deliveries : list Message) :
  forall (w : W) (prev : option event), justified prev (consume deliveries w).2.
Proof.
  induction deliveries as [|msg rest IH]; intros w prev; [easy|].
  cbn [consume].
  pose proof (handle_message_justified msg w) as Hj.
  destruct (handle_message msg w) as [[st w1] evs]. cbn in Hj.
  destruct st; [|apply Hj|apply Hj].
  specialize (IH w1).
  destruct (consume rest w1) as [[out w2] evs2]. cbn in IH |- *.
  by apply justified_app.
Qed.

Lemma consume_settled (deliveries : list Message) :
  forall w : W,
    got (consume deliveries w).2 `prefix_of` deliveries /\
    settled (consume deliveries w).2 `prefix_of` got (consume deliveries w).2 /\
    (length (got (consume deliveries w).2)
       <= S (length (settled (consume deliveries w).2)))%nat.
Proof.
  induction deliveries as [|msg rest IH]; intros w.
  - cbn. repeat split; [done | done | lia].
  - cbn [consume].
    pose proof (handle_message_settled msg w) as (Hg & Hs).
    destruct (handle_message msg w) as [[st w1] evs]. cbn in Hg, Hs.
    destruct st.
    + destruct Hs as [Hs|[_ Hst]]; [|discriminate].
      specialize (IH w1).
      destruct (consume rest w1) as [[out w2] evs2]. cbn in IH |- *.
      destruct IH as (IHg & IHs & IHl).
      rewrite got_app, settled_app, Hg, Hs. cbn.
      repeat split; [by apply prefix_cons | by apply prefix_cons | lia].
    + cbn. rewrite Hg. split; [apply prefix_cons, prefix_nil|].
      destruct Hs as [Hs|[Hs _]]; rewrite Hs; cbn; split;
        [done | lia | apply prefix_nil | lia].
    + cbn. rewrite Hg. split; [apply prefix_cons, prefix_nil|].
      destruct Hs as [Hs|[Hs _]]; rewrite Hs; cbn; split;
        [done | lia | apply prefix_nil | lia].
Qed.

(** C2.  In the log of [consume], every acknowledgement is of the sentinel
    message or comes right after a call of [check_job_been_picked_up] on
    the URL of that message's job that answered [True].  Messages are
    received in delivery order and settled (acknowledged or rejected) in
    the order received, each at most once; only the message received last
    can be left unsettled. *)
Theorem ack_only_after_pickup_or_sentinel (deliveries : list Message) (w : W) :
  (forall (pre post : list event) (msg : Message),
      (consume deliveries w).2 = pre ++ Ack msg :: post ->
      payload msg = END_PROCESSING_PAYLOAD \/
      exists (job_details : JobDetails) (pre' : list event),
        parse_raw (payload msg) = Some job_details /\
        pre = pre' ++ [CheckJobBeenPickedUp (url job_details) (Some true)]) /\
  got (consume deliveries w).2 `prefix_of` deliveries /\
  settled (consume deliveries w).2 `prefix_of` got (consume deliveries w).2 /\
  (length (got (consume deliveries w).2)
     <= S (length (settled (consume deliveries w).2)))%nat.
Proof.
  split; [|apply consume_settled].
  intros pre post msg Hlog.
  pose proof (justified_split _ None pre post msg
                (consume_justified deliveries w None) Hlog) as [Hend|Hjob].
  - by left.
  - right. destruct Hjob as (job_details & Hparse & Hprev).
    destruct (last pre) as [ev|] eqn:Hlast; [|discriminate].
    inversion Hprev; subst ev.
    apply last_Some in Hlast as [pre' ->].
    by exists job_details, pre'.
Qed.

(** C6.  For a message that parses as a job with labels [L]: when the
    lower-cased [L] is not included in the lower-cased supported labels,
    the message is rejected without requeue and the loop goes on, with no
    other call; when it is included, the next call is the dispatch check
    on the job's URL.  So the message is rejected without requeue, with no
    runner created, exactly when the inclusion fails. *)
Theorem unsupported_labels_rejected_without_requeue
    (msg : Message) (job_details : JobDetails) (w : W) :
  payload msg <> END_PROCESSING_PAYLOAD ->
  parse_raw (payload msg) = Some job_details ->
  (~ lowered (labels job_details) ⊆ lowered supported_labels ->
   handle_message msg w = (Continue, w, [Get msg; Reject msg false])) /\
  (lowered (labels job_details) ⊆ lowered supported_labels ->
   exists rest : list event,
     (handle_message msg w).2 =
       Get msg ::
       CheckJobBeenPickedUp (url job_details)
         (check_job_been_picked_up env (url job_details) w).1 :: rest) /\
  (In (Reject msg false) (handle_message msg w).2 /\
   Forall (fun ev => is_create ev = false) (handle_message msg w).2
   <-> ~ lowered (labels job_details) ⊆ lowered supported_labels).
Proof.
  intros Hend Hparse.
  apply String.eqb_neq in Hend.
  assert (Hno : ~ lowered (labels job_details) ⊆ lowered supported_labels ->
                handle_message msg w = (Continue, w, [Get msg; Reject msg false])).
  { intros Hsub. unfold handle_message, _parse_job_details, _validate_labels.
    rewrite Hend, Hparse. by rewrite bool_decide_eq_false_2. }
  assert (Hyes : lowered (labels job_details) ⊆ lowered supported_labels ->
                 (exists rest : list event,
                    (handle_message msg w).2 =
                      Get msg ::
                      CheckJobBeenPickedUp (url job_details)
                        (check_job_been_picked_up env (url job_details) w).1 :: rest) /\
                 ~ In (Reject msg false) (handle_message msg w).2).
  { intros Hsub. unfold handle_message, _parse_job_details, _validate_labels.
    rewrite Hend, Hparse. rewrite bool_decide_eq_true_2 by exact Hsub. cbn [negb].
    destruct (check_job_been_picked_up env (url job_details) w) as [[[|]|] w1].
    - split; [by eexists|]. cbn. intros [H|[H|[H|[]]]]; discriminate.
    - pose proof (_spawn_runner_settled (url job_details) msg w1) as (_ & Hf & _).
      destruct (_spawn_runner (url job_details) msg w1) as [[r w2] evs2].
      cbn in Hf |- *. split; [by eexists|].
      intros [H|[H|H]]; try discriminate.
      rewrite Forall_forall in Hf. eapply Hf; [|reflexivity].
      by apply list_elem_of_In.
    - split; [by eexists|]. cbn. intros [H|[H|[]]]; discriminate. }
  split; [exact Hno|]. split; [intros Hsub; by apply Hyes|].
  split.
  - intros [Hin _] Hsub. by apply (Hyes Hsub).
  - intros Hsub. rewrite (Hno Hsub). cbn. split; [auto|by repeat constructor].
Qed.

(** C7, as the code has it.  A message that does not parse as [JobDetails]
    is rejected without requeue, and then [JobError] leaves [consume]: the
    messages after it are not received by this call. *)
Theorem poison_message_rejected_then_JobError
    (msg : Message) (rest : list Message) (w : W) :
  payload msg <> END_PROCESSING_PAYLOAD ->
  parse_raw (payload msg) = None ->
  consume (msg :: rest) w = (Raised JobError, w, [Get msg; Reject msg false]).
Proof.
  intros Hend Hparse. apply String.eqb_neq in Hend.
  cbn [consume]. unfold handle_message, _parse_job_details.
  by rewrite Hend, Hparse.
Qed.

End consumer.

(** ** A concrete consumer

    A small platform and runner manager to run the consumer with: the
    dispatch check reads its answers from a list (and answers [False] when
    the list is used up), and [create_runners] creates a runner or not as
    the world says.  Payloads are decoded from a table. *)

Record DemoWorld : Type := {
  pickup_answers : list (option bool);
  runner_can_start : bool;
  waited : Z;
}.

Definition demo_env : Collaborators DemoWorld nat := {|
  check_job_been_picked_up := fun _ w =>
    match pickup_answers w with
    | [] => (Some false, w)
    | answer :: others =>
        (answer, {| pickup_answers := others;
                    runner_can_start := runner_can_start w;
                    waited := waited w |})
    end;
  create_runners := fun _ _ w =>
    (if runner_can_start w then [1%nat] else [], w);
  time_sleep := fun seconds w =>
    {| pickup_answers := pickup_answers w;
       runner_can_start := runner_can_start w;
       waited := waited w + seconds |};
|}.

(** [str.lower] on ASCII letters. *)
Definition ascii_lower (c : ascii) : ascii :=
  let n := nat_of_ascii c in
  if ((65 <=? n) && (n <=? 90))%nat then ascii_of_nat (n + 32) else c.

Fixpoint string_lower (s : string) : string :=
  match s with
  | EmptyString => EmptyString
  | String c s' => String (ascii_lower c) (string_lower s')
  end.

Definition job_99 : HttpUrl :=
  {| href := "https://h/jobs/99"; path := Some "/jobs/99"%string |}.

Definition demo_parse (raw : string) : option JobDetails :=
  if String.eqb raw "job X64 https://h/jobs/99"
  then Some {| labels := {[ "X64"%string ]}; url := job_99 |}
  else if String.eqb raw "job arm64 https://h/jobs/99"
  then Some {| labels := {[ "arm64"%string ]}; url := job_99 |}
  else if String.eqb raw "job x64 https://h"
  then Some {| labels := {[ "x64"%string ]};
               url := {| href := "https://h"; path := None |} |}
  else None.

Definition demo_supported : gset string := {[ "x64"%string; "self-hosted"%string ]}.

Definition demo_consume (deliveries : list Message) (w : DemoWorld) :
    outcome * DemoWorld * list event :=
  consume demo_env string_lower demo_parse demo_supported deliveries w.

Definition x64_job : Message :=
  {| delivery_tag := 1; payload := "job X64 https://h/jobs/99" |}.
Definition arm64_job : Message :=
  {| delivery_tag := 2; payload := "job arm64 https://h/jobs/99" |}.
Definition poison : Message :=
  {| delivery_tag := 3; payload := "not a job" |}.
Definition sentinel : Message :=
  {| delivery_tag := 4; payload := END_PROCESSING_PAYLOAD |}.

Definition quiet_world : DemoWorld :=
  {| pickup_answers := [Some false; Some false; Some true];
     runner_can_start := true; waited := 0 |}.

(** Scenario S4 of the specification: the job is not yet dispatched, a
    runner is spawned, and the second poll finds the job picked up. *)
Example reactive_happy_path :
  (demo_consume [x64_job] quiet_world).2
  = [Get x64_job; CheckJobBeenPickedUp job_99 (Some false);
     CreateRunners 1 true;
     CheckJobBeenPickedUp job_99 (Some false); Sleep 30;
     CheckJobBeenPickedUp job_99 (Some true); Ack x64_job].
Proof. vm_compute. reflexivity. Qed.

(** Scenario S5: unsupported labels; the loop goes on to the sentinel. *)
Example reactive_unsupported_labels :
  demo_consume [arm64_job; sentinel] quiet_world
  = (Returned, quiet_world,
     [Get arm64_job; Reject arm64_job false; Get sentinel; Ack sentinel]).
Proof. vm_compute. reflexivity. Qed.

Example poison_stops_the_consumer :
  demo_consume [poison; sentinel] quiet_world
  = (Raised JobError, quiet_world, [Get poison; Reject poison false]).
Proof. vm_compute. reflexivity. Qed.

(** C7 as stated fails on the code: after the poison message the sentinel
    that follows is never received. *)
Lemma poison_message_ends_the_loop :
  ~ continues_after_poison demo_env string_lower demo_parse demo_supported
      poison [sentinel] quiet_world.
Proof.
  unfold continues_after_poison.
  change (consume demo_env string_lower demo_parse demo_supported
            (poison :: [sentinel]) quiet_world)
    with (demo_consume [poison; sentinel] quiet_world).
  rewrite poison_stops_the_consumer. vm_compute. discriminate.
Qed.

Lemma poison_message_rejected_then_JobError_witness :
  payload poison <> END_PROCESSING_PAYLOAD /\
  parse_raw demo_parse (payload poison) = None /\
  consume demo_env string_lower demo_parse demo_supported
    (poison :: [sentinel]) quiet_world
  = (Raised JobError, quiet_world, [Get poison; Reject poison false]).
Proof.
  split; [discriminate|]. split; [reflexivity|].
  apply (poison_message_rejected_then_JobError demo_env string_lower demo_parse
           demo_supported poison [sentinel] quiet_world);
    [discriminate | reflexivity].
Defined.

Definition arm64_details : JobDetails :=
  {| labels := {[ "arm64"%string ]}; url := job_99 |}.

Lemma unsupported_labels_rejected_witness :
  payload arm64_job <> END_PROCESSING_PAYLOAD /\
  parse_raw demo_parse (payload arm64_job) = Some arm64_details /\
  (~ lowered string_lower (labels arm64_details)
       ⊆ lowered string_lower demo_supported ->
   handle_message demo_env string_lower demo_parse demo_supported arm64_job quiet_world
     = (Continue, quiet_world, [Get arm64_job; Reject arm64_job false])) /\
  (lowered string_lower (labels arm64_details)
     ⊆ lowered string_lower demo_supported ->
   exists rest : list event,
     (handle_message demo_env string_lower demo_parse demo_supported
        arm64_job quiet_world).2 =
       Get arm64_job ::
       CheckJobBeenPickedUp (url arm64_details)
         (check_job_been_picked_up demo_env (url arm64_details) quiet_world).1
       :: rest) /\
  (In (Reject arm64_job false)
      (handle_message demo_env string_lower demo_parse demo_supported
         arm64_job quiet_world).2 /\
   Forall (fun ev => is_create ev = false)
      (handle_message demo_env string_lower demo_parse demo_supported
         arm64_job quiet_world).2
   <-> ~ lowered string_lower (labels arm64_details)
           ⊆ lowered string_lower demo_supported).
Proof.
  split; [discriminate|]. split; [reflexivity|].
  apply (unsupported_labels_rejected_without_requeue demo_env string_lower
           demo_parse demo_supported arm64_job arm64_details quiet_world);
    [discriminate | reflexivity].
Defined.

Lemma ack_only_after_pickup_witness :
  (demo_consume [x64_job] quiet_world).2
  = [Get x64_job; CheckJobBeenPickedUp job_99 (Some false);
     CreateRunners 1 true;
     CheckJobBeenPickedUp job_99 (Some false); Sleep 30;
     CheckJobBeenPickedUp job_99 (Some true)] ++ Ack x64_job :: [] /\
  (payload x64_job = END_PROCESSING_PAYLOAD \/
   exists (job_details : JobDetails) (pre' : list event),
     parse_raw demo_parse (payload x64_job) = Some job_details /\
     [Get x64_job; CheckJobBeenPickedUp job_99 (Some false);
      CreateRunners 1 true;
      CheckJobBeenPickedUp job_99 (Some false); Sleep 30;
      CheckJobBeenPickedUp job_99 (Some true)]
     = pre' ++ [CheckJobBeenPickedUp (url job_details) (Some true)]).
Proof.
  split; [exact reactive_happy_path|].
  exact (proj1 (ack_only_after_pickup_or_sentinel demo_env string_lower demo_parse
                  demo_supported [x64_job] quiet_world)
           [Get x64_job; CheckJobBeenPickedUp job_99 (Some false);
            CreateRunners 1 true;
            CheckJobBeenPickedUp job_99 (Some false); Sleep 30;
            CheckJobBeenPickedUp job_99 (Some true)]
           [] x64_job reactive_happy_path).
Defined.

End Consumer.

(** * manager/runner_scaler.py *)

Module Scaler.

(** ** Data *)

Inductive GitHubRunnerState : Type := BUSY | IDLE | OFFLINE.

Inductive HealthState : Type := HEALTHY | UNHEALTHY | UNKNOWN.

(** Of a [RunnerInstance] the scaler reads the name, the platform state
    (which can be missing) and the health. *)
Record RunnerInstance : Type := {
  name : string;
  github_state : option GitHubRunnerState;
  health : HealthState;
}.

(** The metric event classes, the keys of [IssuedMetricEventsStats]. *)
Inductive MetricEvent : Type :=
| RunnerInstalled
| RunnerStart
| RunnerStop
| ReconciliationEvent.

#[global] Instance MetricEvent_eq_dec : EqDecision MetricEvent.
Proof. solve_decision. Defined.

#[global] Instance MetricEvent_countable : Countable MetricEvent.
Proof.
  refine (inj_countable'
    (fun e => match e with
              | RunnerInstalled => 0%nat | RunnerStart => 1%nat
              | RunnerStop => 2%nat | ReconciliationEvent => 3%nat
              end)
    (fun n => match n with
              | 0%nat => RunnerInstalled | 1%nat => RunnerStart
              | 2%nat => RunnerStop | _ => ReconciliationEvent
              end) _).
  by intros [].
Defined.

(** [IssuedMetricEventsStats]: a dict from event class to count. *)
Abbreviation Stats := (gmap MetricEvent Z).

(** [stats.get(event, 0)]. *)
Definition get (stats : Stats) (e : MetricEvent) : Z :=
  default 0 (stats !! e).

Record _ReconcileResult : Type := {
  runner_diff : Z;
  metric_stats : Stats;
}.

(** The [Reconciliation] metric event; times are values of a type [Time]
    of floats. *)
Record Reconciliation (Time : Type) : Type := {
  timestamp : Time;
  flavor : string;
  crashed_runners : Z;
  idle_runners : Z;
  active_runners : Z;
  expected_runners : Z;
  duration : Time;
}.
Arguments timestamp {Time} r.
Arguments flavor {Time} r.
Arguments crashed_runners {Time} r.
Arguments idle_runners {Time} r.
Arguments active_runners {Time} r.
Arguments expected_runners {Time} r.
Arguments duration {Time} r.

(** Exceptions: the collaborators raise [CloudError],
    [MissingServerConfigError] or something else ([OtherError]);
    [reconcile] turns [CloudError] into [ReconcileError]. *)
Inductive exn : Type :=
| CloudError
| MissingServerConfigError
| ReconcileError
| OtherError (cls : string).

(** The calls the scaler issues, in program order, with what they
    answered. *)
Inductive event (Time : Type) : Type :=
| Cleanup (r : result exn Stats)
| GetRunners (r : result exn (list RunnerInstance))
| CreateRunners (num : Z) (r : result exn unit)
| DeleteRunners (num : Z) (r : result exn Stats)
| ReactiveReconcile (expected_quantity : Z) (r : result exn (Z * Stats))
| IssueEvent (metric : Reconciliation Time) (written : bool).
Arguments Cleanup {Time} r.
Arguments GetRunners {Time} r.
Arguments CreateRunners {Time} num r.
Arguments DeleteRunners {Time} num r.
Arguments ReactiveReconcile {Time} expected_quantity r.
Arguments IssueEvent {Time} metric written.

(** ** The collaborators

    [RunnerManager], [reactive.runner_manager.reconcile],
    [metric_events.issue_event] and [time.time], by their contracts.
    [issue_event] answers [false] when it raises [IssueMetricEventError]. *)
Record Collaborators (W Time : Type) : Type := {
  manager_name : string;
  cleanup : W -> result exn Stats * W;
  get_runners : W -> result exn (list RunnerInstance) * W;
  create_runners : Z -> W -> result exn unit * W;
  delete_runners : Z -> W -> result exn Stats * W;
  reactive_reconcile : Z -> W -> result exn (Z * Stats) * W;
  issue_event : Reconciliation Time -> W -> bool * W;
  time_time : W -> Time * W;
  time_sub : Time -> Time -> Time;
}.
Arguments manager_name {W Time} c.
Arguments cleanup {W Time} c _.
Arguments get_runners {W Time} c _.
Arguments create_runners {W Time} c _ _.
Arguments delete_runners {W Time} c _ _.
Arguments reactive_reconcile {W Time} c _ _.
Arguments issue_event {W Time} c _ _.
Arguments time_time {W Time} c _.
Arguments time_sub {W Time} c _ _.

Section scaler.
Context {W Time : Type}.
Variable manager : Collaborators W Time.
(** [self._reactive_config is not None], [self._base_quantity] and
    [self._max_quantity]. *)
Variable reactive_configured : bool.
Variable base_quantity : Z.
Variable max_quantity : Z.

(** The merge of two metric stats: for every event of either dict, the sum
    of the two counts. *)
Definition merge_stats (delete_metric_stats metric_stats : Stats) : Stats :=
  set_to_map
    (fun event_name =>
       (event_name, get delete_metric_stats event_name + get metric_stats event_name))
    (dom delete_metric_stats ∪ dom metric_stats).

Definition _reconcile_non_reactive (expected_quantity : Z) (w : W) :
    result exn _ReconcileResult * W * list (event Time) :=
  let '(cleaned, w1) := cleanup manager w in
  match cleaned with
  | Err e => (Err e, w1, [Cleanup cleaned])
  | Ok metric_stats =>
      let '(listed, w2) := get_runners manager w1 in
      match listed with
      | Err e => (Err e, w2, [Cleanup cleaned; GetRunners listed])
      | Ok runners =>
          let runner_diff := expected_quantity - Z.of_nat (length runners) in
          if 0 <? runner_diff then
            let '(created, w3) := create_runners manager runner_diff w2 in
            let log := [Cleanup cleaned; GetRunners listed;
                        CreateRunners runner_diff created] in
            match created with
            | Ok _ | Err MissingServerConfigError =>
                (Ok {| runner_diff := runner_diff; metric_stats := metric_stats |},
                 w3, log)
            | Err e => (Err e, w3, log)
            end
          else if runner_diff <? 0 then
            let '(removed, w3) := delete_runners manager (- runner_diff) w2 in
            let log := [Cleanup cleaned; GetRunners listed;
                        DeleteRunners (- runner_diff) removed] in
            match removed with
            | Err e => (Err e, w3, log)
            | Ok delete_metric_stats =>
                (Ok {| runner_diff := runner_diff;
                       metric_stats := merge_stats delete_metric_stats metric_stats |},
                 w3, log)
            end
          else
            (Ok {| runner_diff := runner_diff; metric_stats := metric_stats |},
             w2, [Cleanup cleaned; GetRunners listed])
      end
  end.

(** The names of the runners a predicate selects, as a set. *)
Definition names_where (p : RunnerInstance -> bool) (runner_list : list RunnerInstance) :
    gset string :=
  list_to_set (map name (List.filter p runner_list)).

Definition is_idle (runner : RunnerInstance) : bool :=
  match github_state runner with Some IDLE => true | _ => false end.

Definition is_offline_healthy (runner : RunnerInstance) : bool :=
  match github_state runner, health runner with
  | Some OFFLINE, HEALTHY => true
  | _, _ => false
  end.

Definition is_busy (runner : RunnerInstance) : bool :=
  match github_state runner with Some BUSY => true | _ => false end.

(** [_ReconcileMetricData]. *)
Record _ReconcileMetricData : Type := {
  start_timestamp : Time;
  end_timestamp : Time;
  data_metric_stats : Stats;
  runner_list : list RunnerInstance;
  data_flavor : string;
  expected_runner_quantity : Z;
}.

(** The [Reconciliation] event [_issue_reconciliation_metric] builds, at
    the time [now]. *)
Definition reconciliation_of (data : _ReconcileMetricData) (now : Time) :
    Reconciliation Time :=
  let idle_runners := names_where is_idle (runner_list data) in
  let offline_healthy_runners := names_where is_offline_healthy (runner_list data) in
  let available_runners := idle_runners ∪ offline_healthy_runners in
  let active_runners := names_where is_busy (runner_list data) in
  {| timestamp := now;
     flavor := data_flavor data;
     crashed_runners :=
       get (data_metric_stats data) RunnerStart - get (data_metric_stats data) RunnerStop;
     idle_runners := Z.of_nat (size available_runners);
     active_runners := Z.of_nat (size active_runners);
     expected_runners := expected_runner_quantity data;
     duration := time_sub manager (end_timestamp data) (start_timestamp data) |}.

(** [IssueMetricEventError] is caught: the function always returns. *)
Definition _issue_reconciliation_metric (data : _ReconcileMetricData) (w : W) :
    W * list (event Time) :=
  let '(now, w1) := time_time manager w in
  let metric := reconciliation_of data now in
  let '(written, w2) := issue_event manager metric w1 in
  (w2, [IssueEvent metric written]).

(** The [try] block of [reconcile], with its [except CloudError]: the
    outcome, and the value of the variable [metric_stats] when the block is
    left. *)
Definition reconcile_try (w : W) :
    result exn Z * Stats * W * list (event Time) :=
  if reactive_configured then
    let '(r, w1) := reactive_reconcile manager max_quantity w in
    let log := [ReactiveReconcile max_quantity r] in
    match r with
    | Ok (processes_diff, stats) => (Ok processes_diff, stats, w1, log)
    | Err CloudError => (Err ReconcileError, ∅, w1, log)
    | Err e => (Err e, ∅, w1, log)
    end
  else
    let '(r, w1, log) := _reconcile_non_reactive base_quantity w in
    match r with
    | Ok reconcile_result =>
        (Ok (runner_diff reconcile_result), metric_stats reconcile_result, w1, log)
    | Err CloudError => (Err ReconcileError, ∅, w1, log)
    | Err e => (Err e, ∅, w1, log)
    end.

(** [reconcile]: the [try] block, then the [finally] block; an exception
    of [get_runners] in the [finally] block replaces the outcome of the
    [try] block. *)
Definition reconcile (w : W) : result exn Z * W * list (event Time) :=
  let '(start_timestamp, w0) := time_time manager w in
  let expected_runner_quantity := base_quantity in
  let '(r, stats, w1, log1) := reconcile_try w0 in
  let '(listed, w2) := get_runners manager w1 in
  match listed with
  | Err e => (Err e, w2, log1 ++ [GetRunners listed])
  | Ok runners =>
      let '(end_timestamp, w3) := time_time manager w2 in
      let data :=
        {| start_timestamp := start_timestamp;
           end_timestamp := end_timestamp;
           data_metric_stats := stats;
           runner_list := runners;
           data_flavor := manager_name manager;
           expected_runner_quantity := expected_runner_quantity |} in
      let '(w4, log2) := _issue_reconciliation_metric data w3 in
      (r, w4, log1 ++ GetRunners listed :: log2)
  end.

(** *** Reading a log *)

(** The [Reconciliation] metrics handed to the metric sink. *)
Fixpoint issued (log : list (event Time)) : list (Reconciliation Time) :=
  match log with
  | [] => []
  | IssueEvent metric _ :: log' => metric :: issued log'
  | _ :: log' => issued log'
  end.

(** The number of events of class [e] the runner manager reported as
    issued by the calls of a cycle. *)
Fixpoint cycle_count (e : MetricEvent) (log : list (event Time)) : Z :=
  match log with
  | [] => 0
  | Cleanup (Ok stats) :: log' => get stats e + cycle_count e log'
  | DeleteRunners _ (Ok stats) :: log' => get stats e + cycle_count e log'
  | ReactiveReconcile _ (Ok (_, stats)) :: log' => get stats e + cycle_count e log'
  | _ :: log' => cycle_count e log'
  end.

Definition is_available (runner : RunnerInstance) : bool :=
  is_idle runner || is_offline_healthy runner.

(** The shape every log of [_reconcile_non_reactive] has: cleanup first,
    then the enumeration, then at most one call that creates or deletes. *)
Definition cleanup_then_list_then_adjust (log : list (event Time)) : Prop :=
  match log with
  | Cleanup _ :: rest =>
      match rest with
      | [] => True
      | GetRunners _ :: rest' =>
          match rest' with
          | [] | [CreateRunners _ _] | [DeleteRunners _ _] => True
          | _ => False
          end
      | _ => False
      end
  | _ => False
  end.

(** What C8 states, for the log of a cycle and the runners listed at its
    end. *)
Definition metric_accounts_for_cycle (log : list (event Time))
    (runners : list RunnerInstance) : Prop :=
  exists metric : Reconciliation Time,
    issued log = [metric] /\
    crashed_runners metric
      = cycle_count RunnerStart log - cycle_count RunnerStop log /\
    idle_runners metric = Z.of_nat (length (List.filter is_available runners)) /\
    active_runners metric = Z.of_nat (length (List.filter is_busy runners)).

(** *** Facts about the non-reactive reconcile *)

Lemma lookup_merge_stats (delete_metric_stats metric_stats : Stats)
    (e : MetricEvent) (x : Z) :
  merge_stats delete_metric_stats metric_stats !! e = Some x <->
  e ∈ dom delete_metric_stats ∪ dom metric_stats /\
  x = get delete_metric_stats e + get metric_stats e.
Proof.
  unfold merge_stats. rewrite lookup_set_to_map.
  - split.
    + intros (y & Hy & Heq). inversion Heq; subst. by split.
    + intros [Hin ->]. exists e. by split.
  - intros y y' _ _ Heq. exact Heq.
Qed.

Lemma get_merge_stats (delete_metric_stats metric_stats : Stats) (e : MetricEvent) :
  get (merge_stats delete_metric_stats metric_stats) e
  = get delete_metric_stats e + get metric_stats e.
Proof.
  unfold get at 1.
  destruct (merge_stats delete_metric_stats metric_stats !! e) as [x|] eqn:Hlook.
  - apply lookup_merge_stats in Hlook as [_ ->]. reflexivity.
  - destruct (decide (e ∈ dom delete_metric_stats ∪ dom metric_stats)) as [Hin|Hout].
    + assert (Hsome : merge_stats delete_metric_stats metric_stats !! e
                      = Some (get delete_metric_stats e + get metric_stats e))
        by (by apply lookup_merge_stats).
      congruence.
    + apply not_elem_of_union in Hout as [Hd Hm].
      apply not_elem_of_dom in Hd, Hm. unfold get. rewrite Hd, Hm. reflexivity.
Qed.


(** *** Facts about the reconciliation metric *)

Lemma issued_app (l1 l2 : list (event Time)) :
  issued (l1 ++ l2) = issued l1 ++ issued l2.
Proof.
  induction l1 as [|ev l1 IH]; [reflexivity|].
  destruct ev; cbn; rewrite ?IH; reflexivity.
Qed.

(** The [try] block issues no metric; when it returns, the stats it leaves
    in [metric_stats] are the counts of the cycle, and when it raises they
    are the empty dict [metric_stats] was initialised to. *)
Lemma _reconcile_non_reactive_counts (expected_quantity : Z) (w : W) :
  issued (_reconcile_non_reactive expected_quantity w).2 = [] /\
  forall (res : _ReconcileResult) (e : MetricEvent),
    (_reconcile_non_reactive expected_quantity w).1.1 = Ok res ->
    get (metric_stats res) e
    = cycle_count e (_reconcile_non_reactive expected_quantity w).2.
Proof.
  unfold _reconcile_non_reactive.
  destruct (cleanup manager w) as [[stats|e] w1]; [|by split].
  destruct (get_runners manager w1) as [[runners|e] w2]; [|by split].
  destruct (0 <? expected_quantity - Z.of_nat (length runners)).
  - destruct (create_runners manager _ w2) as [[[]|[]] w3];
      (split; [reflexivity|]); intros res e Hres; inversion Hres; subst; cbn; lia.
  - destruct (expected_quantity - Z.of_nat (length runners) <? 0).
    + destruct (delete_runners manager _ w2) as [[ds|e] w3];
        (split; [reflexivity|]); intros res e' Hres; inversion Hres; subst; cbn.
      rewrite get_merge_stats. lia.
    + split; [reflexivity|]. intros res e Hres; inversion Hres; subst; cbn; lia.
Qed.

Lemma reconcile_try_counts (w : W) :
  issued (reconcile_try w).2 = [] /\
  (forall e : MetricEvent,
      is_ok (reconcile_try w).1.1.1 = true ->
      get (reconcile_try w).1.1.2 e = cycle_count e (reconcile_try w).2) /\
  (is_ok (reconcile_try w).1.1.1 = false -> (reconcile_try w).1.1.2 = ∅).
Proof.
  unfold reconcile_try. destruct reactive_configured.
  - destruct (reactive_reconcile manager max_quantity w) as [[[d stats]|[]] w1];
      cbn; repeat split; try discriminate; intros; lia.
  - pose proof (_reconcile_non_reactive_counts base_quantity w) as [Hi Hc].
    destruct (_reconcile_non_reactive base_quantity w) as [[[res|[]] w1] log];
      cbn in *; repeat split; try discriminate; try exact Hi.
    intros e _. by apply Hc.
Qed.

Lemma NoDup_map_filter {A B : Type} (f : A -> B) (p : A -> bool) (l : list A) :
  NoDup (map f l) -> NoDup (map f (List.filter p l)).
Proof.
  induction l as [|x l IH]; cbn; intros Hnd; [constructor|].
  apply NoDup_cons in Hnd as [Hx Hnd].
  destruct (p x); cbn; [|by apply IH].
  apply NoDup_cons. split; [|by apply IH].
  intros Hin. apply Hx.
  apply list_elem_of_In, in_map_iff in Hin as (y & Hy & Hin).
  apply filter_In in Hin as [Hin _].
  apply list_elem_of_In, in_map_iff. by exists y.
Qed.

Lemma size_names_where (p : RunnerInstance -> bool) (runners : list RunnerInstance) :
  NoDup (map name runners) ->
  size (names_where p runners) = length (List.filter p runners).
Proof.
  intros Hnd. unfold names_where.
  rewrite size_list_to_set by (by apply NoDup_map_filter).
  apply length_map.
Qed.

Lemma names_where_available (runners : list RunnerInstance) :
  names_where is_idle runners ∪ names_where is_offline_healthy runners
  = names_where is_available runners.
Proof.
  apply set_eq. intros n. unfold names_where.
  rewrite elem_of_union, !elem_of_list_to_set, !list_elem_of_In, !in_map_iff.
  split.
  - intros [(r & Hn & Hr)|(r & Hn & Hr)]; exists r; (split; [exact Hn|]);
      apply filter_In in Hr as [Hin Hp]; apply filter_In; (split; [exact Hin|]);
      unfold is_available; rewrite Hp; [reflexivity | apply orb_true_r].
  - intros (r & Hn & Hr). apply filter_In in Hr as [Hin Hp].
    unfold is_available in Hp. apply orb_true_iff in Hp as [Hp|Hp];
      [left|right]; exists r; (split; [exact Hn|]); apply filter_In; by split.
Qed.

(** C8, as the code has it.  When the [get_runners] call of the [finally]
    block returns, the cycle hands exactly one [Reconciliation] metric to
    the metric sink, whether the [try] block returned or raised, and the
    outcome of the cycle is the outcome of the [try] block.  In the metric,
    [idle_runners] is the number of distinct names of the runners that are
    idle or offline and healthy, and [active_runners] the number of
    distinct names of the busy runners: the numbers of such runners when
    names are unique.  [crashed_runners] is RunnerStart minus RunnerStop of
    the stats the [try] block left: the counts of the cycle when the block
    returned, and 0 when it raised. *)
Theorem reconcile_issues_one_reconciliation_metric
    (w w0 w1 w2 : W) (start : Time) (r : result exn Z) (stats : Stats)
    (log1 : list (event Time)) (runners : list RunnerInstance) :
  time_time manager w = (start, w0) ->
  reconcile_try w0 = (r, stats, w1, log1) ->
  get_runners manager w1 = (Ok runners, w2) ->
  (reconcile w).1.1 = r /\
  exists metric : Reconciliation Time,
    issued (reconcile w).2 = [metric] /\
    expected_runners metric = base_quantity /\
    idle_runners metric
      = Z.of_nat (size (names_where is_idle runners
                        ∪ names_where is_offline_healthy runners)) /\
    active_runners metric = Z.of_nat (size (names_where is_busy runners)) /\
    (NoDup (map name runners) ->
     idle_runners metric = Z.of_nat (length (List.filter is_available runners)) /\
     active_runners metric = Z.of_nat (length (List.filter is_busy runners))) /\
    crashed_runners metric = get stats RunnerStart - get stats RunnerStop /\
    (is_ok r = true ->
     crashed_runners metric
     = cycle_count RunnerStart log1 - cycle_count RunnerStop log1) /\
    (is_ok r = false -> crashed_runners metric = 0).
Proof.
  intros Htime Htry Hlist.
  pose proof (reconcile_try_counts w0) as (Hissued & Hcount & Hempty).
  rewrite Htry in Hissued, Hcount, Hempty. cbn in Hissued, Hcount, Hempty.
  unfold reconcile, _issue_reconciliation_metric.
  rewrite Htime, Htry, Hlist.
  destruct (time_time manager w2) as [end_timestamp w3].
  destruct (time_time manager w3) as [now w4].
  destruct (issue_event manager _ w4) as [written w5].
  cbn [fst snd]. split; [reflexivity|].
  eexists. rewrite issued_app, Hissued. cbn [issued app].
  split; [reflexivity|].
  unfold reconciliation_of.
  cbn [expected_runners idle_runners active_runners crashed_runners
       runner_list data_metric_stats expected_runner_quantity].
  split; [reflexivity|]. split; [reflexivity|]. split; [reflexivity|].
  split; [|split; [reflexivity|split]].
  - intros Hnd. rewrite names_where_available, !size_names_where by exact Hnd.
    by split.
  - intros Hok. by rewrite !Hcount.
  - intros Hfail. rewrite (Hempty Hfail). reflexivity.
Qed.

End scaler.

(** ** A concrete runner manager

    The world is the list of runners the manager has.  Every [cleanup]
    reports one RunnerStart metric (it reaped a runner that never
    reported a stop), deleting [n] runners reports [n] starts and [n]
    stops, and [create_runners] fails with [CloudError]. *)

Definition demo_manager : Collaborators (list RunnerInstance) Z := {|
  manager_name := "small";
  cleanup := fun w => (Ok {[ RunnerStart := 1 ]}, w);
  get_runners := fun w => (Ok w, w);
  create_runners := fun _ w => (Err CloudError, w);
  delete_runners := fun n w =>
    (Ok {[ RunnerStart := n; RunnerStop := n ]}, drop (Z.to_nat n) w);
  reactive_reconcile := fun _ w => (Ok (0, ∅), w);
  issue_event := fun _ w => (true, w);
  time_time := fun w => (0, w);
  time_sub := Z.sub;
|}.

Definition busy_runner : RunnerInstance :=
  {| name := "unit-0-n-a"; github_state := Some BUSY; health := HEALTHY |}.
Definition idle_runner : RunnerInstance :=
  {| name := "unit-0-n-b"; github_state := Some IDLE; health := HEALTHY |}.
Definition booting_runner : RunnerInstance :=
  {| name := "unit-0-n-c"; github_state := Some OFFLINE; health := HEALTHY |}.

(** Base mode with [base_quantity = 1] and no runner: the cycle ends in
    [ReconcileError] because [create_runners] fails. *)
Definition failing_cycle : result exn Z * list RunnerInstance * list (event Z) :=
  reconcile demo_manager false 1 0 [].

Example failing_cycle_log :
  failing_cycle
  = (Err ReconcileError, [],
     [Cleanup (Ok {[ RunnerStart := 1 ]}); GetRunners (Ok []);
      CreateRunners 1 (Err CloudError); GetRunners (Ok []);
      IssueEvent {| timestamp := 0; flavor := "small"; crashed_runners := 0;
                    idle_runners := 0; active_runners := 0;
                    expected_runners := 1; duration := 0 |} true]).
Proof. vm_compute. reflexivity. Qed.

(** C8 as stated fails on the code: in a cycle that ends in an error the
    metric reports no crashed runner, although the cycle's [cleanup]
    reported a RunnerStart without a RunnerStop. *)
Lemma reconciliation_metric_forgets_failed_cycle :
  ~ metric_accounts_for_cycle failing_cycle.2 [].
Proof.
  rewrite failing_cycle_log.
  intros (metric & Hissued & Hcrashed & _).
  cbn in Hissued. inversion Hissued; subst metric.
  vm_compute in Hcrashed. discriminate.
Qed.

(** When [get_runners] fails in the [finally] block, no metric is issued
    at all. *)
Example no_metric_when_final_listing_fails :
  issued (reconcile
            {| manager_name := "small";
               cleanup := fun w => (Ok ∅, w);
               get_runners := fun w => (Err CloudError, w);
               create_runners := fun _ w => (Ok tt, w);
               delete_runners := fun _ w => (Ok ∅, w);
               reactive_reconcile := fun _ w => (Ok (0, ∅), w);
               issue_event := fun _ w => (true, w);
               time_time := fun w => (0, w);
               time_sub := Z.sub |} false 1 0 tt).2
  = [].
Proof. reflexivity. Qed.

(** Scenario S2 of the specification, as far as the scaler goes: three
    runners and [base_quantity = 1] give [delete_runners(2)] and a diff of
    -2. *)
Example base_scale_down :
  (_reconcile_non_reactive demo_manager 1 [busy_runner; idle_runner; booting_runner]).1.1
  = Ok {| runner_diff := -2;
          metric_stats :=
            merge_stats {[ RunnerStart := 2; RunnerStop := 2 ]} {[ RunnerStart := 1 ]} |}
  /\
  (_reconcile_non_reactive demo_manager 1 [busy_runner; idle_runner; booting_runner]).2
  = [Cleanup (Ok {[ RunnerStart := 1 ]});
     GetRunners (Ok [busy_runner; idle_runner; booting_runner]);
     DeleteRunners 2 (Ok {[ RunnerStart := 2; RunnerStop := 2 ]})].
Proof. split; reflexivity. Qed.


Lemma reconcile_issues_one_metric_witness :
  time_time demo_manager [busy_runner; idle_runner] = (0, [busy_runner; idle_runner]) /\
  get_runners demo_manager [busy_runner; idle_runner]
    = (Ok [busy_runner; idle_runner], [busy_runner; idle_runner]) /\
  (reconcile demo_manager false 2 0 [busy_runner; idle_runner]).1.1 = Ok 0 /\
  exists metric : Reconciliation Z,
    issued (reconcile demo_manager false 2 0 [busy_runner; idle_runner]).2 = [metric] /\
    expected_runners metric = 2 /\
    idle_runners metric
      = Z.of_nat (size (names_where is_idle [busy_runner; idle_runner]
                        ∪ names_where is_offline_healthy [busy_runner; idle_runner])) /\
    active_runners metric
      = Z.of_nat (size (names_where is_busy [busy_runner; idle_runner])) /\
    (NoDup (map name [busy_runner; idle_runner]) ->
     idle_runners metric
       = Z.of_nat (length (List.filter is_available [busy_runner; idle_runner])) /\
     active_runners metric
       = Z.of_nat (length (List.filter is_busy [busy_runner; idle_runner]))) /\
    crashed_runners metric
      = get {[ RunnerStart := 1 ]} RunnerStart - get {[ RunnerStart := 1 ]} RunnerStop /\
    (is_ok (Ok 0 : result exn Z) = true ->
     crashed_runners metric
     = cycle_count RunnerStart
         [Cleanup (Time := Z) (Ok {[ RunnerStart := 1 ]});
          GetRunners (Ok [busy_runner; idle_runner])]
       - cycle_count RunnerStop
           [Cleanup (Time := Z) (Ok {[ RunnerStart := 1 ]});
            GetRunners (Ok [busy_runner; idle_runner])]) /\
    (is_ok (Ok 0 : result exn Z) = false -> crashed_runners metric = 0).
Proof.
  split; [reflexivity|]. split; [reflexivity|].
  apply (reconcile_issues_one_reconciliation_metric demo_manager false 2 0
           [busy_runner; idle_runner] [busy_runner; idle_runner]
           [busy_runner; idle_runner] [busy_runner; idle_runner]
           0 (Ok 0) {[ RunnerStart := 1 ]}
           [Cleanup (Ok {[ RunnerStart := 1 ]});
            GetRunners (Ok [busy_runner; idle_runner])]
           [busy_runner; idle_runner]);
    reflexivity.
Defined.

End Scaler.

(** * http_server.py *)

Module HttpServer.

Inductive FlushMode : Type := FLUSH_IDLE | FLUSH_BUSY.

(** The module state: the global [_lock], [None] until the server is
    started.  A lock is known by an identifier. *)
Record ServerState : Type := {
  _lock : option nat;
}.

Inductive exn : Type :=
| LockError
| FlushFailed (cls : string).

(** What the handler gives to Flask: a [(body, status)] pair, or an
    exception it did not handle. *)
Inductive response : Type :=
| Response (body : string) (status : Z)
| Unhandled (e : exn).

Inductive event : Type :=
| LockAcquired (lock : nat)
| LockReleased (lock : nat)
| Flush (flush_mode : FlushMode).

Definition initial_state : ServerState := {| _lock := None |}.

(** [start_http_server] stores the lock of the caller in the global. *)
Definition start_http_server (lock : nat) (st : ServerState) : ServerState :=
  {| _lock := Some lock |}.

Definition get_lock (st : ServerState) : result exn nat :=
  match _lock st with
  | Some lock => Ok lock
  | None => Err LockError
  end.

(** [flush_busy_str in ("True", "true")], for the value
    [request.args.get("flush-busy")] returned ([None] when the parameter is
    absent). *)
Definition flush_busy_of (flush_busy_str : option string) : bool :=
  match flush_busy_str with
  | Some s => String.eqb s "True" || String.eqb s "true"
  | None => false
  end.

Definition flush_mode_of (flush_busy_str : option string) : FlushMode :=
  if flush_busy_of flush_busy_str then FLUSH_BUSY else FLUSH_IDLE.

Section handler.
Context {W : Type}.
(** [RunnerScaler.build(...).flush(flush_mode)]: the number of runners
    flushed, or the class of the exception raised. *)
Variable scaler_flush : FlushMode -> W -> result string Z * W.

(** [flush_runner], the handler of [POST /runner/flush]; the [with lock]
    block releases the lock also when the flush raises. *)
Definition flush_runner (flush_busy_str : option string) (st : ServerState) (w : W) :
    response * W * list event :=
  let flush_mode := flush_mode_of flush_busy_str in
  match get_lock st with
  | Err e => (Unhandled e, w, [])
  | Ok lock =>
      let '(num_flushed, w1) := scaler_flush flush_mode w in
      let log := [LockAcquired lock; Flush flush_mode; LockReleased lock] in
      match num_flushed with
      | Ok _ => (Response EmptyString 204, w1, log)
      | Err cls => (Unhandled (FlushFailed cls), w1, log)
      end
  end.

(** C10.  The flush includes busy runners exactly when the [flush-busy]
    parameter is the string [True] or the string [true]; any other value,
    or no value, gives an idle-only flush.  On a started server the handler
    takes the lock, calls the flush once with that mode and releases the
    lock, and it answers 204 with an empty body whenever the flush
    returns, whatever the parameter. *)
Theorem flush_busy_only_for_True_or_true
    (flush_busy_str : option string) (lock : nat) (st : ServerState) (w : W) :
  (flush_mode_of flush_busy_str = FLUSH_BUSY <->
   flush_busy_str = Some "True"%string \/ flush_busy_str = Some "true"%string) /\
  (flush_mode_of flush_busy_str = FLUSH_IDLE <->
   ~ (flush_busy_str = Some "True"%string \/ flush_busy_str = Some "true"%string)) /\
  (flush_runner flush_busy_str (start_http_server lock st) w).2
    = [LockAcquired lock; Flush (flush_mode_of flush_busy_str); LockReleased lock] /\
  (flush_runner flush_busy_str (start_http_server lock st) w).1.1
    = match (scaler_flush (flush_mode_of flush_busy_str) w).1 with
      | Ok _ => Response EmptyString 204
      | Err cls => Unhandled (FlushFailed cls)
      end.
Proof.
  assert (Hbusy : flush_busy_of flush_busy_str = true <->
                  flush_busy_str = Some "True"%string \/
                  flush_busy_str = Some "true"%string).
  { unfold flush_busy_of. destruct flush_busy_str as [s|].
    - rewrite orb_true_iff, !String.eqb_eq. split.
      + intros [->| ->]; auto.
      + intros [H|H]; inversion H; auto.
    - split; [discriminate | intros [H|H]; discriminate]. }
  unfold flush_mode_of, flush_runner, flush_mode_of. cbn [get_lock start_http_server _lock].
  destruct (flush_busy_of flush_busy_str) eqn:Hb.
  - destruct (scaler_flush FLUSH_BUSY w) as [[n|cls] w1]; cbn;
      (split; [split; [intros _; by apply Hbusy | reflexivity]|]);
      (split; [split; [discriminate | intros Hn; destruct Hn; by apply Hbusy]|]);
      by split.
  - assert (Hnot : ~ (flush_busy_str = Some "True"%string \/
                      flush_busy_str = Some "true"%string)).
    { intros H. apply Hbusy in H. discriminate. }
    destruct (scaler_flush FLUSH_IDLE w) as [[n|cls] w1]; cbn;
      (split; [split; [discriminate | intros H; by destruct Hnot]|]);
      (split; [split; [intros _; exact Hnot | reflexivity]|]);
      by split.
Qed.

End handler.

Example flush_busy_values :
  flush_mode_of (Some "True"%string) = FLUSH_BUSY /\
  flush_mode_of (Some "true"%string) = FLUSH_BUSY /\
  flush_mode_of (Some "TRUE"%string) = FLUSH_IDLE /\
  flush_mode_of (Some "1"%string) = FLUSH_IDLE /\
  flush_mode_of (Some EmptyString) = FLUSH_IDLE /\
  flush_mode_of None = FLUSH_IDLE.
Proof. repeat split. Qed.

(** Before [start_http_server] the handler fails with [LockError]. *)
Example flush_without_lock :
  flush_runner (fun _ (w : unit) => (Ok 0, w)) None initial_state tt
  = (Unhandled LockError, tt, []).
Proof. reflexivity. Qed.

End HttpServer.

(** * utilities.py: more on the [retry] decorator *)

Module RetrySchedule.

Section schedule.
Context {W A Exn Delay : Type}.
Variable exception : Exn -> bool.
Variable tries : Z.
Variable delay : Delay.
Variable max_delay : option Delay.
Variable backoff : Delay.
Variable delay_mul : Delay -> Delay -> Delay.
Variable delay_min : Delay -> Delay -> Delay.
Variable sleep : Delay -> W -> W.
Variable func : W -> result Exn A * W.

(** The first [k] delays of the back-off schedule that starts at
    [current_delay]. *)
Fixpoint delays (k : nat) (current_delay : Delay) : list Delay :=
  match k with
  | O => []
  | S k' =>
      current_delay ::
      delays k' (Retry.next_delay max_delay backoff delay_mul delay_min current_delay)
  end.

(** The world together with the arguments [time.sleep] was called with. *)
Definition recording_sleep (d : Delay) (s : W * list Delay) : W * list Delay :=
  (sleep d s.1, s.2 ++ [d]).

Definition recording_func (s : W * list Delay) : result Exn A * (W * list Delay) :=
  let '(r, w') := func s.1 in (r, (w', s.2)).

(** The wrapper, run on a world that records the sleeps. *)
Definition fn_with_retry_recorded (w : W) :
    result (Retry.raised Exn) A * (W * list Delay) * list (result Exn A) :=
  Retry.fn_with_retry exception tries delay max_delay backoff delay_mul delay_min
    recording_sleep recording_func (w, []).

Lemma retry_loop_recorded (iters : nat) :
  forall (current_delay : Delay) (w : W) (slept : list Delay),
    let out := Retry.retry_loop exception max_delay backoff delay_mul delay_min
                 recording_sleep recording_func iters (Z.of_nat iters) current_delay
                 (w, slept) in
    let plain := Retry.retry_loop exception max_delay backoff delay_mul delay_min
                   sleep func iters (Z.of_nat iters) current_delay w in
    out.1.1 = plain.1.1 /\ out.1.2.1 = plain.1.2 /\ out.2 = plain.2 /\
    (1 <= iters -> 1 <= length out.2)%nat /\
    out.1.2.2 = slept ++ delays (length out.2 - 1) current_delay.
Proof.
  induction iters as [|k IH]; intros d w slept.
  - cbn. rewrite app_nil_r. repeat split. lia.
  - cbn zeta. cbn [Retry.retry_loop].
    assert (Hrec : recording_func (w, slept) = ((func w).1, ((func w).2, slept))).
    { unfold recording_func. cbn. by destruct (func w). }
    rewrite Hrec. clear Hrec.
    destruct (func w) as [[a|err] w1]; cbn [fst snd].
    + cbn. rewrite app_nil_r. repeat split. lia.
    + destruct (exception err).
      * destruct (Z.of_nat (S k) - 1 =? 0) eqn:Hz.
        -- cbn. rewrite app_nil_r. repeat split. lia.
        -- apply Z.eqb_neq in Hz.
           replace (Z.of_nat (S k) - 1) with (Z.of_nat k) by lia.
           specialize (IH (Retry.next_delay max_delay backoff delay_mul delay_min d)
                         (sleep d w1) (slept ++ [d])).
           change (recording_sleep d (w1, slept)) with (sleep d w1, slept ++ [d]).
           destruct (Retry.retry_loop exception max_delay backoff delay_mul delay_min
                       recording_sleep recording_func k (Z.of_nat k) _
                       (sleep d w1, slept ++ [d]))
             as [[out s3] calls].
           destruct (Retry.retry_loop exception max_delay backoff delay_mul delay_min
                       sleep func k (Z.of_nat k) _ (sleep d w1))
             as [[out' w3] calls'].
           cbn in IH |- *. destruct IH as (H1 & H2 & H3 & H4 & H5).
           repeat split; try congruence; try lia.
           rewrite H5, <- app_assoc. cbn. rewrite Nat.sub_0_r.
           assert (Hlen : (1 <= length calls)%nat) by (apply H4; lia).
           destruct calls as [|c calls]; [cbn in Hlen; lia|].
           cbn. by rewrite Nat.sub_0_r.
      * cbn. rewrite app_nil_r. repeat split. lia.
Qed.

(** Retried exceptions are retried while tries remain: when the last call
    raised an exception of the retried type, all of the [iters] calls were
    made. *)
Lemma retry_loop_exhausts (iters : nat) :
  forall (current_delay : Delay) (w : W) (failed : list (result Exn A))
         (last : result Exn A),
    (Retry.retry_loop exception max_delay backoff delay_mul delay_min sleep func
       iters (Z.of_nat iters) current_delay w).2 = failed ++ [last] ->
    Retry.retried exception last ->
    length (failed ++ [last]) = iters.
Proof.
  induction iters as [|k IH]; intros d w failed last Hcalls Hlast.
  - cbn in Hcalls. by destruct failed.
  - cbn [Retry.retry_loop] in Hcalls.
    destruct Hlast as (e & -> & He).
    destruct (func w) as [[a|err] w1].
    + cbn in Hcalls. destruct failed as [|? [|? ?]]; cbn in Hcalls; congruence.
    + destruct (exception err) eqn:Hexc.
      * destruct (Z.of_nat (S k) - 1 =? 0) eqn:Hz.
        -- apply Z.eqb_eq in Hz. cbn in Hcalls.
           destruct failed as [|? [|? ?]]; cbn in Hcalls; try congruence.
           cbn. lia.
        -- apply Z.eqb_neq in Hz.
           replace (Z.of_nat (S k) - 1) with (Z.of_nat k) in Hcalls by lia.
           specialize (IH (Retry.next_delay max_delay backoff delay_mul delay_min d)
                         (sleep d w1)).
           destruct (Retry.retry_loop exception max_delay backoff delay_mul delay_min
                       sleep func k (Z.of_nat k) _ (sleep d w1))
             as [[out w3] calls] eqn:Hloop.
           cbn in Hcalls, IH.
           destruct failed as [|f failed]; cbn in Hcalls.
           ++ inversion Hcalls; subst. destruct k; [lia|].
              cbn in Hloop. destruct (func (sleep d w1)) as [[?|?] ?];
                [congruence|]. 
              destruct (exception e0); [|congruence].
              destruct (Z.of_nat (S k) - 1 =? 0); [congruence|].
              destruct (Retry.retry_loop _ _ _ _ _ _ _ k _ _ _) as [[? ?] ?].
              congruence.
           ++ inversion Hcalls; subst.
              cbn. f_equal. apply (IH failed (Err e)); [reflexivity|].
              exists e. by split.
      * cbn in Hcalls. destruct failed as [|? [|? ?]]; cbn in Hcalls; congruence.
Qed.

(** Every recorded call result is what [func] produced on some world. *)
Lemma run_calls_results (n : nat) :
  forall (current_delay : Delay) (w : W),
    Forall (fun r => exists w' : W, r = (func w').1)
      (Retry.run_calls max_delay backoff delay_mul delay_min sleep func
         n current_delay w).1.
Proof.
  induction n as [|n IH]; intros d w; [constructor|].
  destruct n as [|n'].
  - cbn. destruct (func w) as [r w1] eqn:Hf. cbn.
    constructor; [|constructor]. exists w. by rewrite Hf.
  - rewrite Retry.run_calls_more. destruct (func w) as [r w1] eqn:Hf.
    specialize (IH (Retry.next_delay max_delay backoff delay_mul delay_min d)
                  (sleep d w1)).
    destruct (Retry.run_calls max_delay backoff delay_mul delay_min sleep func
                (S n') _ (sleep d w1)) as [rs w2].
    cbn in IH |- *. constructor; [|exact IH]. exists w. by rewrite Hf.
Qed.

(** With [tries >= 1], what the wrapper hands back is what one of the
    calls of [func] produced. *)
Lemma fn_with_retry_outcome (w : W) :
  1 <= tries ->
  exists w' : W,
    (Retry.fn_with_retry exception tries delay max_delay backoff delay_mul
       delay_min sleep func w).1.1 = Retry.handed_back (func w').1.
Proof.
  intros Htries.
  destruct (Retry.fn_with_retry_spec exception tries delay max_delay backoff
              delay_mul delay_min sleep func w Htries)
    as (n & failed & last & Hn & Hle & Hrun & _ & _ & Hout).
  pose proof (run_calls_results n delay w) as Hall.
  rewrite Hrun in Hall. cbn in Hall.
  apply Forall_app in Hall as [_ Hlast].
  apply Forall_cons in Hlast as [(w' & ->) _].
  by exists w'.
Qed.



End schedule.

(** The policy of [_check_state_and_flush],
    [@retry(tries=3, delay=5, backoff=2)], on a function that always
    raises: three calls, and sleeps of 5 and 10 seconds. *)
Definition always_down (w : nat) : result string unit * nat :=
  (Err "SSHError"%string, S w).

Example flush_policy_sleeps_5_then_10 :
  fn_with_retry_recorded (fun _ => true) 3 5 None 2 Z.mul Z.min
    (fun _ w => w) always_down O
  = (Err (Retry.Propagated "SSHError"%string), (3%nat, [5; 10]),
     [Err "SSHError"%string; Err "SSHError"%string; Err "SSHError"%string]).
Proof. reflexivity. Qed.


End RetrySchedule.

(** * utilities.py: units, environment variables, subprocesses *)

Module Utilities.

(** ** [bytes_with_unit_to_kib] *)

(** What a captured stream holds: [str] in text mode, [bytes] otherwise. *)
Inductive output : Type :=
| Text (s : string)
| Bytes (b : string).

(** [Raised cls] is an exception of class [cls] coming out of
    [subprocess.run] or of [bytes.decode]. *)
Inductive exn : Type :=
| ValueError
| SubprocessError (cmd : list string) (returncode : Z) (stdout stderr : output)
| Raised (cls : string).

(** The dict [num_of_kib]; [None] when the unit is not a key. *)
Definition num_of_kib (unit : string) : option Z :=
  if String.eqb unit "KiB" then Some (1024 ^ 0)
  else if String.eqb unit "MiB" then Some (1024 ^ 1)
  else if String.eqb unit "GiB" then Some (1024 ^ 2)
  else if String.eqb unit "TiB" then Some (1024 ^ 3)
  else if String.eqb unit "PiB" then Some (1024 ^ 4)
  else if String.eqb unit "EiB" then Some (1024 ^ 5)
  else None.

(** The slices [s[:-k]] and [s[-k:]] for [k > 0]: on a string shorter than
    [k] the first is empty and the second is the whole string. *)
Definition slice_until_last (k : nat) (s : string) : string :=
  String.substring 0 (String.length s - k) s.

Definition slice_last (k : nat) (s : string) : string :=
  String.substring (String.length s - k) k s.

Section units.
(** [int(num)] on a string; [None] is its [ValueError]. *)
Variable py_int : string -> option Z.

Definition bytes_with_unit_to_kib (num_bytes : string) : result exn Z :=
  let num := slice_until_last 3 num_bytes in
  let unit := slice_last 3 num_bytes in
  match num_of_kib unit with
  | None => Err ValueError
  | Some factor =>
      match py_int num with
      | None => Err ValueError
      | Some n => Ok (factor * n)
      end
  end.

Lemma length_append (a b : string) :
  String.length (a +:+ b) = (String.length a + String.length b)%nat.
Proof. induction a as [|c a IH]; simpl; [reflexivity | by f_equal]. Qed.

Lemma substring_0_append (a b : string) :
  String.substring 0 (String.length a) (a +:+ b) = a.
Proof. induction a as [|c a IH]; simpl; [by destruct b | by f_equal]. Qed.

Lemma substring_skip_append (a b : string) (m : nat) :
  String.substring (String.length a) m (a +:+ b) = String.substring 0 m b.
Proof. induction a as [|c a IH]; simpl; [reflexivity | exact IH]. Qed.

Lemma substring_0_all (b : string) :
  String.substring 0 (String.length b) b = b.
Proof. induction b as [|c b IH]; simpl; [reflexivity | by f_equal]. Qed.

Lemma substring_0_0 (s : string) : String.substring 0 0 s = EmptyString.
Proof. by destruct s. Qed.

Lemma substring_split (s : string) :
  forall n m : nat,
    (String.length s <= n + m)%nat ->
    String.substring 0 n s +:+ String.substring n m s = s.
Proof.
  induction s as [|c s IH]; intros n m Hlen.
  - destruct n, m; reflexivity.
  - simpl in Hlen. destruct n as [|n]; simpl.
    + destruct m as [|m]; [lia|].
      specialize (IH 0%nat m ltac:(lia)).
      rewrite substring_0_0 in IH.
      change (String c (String.substring 0 m s) = String c s).
      f_equal. exact IH.
    + change (String c (String.substring 0 n s +:+ String.substring n m s)
              = String c s).
      f_equal. apply IH. lia.
Qed.

Lemma slices_of_append (num unit : string) :
  String.length unit = 3%nat ->
  slice_until_last 3 (num +:+ unit) = num /\ slice_last 3 (num +:+ unit) = unit.
Proof.
  intros Hlen. unfold slice_until_last, slice_last.
  rewrite length_append, Hlen.
  replace (String.length num + 3 - 3)%nat with (String.length num) by lia.
  split; [apply substring_0_append|].
  rewrite substring_skip_append, <- Hlen. apply substring_0_all.
Qed.

Lemma slices_rejoin (s : string) :
  slice_until_last 3 s +:+ slice_last 3 s = s.
Proof. unfold slice_until_last, slice_last. apply substring_split. lia. Qed.

Lemma num_of_kib_known (unit : string) (factor : Z) :
  num_of_kib unit = Some factor ->
  String.length unit = 3%nat /\
  exists k : Z, 0 <= k <= 5 /\ factor = 1024 ^ k.
Proof.
  unfold num_of_kib. intros H.
  repeat match type of H with
         | (if String.eqb ?u ?lit then _ else _) = _ =>
             destruct (String.eqb_spec u lit) as [->|_];
             [inversion H; split; [reflexivity | eexists; split; [|reflexivity]; lia]|]
         end.
  discriminate.
Qed.

(** X3.  [bytes_with_unit_to_kib] returns a number exactly on a string
    made of a text [num] that [int] accepts followed by one of the six
    units KiB, MiB, GiB, TiB, PiB, EiB, and the number is [int(num)] times
    1024 to the rank of the unit (0 for KiB up to 5 for EiB).  Every other
    string, in particular every string of fewer than three characters,
    gives [ValueError]. *)
Theorem bytes_with_unit_to_kib_characterised (num_bytes : string) :
  (forall v : Z,
      bytes_with_unit_to_kib num_bytes = Ok v <->
      exists (num unit : string) (k n : Z),
        num_bytes = num +:+ unit /\ 0 <= k <= 5 /\
        num_of_kib unit = Some (1024 ^ k) /\
        py_int num = Some n /\ v = 1024 ^ k * n) /\
  (bytes_with_unit_to_kib num_bytes = Err ValueError \/
   exists v : Z, bytes_with_unit_to_kib num_bytes = Ok v) /\
  ((String.length num_bytes < 3)%nat ->
   bytes_with_unit_to_kib num_bytes = Err ValueError).
Proof.
  split; [|split].
  - intros v. split.
    + unfold bytes_with_unit_to_kib. intros H.
      destruct (num_of_kib (slice_last 3 num_bytes)) as [factor|] eqn:Hunit;
        [|discriminate].
      destruct (py_int (slice_until_last 3 num_bytes)) as [n|] eqn:Hnum;
        [|discriminate].
      inversion H; subst v.
      destruct (num_of_kib_known _ _ Hunit) as (_ & k & Hk & ->).
      exists (slice_until_last 3 num_bytes), (slice_last 3 num_bytes), k, n.
      by rewrite slices_rejoin.
    + intros (num & unit & k & n & -> & Hk & Hunit & Hnum & ->).
      destruct (num_of_kib_known _ _ Hunit) as (Hlen & _).
      destruct (slices_of_append num unit Hlen) as [Hn Hu].
      unfold bytes_with_unit_to_kib. by rewrite Hn, Hu, Hunit, Hnum.
  - unfold bytes_with_unit_to_kib.
    destruct (num_of_kib _); [|by left].
    destruct (py_int _) as [n|]; [right; by eexists | by left].
  - intros Hshort. unfold bytes_with_unit_to_kib.
    destruct (num_of_kib (slice_last 3 num_bytes)) as [factor|] eqn:Hunit;
      [|reflexivity].
    destruct (num_of_kib_known _ _ Hunit) as (Hlen & _).
    pose proof (slices_rejoin num_bytes) as Hjoin.
    apply (f_equal String.length) in Hjoin.
    rewrite length_append, Hlen in Hjoin. lia.
Qed.

End units.

(** A decimal reader for the examples: an optional sign and digits, as
    [int] reads them. *)
Fixpoint digits_value (acc : Z) (s : string) : option Z :=
  match s with
  | EmptyString => Some acc
  | String c s' =>
      let n := nat_of_ascii c in
      if ((48 <=? n) && (n <=? 57))%nat
      then digits_value (10 * acc + Z.of_nat (n - 48)) s'
      else None
  end.

Definition decimal (s : string) : option Z :=
  match s with
  | EmptyString => None
  | String "-" (String c s') => Z.opp <$> digits_value 0 (String c s')
  | String "+" (String c s') => digits_value 0 (String c s')
  | _ => digits_value 0 s
  end.

Example kib_examples :
  bytes_with_unit_to_kib decimal "7GiB" = Ok 7340032 /\
  bytes_with_unit_to_kib decimal "20KiB" = Ok 20 /\
  bytes_with_unit_to_kib decimal "-5MiB" = Ok (-5120) /\
  bytes_with_unit_to_kib decimal "7gib" = Err ValueError /\
  bytes_with_unit_to_kib decimal "KiB" = Err ValueError /\
  bytes_with_unit_to_kib decimal "12" = Err ValueError /\
  bytes_with_unit_to_kib decimal EmptyString = Err ValueError.
Proof. repeat split. Qed.

(** ** [get_env_var] and [set_env_var]

    [os.environ] is a mapping from names to values. *)

Section environ.
(** [str.upper] and [str.lower]. *)
Variable upper lower : string -> string.

Definition get_env_var (env_var : string) (environ : gmap string string) :
    option string :=
  match environ !! upper env_var with
  | Some value => Some value
  | None => environ !! lower env_var
  end.

Definition set_env_var (env_var value : string) (environ : gmap string string) :
    gmap string string :=
  <[lower env_var := value]> (<[upper env_var := value]> environ).

(** X4.  A variable that was set is read back, under its own name and
    under every name with the same upper-case form; and setting a variable
    changes the reading of no name whose upper-case and lower-case forms
    both differ from the two keys written. *)
Theorem get_env_var_after_set_env_var
    (env_var value : string) (environ : gmap string string) :
  get_env_var env_var (set_env_var env_var value environ) = Some value /\
  (forall other : string,
      upper other = upper env_var ->
      get_env_var other (set_env_var env_var value environ) = Some value) /\
  (forall other : string,
      upper other <> upper env_var -> upper other <> lower env_var ->
      lower other <> upper env_var -> lower other <> lower env_var ->
      get_env_var other (set_env_var env_var value environ)
      = get_env_var other environ).
Proof.
  assert (Hsame : forall other : string,
             upper other = upper env_var ->
             get_env_var other (set_env_var env_var value environ) = Some value).
  { intros other Hup. unfold get_env_var, set_env_var. rewrite Hup.
    destruct (decide (lower env_var = upper env_var)) as [Heq|Hne].
    - by rewrite Heq, lookup_insert_eq.
    - by rewrite lookup_insert_ne, lookup_insert_eq. }
  split; [by apply Hsame|]. split; [exact Hsame|].
  intros other H1 H2 H3 H4. unfold get_env_var, set_env_var.
  by rewrite !lookup_insert_ne.
Qed.

End environ.

(** The upper-case name wins over the lower-case one. *)
Example upper_case_name_wins :
  get_env_var (fun _ => "HTTP_PROXY"%string) (fun _ => "http_proxy"%string)
    "http_proxy"
    (<["HTTP_PROXY"%string := "a"%string]> {["http_proxy"%string := "b"%string]})
  = Some "a"%string.
Proof. reflexivity. Qed.

(** ** [execute_command] *)

Record CompletedProcess : Type := {
  returncode : Z;
  stdout : output;
  stderr : output;
}.

Section subprocess.
Context {W Kwargs : Type}.
(** [subprocess.run(cmd, capture_output=True, shell=False, check=False,
    **kwargs)]; [kwargs.get("encoding")]; [bytes.decode(encoding)]. *)
Variable subprocess_run :
  list string -> Kwargs -> W -> result string CompletedProcess * W.
Variable encoding_of : Kwargs -> option string.
Variable decode : string -> string -> result string string.

(** [secure_run_subprocess]: [hide_cmd] only chooses what is logged. *)
Definition secure_run_subprocess (cmd : list string) (hide_cmd : bool)
    (kwargs : Kwargs) (w : W) : result string CompletedProcess * W :=
  subprocess_run cmd kwargs w.

Definition execute_command (cmd : list string) (check_exit : bool)
    (kwargs : Kwargs) (w : W) : result exn (string * Z) * W :=
  let '(ran, w1) := secure_run_subprocess cmd false kwargs w in
  match ran with
  | Err cls => (Err (Raised cls), w1)
  | Ok result =>
      if check_exit && negb (returncode result =? 0)
      then (Err (SubprocessError cmd (returncode result) (stdout result)
                   (stderr result)), w1)
      else
        match stdout result with
        | Text s => (Ok (s, returncode result), w1)
        | Bytes b =>
            match decode (default "utf-8"%string (encoding_of kwargs)) b with
            | Ok s => (Ok (s, returncode result), w1)
            | Err cls => (Err (Raised cls), w1)
            end
        end
  end.

(** X5.  With [check_exit] set, [execute_command] returns only the exit
    code 0, and a process that ends with another code gives
    [SubprocessError] with the command, that code and the captured
    streams.  With [check_exit] unset it never raises [SubprocessError]:
    what it returns carries the exit code of the process as it is. *)
Theorem execute_command_checks_exit_code
    (cmd : list string) (kwargs : Kwargs) (w : W) :
  (forall (out : string) (code : Z),
      (execute_command cmd true kwargs w).1 = Ok (out, code) -> code = 0) /\
  (forall result : CompletedProcess,
      (subprocess_run cmd kwargs w).1 = Ok result ->
      returncode result <> 0 ->
      (execute_command cmd true kwargs w).1 =
        Err (SubprocessError cmd (returncode result) (stdout result) (stderr result))) /\
  (forall (c : list string) (code : Z) (o e : output),
      (execute_command cmd false kwargs w).1 <> Err (SubprocessError c code o e)) /\
  (forall (result : CompletedProcess) (out : string) (code : Z),
      (subprocess_run cmd kwargs w).1 = Ok result ->
      (execute_command cmd false kwargs w).1 = Ok (out, code) ->
      code = returncode result).
Proof.
  unfold execute_command, secure_run_subprocess.
  destruct (subprocess_run cmd kwargs w) as [[result|cls] w1]; cbn [fst snd].
  - repeat split.
    + intros out code. cbn [andb].
      destruct (returncode result =? 0) eqn:Hz; cbn [negb]; [|discriminate].
      apply Z.eqb_eq in Hz.
      destruct (stdout result) as [s|b]; [intros H; inversion H; congruence|].
      destruct (decode _ b); intros H; inversion H; congruence.
    + intros result' H Hne. inversion H; subst result'.
      apply Z.eqb_neq in Hne. by rewrite Hne.
    + intros c code o e. cbn [andb].
      destruct (stdout result) as [s|b]; [discriminate|].
      destruct (decode _ b); discriminate.
    + intros result' out code H. inversion H; subst result'. cbn [andb].
      destruct (stdout result) as [s|b]; [intros H'; inversion H'; congruence|].
      destruct (decode _ b); intros H'; inversion H'; congruence.
  - repeat split; try discriminate.
Qed.

End subprocess.

End Utilities.

(** * configuration/github.py *)

Module GitHubPath.

Inductive GitHubPath : Type :=
| GitHubRepo (owner repo : string)
| GitHubOrg (org group : string).

(** The [path()] methods. *)
Definition path (p : GitHubPath) : string :=
  match p with
  | GitHubRepo owner repo => owner +:+ "/" +:+ repo
  | GitHubOrg org _ => org
  end.

Definition is_slash (c : ascii) : bool := Ascii.eqb c "/".

(** ["/" in s]. *)
Fixpoint has_slash (s : string) : bool :=
  match s with
  | EmptyString => false
  | String c s' => is_slash c || has_slash s'
  end.

(** [s.split("/")]: the pieces between the slashes, empty ones included. *)
Fixpoint split_slash (s : string) : list string :=
  match s with
  | EmptyString => [EmptyString]
  | String c s' =>
      if is_slash c then EmptyString :: split_slash s'
      else match split_slash s' with
           | segment :: segments => String c segment :: segments
           | [] => [String c EmptyString]
           end
  end.

Definition nonempty (segment : string) : bool :=
  negb (String.eqb segment EmptyString).

(** [None] is the [ValueError] of an invalid path. *)
Definition parse_github_path (path_str runner_group : string) : option GitHubPath :=
  if has_slash path_str then
    let paths := List.filter nonempty (split_slash path_str) in
    match paths with
    | [owner; repo] => Some (GitHubRepo owner repo)
    | _ => None
    end
  else Some (GitHubOrg path_str runner_group).

Lemma split_slash_not_nil (s : string) : split_slash s <> [].
Proof.
  induction s as [|c s IH]; cbn; [discriminate|].
  destruct (is_slash c); [discriminate|].
  by destruct (split_slash s).
Qed.

Lemma split_slash_no_slash (s : string) :
  has_slash s = false -> split_slash s = [s].
Proof.
  induction s as [|c s IH]; cbn; [reflexivity|].
  intros H. apply orb_false_iff in H as [Hc Hs].
  by rewrite Hc, (IH Hs).
Qed.

Lemma split_slash_append (a b : string) :
  has_slash a = false ->
  split_slash (a +:+ "/" +:+ b) = a :: split_slash b.
Proof.
  induction a as [|c a IH]; intros H.
  - reflexivity.
  - cbn in H. apply orb_false_iff in H as [Hc Ha].
    change (String c a +:+ "/" +:+ b) with (String c (a +:+ "/" +:+ b)).
    cbn [split_slash]. by rewrite Hc, (IH Ha).
Qed.

Lemma has_slash_append (a b : string) :
  has_slash (a +:+ b) = has_slash a || has_slash b.
Proof.
  induction a as [|c a IH]; [reflexivity|].
  change (String c a +:+ b) with (String c (a +:+ b)).
  cbn [has_slash]. by rewrite IH, orb_assoc.
Qed.

(** The pieces of a split hold no slash. *)
Lemma split_slash_segments (s : string) :
  Forall (fun segment => has_slash segment = false) (split_slash s).
Proof.
  induction s as [|c s IH]; cbn; [by repeat constructor|].
  destruct (is_slash c) eqn:Hc; [by constructor|].
  destruct (split_slash s) as [|segment segments];
    [constructor; [cbn; by rewrite Hc | constructor]|].
  apply Forall_cons in IH as [Hseg Hrest].
  constructor; [cbn; by rewrite Hc | exact Hrest].
Qed.

(** A path value the parser can produce: a repository with a non-empty
    owner and a non-empty name, both without slashes, or an organisation
    whose name holds no slash. *)
Definition well_formed (p : GitHubPath) : Prop :=
  match p with
  | GitHubRepo owner repo =>
      owner <> EmptyString /\ repo <> EmptyString /\
      has_slash owner = false /\ has_slash repo = false
  | GitHubOrg org _ => has_slash org = false
  end.

(** The runner group a path value was parsed with: the group of an
    organisation, any group for a repository. *)
Definition parsed_with (p : GitHubPath) (runner_group : string) : Prop :=
  match p with
  | GitHubRepo _ _ => True
  | GitHubOrg _ group => group = runner_group
  end.

Lemma parse_path_round_trip (p : GitHubPath) (runner_group : string) :
  well_formed p -> parsed_with p runner_group ->
  parse_github_path (path p) runner_group = Some p.
Proof.
  destruct p as [owner repo|org group]; cbn [path well_formed parsed_with].
  - intros (Ho & Hr & Hso & Hsr) _. unfold parse_github_path.
    rewrite has_slash_append. cbn [has_slash String.append is_slash Ascii.eqb].
    rewrite orb_true_r.
    rewrite (split_slash_append owner repo Hso), (split_slash_no_slash repo Hsr).
    cbn [List.filter]. unfold nonempty.
    apply String.eqb_neq in Ho, Hr. by rewrite Ho, Hr.
  - intros Hs ->. unfold parse_github_path. by rewrite Hs.
Qed.

(** X6.  Parsing the path of a well-formed value gives the value back: a
    repository whatever the runner group passed in, an organisation when
    the runner group passed in is its own. *)
Theorem parse_github_path_of_path (p : GitHubPath) (runner_group : string) :
  well_formed p -> parsed_with p runner_group ->
  parse_github_path (path p) runner_group = Some p.
Proof. exact (parse_path_round_trip p runner_group). Qed.

(** X7.  What [parse_github_path] returns is well formed and carries the
    runner group passed in; a repository comes from a string with a slash,
    an organisation is the given string itself; and parsing the path of the
    returned value gives the same value again. *)
Theorem parse_github_path_well_formed
    (path_str runner_group : string) (p : GitHubPath) :
  parse_github_path path_str runner_group = Some p ->
  well_formed p /\ parsed_with p runner_group /\
  match p with
  | GitHubRepo _ _ => has_slash path_str = true
  | GitHubOrg org _ => org = path_str
  end /\
  parse_github_path (path p) runner_group = Some p.
Proof.
  intros Hparse.
  assert (Hwf : well_formed p /\ parsed_with p runner_group /\
                match p with
                | GitHubRepo _ _ => has_slash path_str = true
                | GitHubOrg org _ => org = path_str
                end).
  { unfold parse_github_path in Hparse.
    destruct (has_slash path_str) eqn:Hslash.
    - destruct (List.filter nonempty (split_slash path_str))
        as [|owner [|repo [|? ?]]] eqn:Hsegs; try discriminate.
      inversion Hparse; subst p. clear Hparse.
      assert (Hin : forall x, In x [owner; repo] ->
                              nonempty x = true /\ has_slash x = false).
      { intros x Hx. rewrite <- Hsegs in Hx. apply filter_In in Hx as [Hx Hne].
        split; [exact Hne|].
        pose proof (split_slash_segments path_str) as Hall.
        rewrite Forall_forall in Hall. apply Hall. by apply list_elem_of_In. }
      destruct (Hin owner ltac:(cbn; auto)) as [Hno Hso].
      destruct (Hin repo ltac:(cbn; auto)) as [Hnr Hsr].
      unfold nonempty in Hno, Hnr.
      apply negb_true_iff, String.eqb_neq in Hno, Hnr.
      by repeat split.
    - inversion Hparse; subst p. by repeat split. }
  destruct Hwf as (Hwf & Hgroup & Hshape).
  repeat split; try assumption.
  by apply parse_path_round_trip.
Qed.

Example parse_github_path_examples :
  parse_github_path "canonical/github-runner-operator" "default"
    = Some (GitHubRepo "canonical" "github-runner-operator") /\
  parse_github_path "/canonical//github-runner-operator/" "default"
    = Some (GitHubRepo "canonical" "github-runner-operator") /\
  parse_github_path "canonical" "default" = Some (GitHubOrg "canonical" "default") /\
  parse_github_path EmptyString "default" = Some (GitHubOrg EmptyString "default") /\
  parse_github_path "a/b/c" "default" = None /\
  parse_github_path "canonical/" "default" = None /\
  parse_github_path "/" "default" = None.
Proof. repeat split. Qed.

Lemma parse_github_path_of_path_witness :
  well_formed (GitHubRepo "canonical" "runner") /\
  parsed_with (GitHubRepo "canonical" "runner") "default" /\
  parse_github_path (path (GitHubRepo "canonical" "runner")) "default"
  = Some (GitHubRepo "canonical" "runner").
Proof.
  assert (Hwf : well_formed (GitHubRepo "canonical" "runner"))
    by (by repeat split).
  split; [exact Hwf|]. split; [exact I|].
  exact (parse_github_path_of_path (GitHubRepo "canonical" "runner") "default" Hwf I).
Defined.

Lemma parse_github_path_well_formed_witness :
  parse_github_path "/canonical//runner/" "default"
    = Some (GitHubRepo "canonical" "runner") /\
  well_formed (GitHubRepo "canonical" "runner") /\
  parsed_with (GitHubRepo "canonical" "runner") "default" /\
  has_slash "/canonical//runner/" = true /\
  parse_github_path (path (GitHubRepo "canonical" "runner")) "default"
  = Some (GitHubRepo "canonical" "runner").
Proof.
  split; [reflexivity|].
  exact (parse_github_path_well_formed "/canonical//runner/" "default"
           (GitHubRepo "canonical" "runner") eq_refl).
Defined.

End GitHubPath.

(** * manager/runner_scaler.py: runner information and flush *)

Module ScalerInfo.
Import Scaler.

(** [RunnerInfo]. *)
Record RunnerInfo : Type := {
  online : Z;
  busy : Z;
  offline : Z;
  unknown : Z;
  runners : list string;
  busy_runners : list string;
}.

Definition no_runner_info : RunnerInfo :=
  {| online := 0; busy := 0; offline := 0; unknown := 0;
     runners := []; busy_runners := [] |}.

(** One pass through the loop of [get_runner_info]. *)
Definition count_runner (info : RunnerInfo) (runner : RunnerInstance) : RunnerInfo :=
  match github_state runner with
  | Some BUSY =>
      {| online := online info + 1; busy := busy info + 1;
         offline := offline info; unknown := unknown info;
         runners := runners info ++ [name runner];
         busy_runners := busy_runners info ++ [name runner] |}
  | Some IDLE =>
      {| online := online info + 1; busy := busy info;
         offline := offline info; unknown := unknown info;
         runners := runners info ++ [name runner];
         busy_runners := busy_runners info |}
  | Some OFFLINE =>
      {| online := online info; busy := busy info;
         offline := offline info + 1; unknown := unknown info;
         runners := runners info; busy_runners := busy_runners info |}
  | None =>
      {| online := online info; busy := busy info;
         offline := offline info; unknown := unknown info + 1;
         runners := runners info; busy_runners := busy_runners info |}
  end.

Definition is_online (runner : RunnerInstance) : bool :=
  match github_state runner with
  | Some BUSY | Some IDLE => true
  | _ => false
  end.

(** [FlushMode] is the type the HTTP server passes. *)
Abbreviation FlushMode := HttpServer.FlushMode.

(** The calls of [flush], with what they answered. *)
Inductive flush_event : Type :=
| FlushCleanup (r : result exn Stats)
| FlushRunners (flush_mode : FlushMode) (r : result exn Stats).

Section info.
Context {W Time : Type}.
Variable manager : Collaborators W Time.
(** [RunnerManager.flush_runners]. *)
Variable flush_runners : FlushMode -> W -> result exn Stats * W.

Definition get_runner_info (w : W) : result exn RunnerInfo * W :=
  let '(listed, w1) := get_runners manager w in
  match listed with
  | Err e => (Err e, w1)
  | Ok runner_list => (Ok (fold_left count_runner runner_list no_runner_info), w1)
  end.

Definition flush (flush_mode : FlushMode) (w : W) :
    result exn Z * W * list flush_event :=
  let '(cleaned, w1) := cleanup manager w in
  match cleaned with
  | Err e => (Err e, w1, [FlushCleanup cleaned])
  | Ok metric_stats =>
      let '(flushed, w2) := flush_runners flush_mode w1 in
      let log := [FlushCleanup cleaned; FlushRunners flush_mode flushed] in
      match flushed with
      | Err e => (Err e, w2, log)
      | Ok delete_metric_stats =>
          let metric_stats := merge_stats delete_metric_stats metric_stats in
          (Ok (get metric_stats RunnerStop), w2, log)
      end
  end.

(** The counters and lists after the loop has gone through some runners,
    started from [info]. *)
Lemma fold_count_runner (runner_list : list RunnerInstance) :
  forall info : RunnerInfo,
    let out := fold_left count_runner runner_list info in
    online out = online info + Z.of_nat (length (List.filter is_online runner_list)) /\
    busy out = busy info + Z.of_nat (length (List.filter is_busy runner_list)) /\
    online out + offline out + unknown out
      = online info + offline info + unknown info + Z.of_nat (length runner_list) /\
    runners out = runners info ++ map name (List.filter is_online runner_list) /\
    busy_runners out = busy_runners info ++ map name (List.filter is_busy runner_list).
Proof.
  induction runner_list as [|runner rest IH]; intros info.
  - cbn. rewrite !app_nil_r. repeat split; lia.
  - cbn [fold_left]. specialize (IH (count_runner info runner)).
    cbn zeta in IH |- *. destruct IH as (H1 & H2 & H3 & H4 & H5).
    rewrite H4, H5. clear H4 H5.
    unfold count_runner, is_online, is_busy in *.
    cbn [List.filter length map].
    destruct (github_state runner) as [[| |]|];
      cbn [online busy offline unknown runners busy_runners length map] in *;
      rewrite <- ?app_assoc; repeat split; try reflexivity; lia.
Qed.

Lemma busy_is_online (runner : RunnerInstance) :
  is_busy runner = true -> is_online runner = true.
Proof. unfold is_busy, is_online. by destruct (github_state runner) as [[| |]|]. Qed.

Lemma filter_busy_le_online (runner_list : list RunnerInstance) :
  (length (List.filter is_busy runner_list)
   <= length (List.filter is_online runner_list))%nat.
Proof.
  induction runner_list as [|runner rest IH]; [reflexivity|].
  cbn. pose proof (busy_is_online runner) as Hb.
  destruct (is_busy runner); [rewrite Hb by reflexivity; cbn; lia|].
  destruct (is_online runner); cbn; lia.
Qed.

(** X8.  The [RunnerInfo] that [get_runner_info] returns accounts for
    every listed runner once: online, offline and unknown add up to the
    number of runners, busy runners are counted among the online ones,
    [runners] holds the names of the online (busy or idle) runners and
    [busy_runners] the names of the busy ones, in listing order, and each
    list is as long as its counter says. *)
Theorem get_runner_info_accounts_for_every_runner (w : W) (info : RunnerInfo) :
  (get_runner_info w).1 = Ok info ->
  exists runner_list : list RunnerInstance,
    (get_runners manager w).1 = Ok runner_list /\
    online info + offline info + unknown info = Z.of_nat (length runner_list) /\
    0 <= busy info <= online info /\
    0 <= offline info /\ 0 <= unknown info /\
    runners info = map name (List.filter is_online runner_list) /\
    busy_runners info = map name (List.filter is_busy runner_list) /\
    Z.of_nat (length (runners info)) = online info /\
    Z.of_nat (length (busy_runners info)) = busy info /\
    (forall n : string, In n (busy_runners info) -> In n (runners info)).
Proof.
  unfold get_runner_info.
  destruct (get_runners manager w) as [[runner_list|e] w1]; [|discriminate].
  cbn [fst]. intros H. inversion H; subst info. clear H.
  exists runner_list. split; [reflexivity|].
  pose proof (fold_count_runner runner_list no_runner_info) as H.
  cbn zeta in H. destruct H as (H1 & H2 & H3 & H4 & H5).
  cbn [online busy offline unknown runners busy_runners no_runner_info app] in *.
  pose proof (filter_busy_le_online runner_list) as Hle.
  assert (Hoff : 0 <= offline (fold_left count_runner runner_list no_runner_info) /\
                 0 <= unknown (fold_left count_runner runner_list no_runner_info)).
  { assert (Hgen : forall l info, 0 <= offline info -> 0 <= unknown info ->
              0 <= offline (fold_left count_runner l info) /\
              0 <= unknown (fold_left count_runner l info)).
    { induction l as [|r l IH]; intros info Ho Hu; [by split|].
      cbn [fold_left]. apply IH; unfold count_runner;
        destruct (github_state r) as [[| |]|]; cbn; lia. }
    apply Hgen; cbn; lia. }
  rewrite H4, H5, !length_map.
  repeat split; try lia.
  intros n Hin. apply in_map_iff in Hin as (r & Hn & Hr).
  apply filter_In in Hr as [Hr Hb].
  apply in_map_iff. exists r. split; [exact Hn|].
  apply filter_In. split; [exact Hr | by apply busy_is_online].
Qed.

(** X9.  [flush] calls the manager's [cleanup] first and [flush_runners]
    with the given mode second, the second only when the first returned;
    an exception of either leaves [flush]; otherwise [flush] returns the
    RunnerStop count of the cleanup plus the RunnerStop count of the
    flush. *)
Theorem flush_returns_stops_of_cleanup_and_flush
    (flush_mode : FlushMode) (w : W) :
  match cleanup manager w with
  | (Err e, w1) => flush flush_mode w = (Err e, w1, [FlushCleanup (Err e)])
  | (Ok metric_stats, w1) =>
      match flush_runners flush_mode w1 with
      | (Err e, w2) =>
          flush flush_mode w =
            (Err e, w2,
             [FlushCleanup (Ok metric_stats); FlushRunners flush_mode (Err e)])
      | (Ok delete_metric_stats, w2) =>
          flush flush_mode w =
            (Ok (get metric_stats RunnerStop + get delete_metric_stats RunnerStop),
             w2,
             [FlushCleanup (Ok metric_stats);
              FlushRunners flush_mode (Ok delete_metric_stats)])
      end
  end.
Proof.
  unfold flush.
  destruct (cleanup manager w) as [[metric_stats|e] w1]; [|reflexivity].
  destruct (flush_runners flush_mode w1) as [[delete_metric_stats|e] w2];
    [|reflexivity].
  rewrite get_merge_stats. do 2 f_equal. f_equal. lia.
Qed.

End info.

(** X10.  The merge of two metric stats has the keys of both, gives every
    event the sum of its two counts (a missing count is 0), and does not
    depend on the order of the two dicts. *)
Theorem merge_stats_sums_counts (a b : Stats) :
  dom (merge_stats a b) = dom a ∪ dom b /\
  (forall e : MetricEvent, get (merge_stats a b) e = get a e + get b e) /\
  merge_stats a b = merge_stats b a.
Proof.
  split; [|split].
  - apply set_eq. intros e. rewrite elem_of_dom. split.
    + intros [x Hx]. by apply lookup_merge_stats in Hx as [Hin _].
    + intros Hin. eexists. by apply lookup_merge_stats.
  - apply get_merge_stats.
  - apply map_eq. intros e. apply option_eq. intros x.
    rewrite !lookup_merge_stats, (union_comm_L (dom b) (dom a)).
    split; intros [Hin ->]; (split; [exact Hin | lia]).
Qed.

Lemma get_runner_info_witness :
  (get_runner_info demo_manager [busy_runner; idle_runner; booting_runner]).1
    = Ok {| online := 2; busy := 1; offline := 1; unknown := 0;
            runners := ["unit-0-n-a"%string; "unit-0-n-b"%string];
            busy_runners := ["unit-0-n-a"%string] |} /\
  exists runner_list : list RunnerInstance,
    (get_runners demo_manager [busy_runner; idle_runner; booting_runner]).1
      = Ok runner_list /\
    2 + 1 + 0 = Z.of_nat (length runner_list) /\
    0 <= 1 <= 2 /\ 0 <= 1 /\ 0 <= 0 /\
    ["unit-0-n-a"%string; "unit-0-n-b"%string]
      = map name (List.filter is_online runner_list) /\
    ["unit-0-n-a"%string] = map name (List.filter is_busy runner_list) /\
    Z.of_nat (length ["unit-0-n-a"%string; "unit-0-n-b"%string]) = 2 /\
    Z.of_nat (length ["unit-0-n-a"%string]) = 1 /\
    (forall n : string,
        In n ["unit-0-n-a"%string] ->
        In n ["unit-0-n-a"%string; "unit-0-n-b"%string]).
Proof.
  split; [reflexivity|].
  exact (get_runner_info_accounts_for_every_runner demo_manager
           [busy_runner; idle_runner; booting_runner]
           {| online := 2; busy := 1; offline := 1; unknown := 0;
              runners := ["unit-0-n-a"%string; "unit-0-n-b"%string];
              busy_runners := ["unit-0-n-a"%string] |} eq_refl).
Defined.

End ScalerInfo.

(** * reactive/consumer.py: more on the consume loop *)

Module ConsumerTrace.
Import Consumer.

(** The number of calls of [create_runners] in a log. *)
Fixpoint create_count (log : list event) : nat :=
  match log with
  | [] => O
  | CreateRunners _ _ :: log' => S (create_count log')
  | _ :: log' => create_count log'
  end.

(** The URLs [check_job_been_picked_up] was called with. *)
Fixpoint checked_urls (log : list event) : list HttpUrl :=
  match log with
  | [] => []
  | CheckJobBeenPickedUp job_url _ :: log' => job_url :: checked_urls log'
  | _ :: log' => checked_urls log'
  end.

(** What follows the first call of [create_runners] in a log. *)
Fixpoint after_create (log : list event) : list event :=
  match log with
  | [] => []
  | CreateRunners _ _ :: log' => log'
  | _ :: log' => after_create log'
  end.

Definition has_path (job_url : HttpUrl) : Prop :=
  exists p : string, path job_url = Some p /\ p <> EmptyString.

(** Closes the side goals about a log that is given in full. *)
Ltac trace_done :=
  cbn; repeat split;
  first [ lia | discriminate | by repeat constructor
        | (intros; reflexivity) | (let H := fresh in intros H; by destruct H) ].

Section trace.
Context {W InstanceID : Type}.
Variable env : Collaborators W InstanceID.
Variable lower : string -> string.
Variable parse_fields : string -> option JobDetails.
Variable supported_labels : gset string.

(** X11.  Labels are valid exactly when every label of the job equals some
    supported label once both are lower-cased; a job without labels is
    always valid. *)
Theorem validate_labels_elementwise (job_labels supported : gset string) :
  (_validate_labels lower job_labels supported = true <->
   forall l : string, l ∈ job_labels ->
     exists s : string, s ∈ supported /\ lower l = lower s) /\
  _validate_labels lower ∅ supported = true.
Proof.
  assert (Hiff : _validate_labels lower job_labels supported = true <->
                 forall l : string, l ∈ job_labels ->
                   exists s : string, s ∈ supported /\ lower l = lower s).
  { unfold _validate_labels, lowered. rewrite bool_decide_eq_true. split.
    - intros Hsub l Hl.
      assert (Hin : lower l ∈ (set_map lower job_labels : gset string))
        by (apply elem_of_map; by exists l).
      apply Hsub, elem_of_map in Hin as (s & Heq & Hs). by exists s.
    - intros Hall x Hx. apply elem_of_map in Hx as (l & -> & Hl).
      destruct (Hall l Hl) as (s & Hs & Heq).
      apply elem_of_map. by exists s. }
  split; [exact Hiff|].
  unfold _validate_labels, lowered. apply bool_decide_eq_true.
  intros x Hx. apply elem_of_map in Hx as (l & _ & Hl).
  by apply not_elem_of_empty in Hl.
Qed.

Lemma parse_raw_has_path (raw : string) (job_details : JobDetails) :
  parse_raw parse_fields raw = Some job_details -> has_path (url job_details).
Proof.
  unfold parse_raw, check_job_url_path_is_not_empty.
  destruct (parse_fields raw) as [job|]; [|discriminate].
  destruct (path (url job)) as [p|] eqn:Hp; [|discriminate].
  destruct (String.eqb_spec p EmptyString) as [->|Hne]; [discriminate|].
  intros H. inversion H; subst. cbn. by exists p.
Qed.

Lemma create_count_app (l1 l2 : list event) :
  create_count (l1 ++ l2) = (create_count l1 + create_count l2)%nat.
Proof.
  induction l1 as [|ev l1 IH]; [reflexivity|].
  destruct ev; cbn; rewrite ?IH; reflexivity.
Qed.

Lemma checked_urls_app (l1 l2 : list event) :
  checked_urls (l1 ++ l2) = checked_urls l1 ++ checked_urls l2.
Proof.
  induction l1 as [|ev l1 IH]; [reflexivity|].
  destruct ev; cbn; rewrite ?IH; reflexivity.
Qed.

Lemma poll_job_trace (polls : nat) (job_url : HttpUrl) (msg : Message) :
  forall w : W,
    create_count (poll_job env polls job_url msg w).2 = O /\
    Forall (fun u => u = job_url) (checked_urls (poll_job env polls job_url msg w).2) /\
    ((poll_job env polls job_url msg w).1.1 = Err PlatformApiError ->
     settled (poll_job env polls job_url msg w).2 = []) /\
    ((poll_job env polls job_url msg w).1.1 = Ok tt ->
     settled (poll_job env polls job_url msg w).2 = [msg]) /\
    (poll_job env polls job_url msg w).1.1 <> Err JobError.
Proof.
  induction polls as [|n IH]; intros w.
  - trace_done.
  - cbn [poll_job].
    destruct (check_job_been_picked_up env job_url w) as [[[|]|] w1].
    + trace_done.
    + specialize (IH (time_sleep env 30 w1)).
      destruct (poll_job env n job_url msg (time_sleep env 30 w1)) as [[r w3] evs].
      cbn in IH |- *. destruct IH as (Hc & Hu & He & Ho & Hj).
      repeat split; [exact Hc | by constructor | exact He | exact Ho | exact Hj].
    + trace_done.
Qed.

Lemma _spawn_runner_trace (job_url : HttpUrl) (msg : Message) (w : W) :
  create_count (_spawn_runner env job_url msg w).2 = 1%nat /\
  Forall (fun u => u = job_url) (checked_urls (_spawn_runner env job_url msg w).2) /\
  ((_spawn_runner env job_url msg w).1.1 = Err PlatformApiError ->
   settled (_spawn_runner env job_url msg w).2 = []) /\
  ((_spawn_runner env job_url msg w).1.1 = Ok tt ->
   settled (_spawn_runner env job_url msg w).2 = [msg]) /\
  (_spawn_runner env job_url msg w).1.1 <> Err JobError.
Proof.
  unfold _spawn_runner.
  destruct (create_runners env 1 true w) as [[|instance_id others] w1].
  - trace_done.
  - pose proof (poll_job_trace 10 job_url msg w1) as (Hc & Hu & He & Ho & Hj).
    destruct (poll_job env 10 job_url msg w1) as [[r w2] evs].
    cbn in *. by rewrite Hc.
Qed.

(** One pass of the loop: at most one runner is asked for, and then the
    loop is left; the dispatch check is only called on URLs with a path;
    the message stays unsettled exactly when [PlatformApiError] is
    raised. *)
Lemma handle_message_trace (msg : Message) (w : W) :
  let out := handle_message env lower parse_fields supported_labels msg w in
  (create_count out.2 <= 1)%nat /\
  (out.1.1 = Continue -> create_count out.2 = O) /\
  Forall has_path (checked_urls out.2) /\
  (out.1.1 = Raise PlatformApiError -> settled out.2 = []) /\
  (out.1.1 <> Raise PlatformApiError -> settled out.2 = [msg]).
Proof.
  cbn zeta. unfold handle_message.
  destruct (String.eqb (payload msg) END_PROCESSING_PAYLOAD).
  { trace_done. }
  unfold _parse_job_details.
  destruct (parse_raw parse_fields (payload msg)) as [job_details|] eqn:Hparse.
  2:{ trace_done. }
  pose proof (parse_raw_has_path _ _ Hparse) as Hpath.
  destruct (negb (_validate_labels lower (labels job_details) supported_labels)).
  { trace_done. }
  destruct (check_job_been_picked_up env (url job_details) w) as [[[|]|] w1].
  - trace_done.
  - pose proof (_spawn_runner_trace (url job_details) msg w1)
      as (Hc & Hu & He & Ho & Hj).
    destruct (_spawn_runner env (url job_details) msg w1) as [[r w2] evs2].
    cbn in *. rewrite Hc. repeat split; try lia.
    + by destruct r.
    + constructor; [exact Hpath|].
      eapply Forall_impl; [exact Hu|]. by intros u ->.
    + destruct r as [[]|[]]; try discriminate. intros _. by apply He.
    + destruct r as [[]|[]]; intros Hne;
        [by apply Ho | by destruct Hj | by destruct Hne].
  - trace_done.
Qed.

Lemma after_create_app (l1 l2 : list event) :
  create_count l1 = O -> after_create (l1 ++ l2) = after_create l2.
Proof.
  induction l1 as [|ev l1 IH]; [reflexivity|].
  destruct ev; cbn; try exact IH. discriminate.
Qed.

Lemma handle_message_after_create (msg : Message) (w : W) :
  got (after_create
         (handle_message env lower parse_fields supported_labels msg w).2) = [].
Proof.
  unfold handle_message.
  destruct (String.eqb (payload msg) END_PROCESSING_PAYLOAD); [reflexivity|].
  unfold _parse_job_details.
  destruct (parse_raw parse_fields (payload msg)) as [job_details|]; [|reflexivity].
  destruct (negb (_validate_labels lower (labels job_details) supported_labels));
    [reflexivity|].
  destruct (check_job_been_picked_up env (url job_details) w) as [[[|]|] w1];
    [reflexivity| |reflexivity].
  unfold _spawn_runner.
  destruct (create_runners env 1 true w1) as [[|instance_id others] w2];
    [reflexivity|].
  pose proof (poll_job_settled env 10 (url job_details) msg w2) as (Hg & _).
  destruct (poll_job env 10 (url job_details) msg w2) as [[r w3] evs].
  exact Hg.
Qed.

(** X12.  One call of [consume] asks for at most one runner, and receives
    no further message once it has asked for one; a call that is left
    waiting on the queue has asked for none. *)
Theorem consume_spawns_at_most_one_runner (deliveries : list Message) (w : W) :
  (create_count (consume env lower parse_fields supported_labels deliveries w).2
     <= 1)%nat /\
  got (after_create
         (consume env lower parse_fields supported_labels deliveries w).2) = [] /\
  ((consume env lower parse_fields supported_labels deliveries w).1.1 = BlockedOnGet ->
   create_count (consume env lower parse_fields supported_labels deliveries w).2 = O).
Proof.
  revert w. induction deliveries as [|msg rest IH]; intros w.
  - cbn. repeat split. lia.
  - cbn [consume].
    pose proof (handle_message_trace msg w) as (Hle & Hcont & _).
    pose proof (handle_message_after_create msg w) as Hafter.
    destruct (handle_message env lower parse_fields supported_labels msg w)
      as [[st w1] evs]. cbn [fst snd] in *.
    destruct st.
    + specialize (IH w1). specialize (Hcont eq_refl).
      destruct (consume env lower parse_fields supported_labels rest w1)
        as [[out w2] evs2]. cbn [fst snd] in *.
      destruct IH as (IH1 & IH2 & IH3).
      rewrite create_count_app, Hcont, (after_create_app _ _ Hcont).
      by repeat split.
    + cbn [fst snd]. repeat split; [exact Hle | exact Hafter | discriminate].
    + cbn [fst snd]. repeat split; [exact Hle | exact Hafter | discriminate].
Qed.


(** X14.  Every URL the consumer passes to [check_job_been_picked_up] has
    a non-empty path: the validator of [JobDetails.url] has let it
    through. *)
Theorem consume_checks_only_urls_with_a_path (deliveries : list Message) (w : W) :
  Forall has_path
    (checked_urls (consume env lower parse_fields supported_labels deliveries w).2).
Proof.
  revert w. induction deliveries as [|msg rest IH]; intros w; [constructor|].
  cbn [consume].
  pose proof (handle_message_trace msg w) as (_ & _ & Hurls & _).
  destruct (handle_message env lower parse_fields supported_labels msg w)
    as [[st w1] evs]. cbn [fst snd] in *.
  destruct st; [|exact Hurls|exact Hurls].
  specialize (IH w1).
  destruct (consume env lower parse_fields supported_labels rest w1)
    as [[out w2] evs2]. cbn [fst snd] in *.
  rewrite checked_urls_app. apply Forall_app. by split.
Qed.

End trace.
End ConsumerTrace.

(** * openstack_runner_manager.py: bounds, deletion and flush *)

Module OpenStackBounds.
Import OpenStack.

(** The seconds slept, the SSH connections opened and the launches in a
    log. *)
Fixpoint slept (log : list event) : Z :=
  match log with
  | [] => 0
  | Sleep seconds :: log' => seconds + slept log'
  | _ :: log' => slept log'
  end.

Fixpoint connect_count (log : list event) : nat :=
  match log with
  | [] => O
  | GetSSHConnection _ :: log' => S (connect_count log')
  | _ :: log' => connect_count log'
  end.

Fixpoint launch_count (log : list event) : nat :=
  match log with
  | [] => O
  | LaunchInstance _ :: log' => S (launch_count log')
  | _ :: log' => launch_count log'
  end.

Section bounds.
Context {W Conn PulledMetrics : Type}.
Variable config : OpenStackRunnerManagerConfig.
Variable cloud : Collaborators W Conn PulledMetrics.
Variable CloudInitStatus_DONE : string.

Lemma slept_app (l1 l2 : list event) : slept (l1 ++ l2) = slept l1 + slept l2.
Proof.
  induction l1 as [|ev l1 IH]; [reflexivity|].
  destruct ev; cbn; rewrite ?IH; lia.
Qed.

Lemma connect_count_app (l1 l2 : list event) :
  connect_count (l1 ++ l2) = (connect_count l1 + connect_count l2)%nat.
Proof.
  induction l1 as [|ev l1 IH]; [reflexivity|].
  destruct ev; cbn; rewrite ?IH; lia.
Qed.

Lemma launch_count_app (l1 l2 : list event) :
  launch_count (l1 ++ l2) = (launch_count l1 + launch_count l2)%nat.
Proof.
  induction l1 as [|ev l1 IH]; [reflexivity|].
  destruct ev; cbn; rewrite ?IH; lia.
Qed.

(** An attempt of a wait opens one SSH connection, does not sleep and
    launches nothing. *)
Definition one_connection (attempt : W -> result exn unit * W * list event) : Prop :=
  forall w : W,
    slept (attempt w).2 = 0 /\ connect_count (attempt w).2 = 1%nat /\
    launch_count (attempt w).2 = O.

Lemma startup_attempt_one_connection (instance : OpenstackInstance) :
  one_connection (_wait_runner_startup_attempt cloud CloudInitStatus_DONE instance).
Proof.
  intros w. unfold _wait_runner_startup_attempt.
  destruct (get_ssh_connection cloud instance w) as [[ssh_conn|] w1]; [|easy].
  destruct (ssh_run cloud ssh_conn "cloud-init status" w1) as [[res|] w2]; [|easy].
  destruct (negb (ok res)); [easy|].
  destruct (contains CloudInitStatus_DONE (stdout res)); [easy|].
  destruct (ssh_run cloud ssh_conn "ps aux" w2) as [[res2|] w3]; [|easy].
  destruct (negb (ok res2)); [easy|].
  by destruct (negb (contains RUNNER_STARTUP_PROCESS (stdout res2))).
Qed.

Lemma running_attempt_one_connection (instance : OpenstackInstance) :
  one_connection (_wait_runner_running_attempt cloud instance).
Proof.
  intros w. unfold _wait_runner_running_attempt.
  destruct (get_ssh_connection cloud instance w) as [[ssh_conn|] w1]; [|easy].
  destruct (check_active_runner cloud ssh_conn instance w1) as [[is_healthy|] w2];
    [|easy].
  by destruct (negb is_healthy).
Qed.

(** [n] attempts, 60 seconds apart: [n] connections and [n - 1] sleeps of
    60 seconds. *)
Lemma attempts_counts (attempt : W -> result exn unit * W * list event) :
  one_connection attempt ->
  forall (n : nat) (s : W * list event),
    (1 <= n)%nat ->
    let out := Retry.run_calls None 1 Z.mul Z.min (logged_sleep cloud)
                 (logged attempt) n 60 s in
    slept out.2.2 = slept s.2 + 60 * (Z.of_nat n - 1) /\
    connect_count out.2.2 = (connect_count s.2 + n)%nat /\
    launch_count out.2.2 = launch_count s.2.
Proof.
  intros Hone. induction n as [|n IH]; intros s Hn; [lia|].
  assert (Hlogged : logged attempt s
                    = ((attempt s.1).1.1, ((attempt s.1).1.2, s.2 ++ (attempt s.1).2))).
  { unfold logged. by destruct (attempt s.1) as [[r w'] evs]. }
  destruct (Hone s.1) as (H1 & H2 & H3).
  destruct n as [|n'].
  - cbn. rewrite Hlogged. cbn.
    rewrite slept_app, connect_count_app, launch_count_app, H1, H2, H3.
    repeat split; lia.
  - cbn zeta. rewrite Retry.run_calls_more, Hlogged.
    specialize (IH (logged_sleep cloud 60
                      ((attempt s.1).1.2, s.2 ++ (attempt s.1).2)) ltac:(lia)).
    change (Retry.next_delay None 1 Z.mul Z.min 60) with 60.
    destruct (Retry.run_calls None 1 Z.mul Z.min (logged_sleep cloud)
                (logged attempt) (S n') 60
                (logged_sleep cloud 60 ((attempt s.1).1.2, s.2 ++ (attempt s.1).2)))
      as [rs s2].
    cbn [fst snd] in IH |- *. destruct IH as (I1 & I2 & I3).
    unfold logged_sleep in I1, I2, I3. cbn [fst snd] in I1, I2, I3.
    rewrite !slept_app in I1. rewrite !connect_count_app in I2.
    rewrite !launch_count_app in I3. cbn in I1, I2, I3.
    repeat split; lia.
Qed.

(** A retried wait with at most [tries] attempts. *)
Lemma retried_wait_counts (tries : Z)
    (attempt : W -> result exn unit * W * list event) (s : W * list event) :
  1 <= tries -> one_connection attempt ->
  let s' := (retry_every_60s cloud tries attempt s).1.2 in
  slept s.2 <= slept s'.2 <= slept s.2 + 60 * (tries - 1) /\
  (Z.of_nat (connect_count s'.2) <= Z.of_nat (connect_count s.2) + tries) /\
  launch_count s'.2 = launch_count s.2.
Proof.
  intros Htries Hone. cbn zeta.
  destruct (retry_every_60s_attempts cloud tries attempt s Htries)
    as (n & failed & last & Hn & Hle & Hrun & _ & _).
  pose proof (attempts_counts attempt Hone n s Hn) as H.
  cbn zeta in H. rewrite Hrun in H. cbn [snd] in H.
  destruct H as (H1 & H2 & H3). rewrite H1, H2, H3. repeat split; lia.
Qed.

(** X15.  [create_runner] waits a bounded time: whatever the cloud and the
    instance do, it launches at most one instance, opens at most 15 SSH
    connections and sleeps at most 780 seconds in all (9 sleeps of the
    startup wait and 4 of the running wait, 60 seconds each). *)
Theorem create_runner_waits_at_most_780_seconds
    (id : InstanceID) (registration_jittoken : string) (w : W) :
  0 <= slept (create_runner config cloud CloudInitStatus_DONE id
                registration_jittoken w).2 <= 780 /\
  (connect_count (create_runner config cloud CloudInitStatus_DONE id
                    registration_jittoken w).2 <= 15)%nat /\
  (launch_count (create_runner config cloud CloudInitStatus_DONE id
                   registration_jittoken w).2 <= 1)%nat.
Proof.
  unfold create_runner.
  destruct (server_config config) as [sc|]; [|cbn; lia].
  destruct (_generate_cloud_init cloud registration_jittoken w) as [cloud_init w0].
  destruct (launch_instance cloud id (image sc) (flavor sc) (network sc) cloud_init w0)
    as [[instance|] w1]; [|cbn; lia].
  unfold _wait_runner_startup.
  pose proof (retried_wait_counts 10
                (_wait_runner_startup_attempt cloud CloudInitStatus_DONE instance)
                (w1, [LaunchInstance id]) ltac:(lia)
                (startup_attempt_one_connection instance)) as H1.
  cbn zeta in H1.
  destruct (retry_every_60s cloud 10 _ (w1, [LaunchInstance id])) as [[r s2] calls].
  cbn [fst snd] in H1. cbn in H1.
  destruct (unwrap r) as [[]|e]; [|cbn; lia].
  unfold _wait_runner_running.
  pose proof (retried_wait_counts 5 (_wait_runner_running_attempt cloud instance)
                s2 ltac:(lia) (running_attempt_one_connection instance)) as H2.
  cbn zeta in H2.
  destruct (retry_every_60s cloud 5 _ s2) as [[r' s3] calls'].
  cbn [fst snd] in H2 |- *. lia.
Qed.

(** What an attempt of a wait can raise. *)
Definition raises_start_errors
    (attempt : W -> result exn unit * W * list event) : Prop :=
  forall w : W,
    (attempt w).1.1 = Ok tt \/ (attempt w).1.1 = Err RunnerStartError \/
    (attempt w).1.1 = Err SSHRunError.

Lemma startup_attempt_errors (instance : OpenstackInstance) :
  raises_start_errors (_wait_runner_startup_attempt cloud CloudInitStatus_DONE instance).
Proof.
  intros w. unfold _wait_runner_startup_attempt.
  destruct (get_ssh_connection cloud instance w) as [[ssh_conn|] w1]; [|auto].
  destruct (ssh_run cloud ssh_conn "cloud-init status" w1) as [[res|] w2]; [|auto].
  destruct (negb (ok res)); [auto|].
  destruct (contains CloudInitStatus_DONE (stdout res)); [auto|].
  destruct (ssh_run cloud ssh_conn "ps aux" w2) as [[res2|] w3]; [|auto].
  destruct (negb (ok res2)); [auto|].
  destruct (negb (contains RUNNER_STARTUP_PROCESS (stdout res2))); auto.
Qed.

Lemma running_attempt_errors (instance : OpenstackInstance) :
  raises_start_errors (_wait_runner_running_attempt cloud instance).
Proof.
  intros w. unfold _wait_runner_running_attempt.
  destruct (get_ssh_connection cloud instance w) as [[ssh_conn|] w1]; [|auto].
  destruct (check_active_runner cloud ssh_conn instance w1) as [[is_healthy|] w2];
    [|auto].
  destruct (negb is_healthy); auto.
Qed.

Lemma retried_wait_errors (tries : Z)
    (attempt : W -> result exn unit * W * list event) (s : W * list event) :
  1 <= tries -> raises_start_errors attempt ->
  unwrap (retry_every_60s cloud tries attempt s).1.1 = Ok tt \/
  unwrap (retry_every_60s cloud tries attempt s).1.1 = Err RunnerStartError \/
  unwrap (retry_every_60s cloud tries attempt s).1.1 = Err SSHRunError.
Proof.
  intros Htries Herr. unfold retry_every_60s.
  destruct (RetrySchedule.fn_with_retry_outcome (fun _ => true) tries 60 None 1
              Z.mul Z.min (logged_sleep cloud) (logged attempt) s Htries)
    as (s' & ->).
  unfold logged. specialize (Herr s'.1).
  destruct (attempt s'.1) as [[r w'] evs]. cbn in *.
  destruct Herr as [->|[->| ->]]; auto.
Qed.

(** X16.  The exceptions that leave [create_runner] tell where it failed:
    [MissingServerConfigError] exactly when there is no server
    configuration, and then before any call to the cloud;
    [RunnerCreateError] only right after the launch, before any SSH
    connection; otherwise [RunnerStartError] or the exception of an SSH
    command, from the waits.  [RuntimeError], the exception after the loop
    of the retry wrapper, never leaves it. *)
Theorem create_runner_exceptions_tell_the_phase
    (id : InstanceID) (registration_jittoken : string) (w : W) :
  ((create_runner config cloud CloudInitStatus_DONE id registration_jittoken w).1.1
     = Err MissingServerConfigError <-> server_config config = None) /\
  (server_config config = None ->
   create_runner config cloud CloudInitStatus_DONE id registration_jittoken w
   = (Err MissingServerConfigError, w, [])) /\
  ((create_runner config cloud CloudInitStatus_DONE id registration_jittoken w).1.1
     = Err RunnerCreateError ->
   (create_runner config cloud CloudInitStatus_DONE id registration_jittoken w).2
   = [LaunchInstance id]) /\
  (create_runner config cloud CloudInitStatus_DONE id registration_jittoken w).1.1
    <> Err RuntimeError.
Proof.
  unfold create_runner.
  destruct (server_config config) as [sc|]; [|by repeat split].
  destruct (_generate_cloud_init cloud registration_jittoken w) as [cloud_init w0].
  destruct (launch_instance cloud id (image sc) (flavor sc) (network sc) cloud_init w0)
    as [[instance|] w1]; [|by repeat split].
  unfold _wait_runner_startup.
  pose proof (retried_wait_errors 10
                (_wait_runner_startup_attempt cloud CloudInitStatus_DONE instance)
                (w1, [LaunchInstance id]) ltac:(lia)
                (startup_attempt_errors instance)) as H1.
  destruct (retry_every_60s cloud 10 _ (w1, [LaunchInstance id])) as [[r s2] calls].
  cbn [fst snd] in H1.
  destruct H1 as [->|[->| ->]]; [|by repeat split|by repeat split].
  unfold _wait_runner_running.
  pose proof (retried_wait_errors 5 (_wait_runner_running_attempt cloud instance)
                s2 ltac:(lia) (running_attempt_errors instance)) as H2.
  destruct (retry_every_60s cloud 5 _ s2) as [[r' s3] calls'].
  cbn [fst snd] in H2 |- *.
  destruct H2 as [->|[->| ->]]; by repeat split.
Qed.

End bounds.
End OpenStackBounds.

(** * openstack_runner_manager.py: deleting and flushing runners *)

Module OpenStackFlush.
Import OpenStack.
Import OpenStackBounds.

(** What [get_ssh_connection] gives when [KeyfileError] is told apart from
    the other [SSHError]s. *)
Inductive connection (Conn : Type) : Type :=
| Connected (ssh_conn : Conn)
| KeyfileMissing
| SSHFailed.
Arguments Connected {Conn} ssh_conn.
Arguments KeyfileMissing {Conn}.
Arguments SSHFailed {Conn}.

(** Exceptions that leave [_check_state_and_flush] and [flush_runners]:
    [SSHError] of a failed connection, [SSHRunRaised] for whatever
    [ssh_conn.run] raises, and the [RuntimeError] of the retry wrapper. *)
Inductive flush_exn : Type :=
| SSHError
| SSHRunRaised
| RetryRuntimeError.

Definition is_cloud_cleanup (ev : event) : bool :=
  match ev with CloudCleanup => true | _ => false end.

Definition is_get_instances (ev : event) : bool :=
  match ev with GetInstances => true | _ => false end.

(** The events between the listing and the cloud cleanup. *)
Definition inner_event (ev : event) : bool :=
  negb (is_get_instances ev || is_cloud_cleanup ev).

(** The events of the kill phase of a flush: SSH connections, the kill
    command, and the sleeps of 5 and 10 seconds of the retries. *)
Definition kill_event (kill_command : string) (ev : event) : bool :=
  match ev with
  | GetSSHConnection _ => true
  | SSHRun _ cmd => String.eqb cmd kill_command
  | Sleep seconds => (seconds =? 5) || (seconds =? 10)
  | _ => false
  end.

Section deletion.
Context {W Conn PulledMetrics RunnerMetrics : Type}.
Variable cloud : Collaborators W Conn PulledMetrics.
(** [OpenstackCloud.get_instance]. *)
Variable get_instance : InstanceID -> W -> option OpenstackInstance * W.
Variable no_pulled_metrics : PulledMetrics.
Variable to_runner_metrics :
  PulledMetrics -> InstanceID -> Z -> option RunnerMetrics.

(** The log holds the calls of [_delete_runner]; the lookup of the
    instance is not logged. *)
Definition delete_runner (id : InstanceID) (remove_token : string) (w : W) :
    option RunnerMetrics * W * list event :=
  let '(found, w1) := get_instance id w in
  match found with
  | None => (None, w1, [])
  | Some instance =>
      let '(pulled_metrics, w2, log) :=
        _delete_runner cloud no_pulled_metrics instance remove_token w1 in
      (to_runner_metrics pulled_metrics (instance_id instance) (created_at instance),
       w2, log)
  end.

Lemma _delete_runner_shape (instance : OpenstackInstance) (remove_token : string)
    (w : W) :
  let log := (_delete_runner cloud no_pulled_metrics instance remove_token w).2 in
  last log = Some (DeleteInstance (instance_id instance)) /\
  connect_count log = 1%nat /\ slept log = 0 /\
  Forall (fun ev => inner_event ev = true) log.
Proof.
  unfold _delete_runner.
  destruct (get_ssh_connection cloud instance w) as [[ssh_conn|] w1].
  - destruct (pull_runner_metrics cloud _ ssh_conn w1) as [pulled w2].
    destruct (ssh_run cloud ssh_conn _ w2) as [res w3].
    destruct (delete_instance cloud _ w3) as [deleted_ok w4].
    cbn. repeat split; repeat constructor.
  - destruct (delete_instance cloud _ w1) as [deleted_ok w4].
    cbn. repeat split; repeat constructor.
Qed.

Lemma check_runners_shape (runner_list : list OpenstackInstance) :
  forall w : W,
    slept (check_runners cloud runner_list w).2 = 0 /\
    connect_count (check_runners cloud runner_list w).2 = O /\
    Forall (fun ev => inner_event ev = true) (check_runners cloud runner_list w).2.
Proof.
  induction runner_list as [|runner rest IH]; intros w.
  - cbn. repeat split; constructor.
  - cbn [check_runners].
    destruct (check_runner cloud runner w) as [answer w1].
    specialize (IH w1).
    destruct (check_runners cloud rest w1) as [[h w2] evs].
    cbn in IH |- *. destruct IH as (H1 & H2 & H3).
    repeat split; [exact H1 | exact H2 | by constructor].
Qed.

Lemma delete_unhealthy_shape (runners : list OpenstackInstance)
    (remove_token : string) :
  forall w : W,
    let out := delete_unhealthy cloud no_pulled_metrics to_runner_metrics
                 runners remove_token w in
    slept out.2 = 0 /\
    connect_count out.2 = length runners /\
    (length out.1.1 <= length runners)%nat /\
    Forall (fun ev => inner_event ev = true) out.2.
Proof.
  induction runners as [|runner rest IH]; intros w.
  - cbn. repeat split; constructor.
  - cbn zeta. cbn [delete_unhealthy].
    pose proof (_delete_runner_shape runner remove_token w) as (_ & Hc & Hs & Hall).
    destruct (_delete_runner cloud no_pulled_metrics runner remove_token w)
      as [[pulled w1] evs1].
    specialize (IH w1). cbn zeta in IH.
    destruct (delete_unhealthy cloud no_pulled_metrics to_runner_metrics rest
                remove_token w1) as [[extracted w2] evs2].
    cbn [fst snd] in *. destruct IH as (I1 & I2 & I3 & I4).
    rewrite slept_app, connect_count_app, Hc, Hs, I1, I2.
    repeat split; [| by apply Forall_app].
    destruct (to_runner_metrics pulled _ _); cbn; lia.
Qed.



End deletion.

Section flush.
Context {W Conn PulledMetrics RunnerMetrics : Type}.
(** The collaborators, with [get_ssh_connection] given by [connect]:
    [KeyfileError] is one of the [SSHError]s. *)
Variable base : Collaborators W Conn PulledMetrics.
Variable connect : OpenstackInstance -> W -> connection Conn * W.
(** Constants of openstack_cloud/constants.py. *)
Variable RUNNER_LISTENER_PROCESS : string.
Variable RUNNER_WORKER_PROCESS : string.
Variable no_pulled_metrics : PulledMetrics.
Variable to_runner_metrics :
  PulledMetrics -> InstanceID -> Z -> option RunnerMetrics.

Definition cloud : Collaborators W Conn PulledMetrics := {|
  launch_instance := launch_instance base;
  get_instances := get_instances base;
  get_ssh_connection := fun instance w =>
    match connect instance w with
    | (Connected ssh_conn, w') => (Some ssh_conn, w')
    | (_, w') => (None, w')
    end;
  delete_instance := delete_instance base;
  cloud_cleanup := cloud_cleanup base;
  ssh_run := ssh_run base;
  check_runner := check_runner base;
  check_active_runner := check_active_runner base;
  pull_runner_metrics := pull_runner_metrics base;
  _generate_cloud_init := _generate_cloud_init base;
  time_sleep := time_sleep base;
|}.

Definition kill_command (busy : bool) : string :=
  if busy then
    ("pgrep -x " +:+ RUNNER_LISTENER_PROCESS +:+ " && "
     +:+ "kill $(pgrep -x " +:+ RUNNER_LISTENER_PROCESS +:+ ");"
     +:+ "pgrep -x " +:+ RUNNER_WORKER_PROCESS +:+ " && kill $(pgrep -x "
     +:+ RUNNER_WORKER_PROCESS +:+ ");")%string
  else
    ("! pgrep -x " +:+ RUNNER_WORKER_PROCESS +:+ " && pgrep -x "
     +:+ RUNNER_LISTENER_PROCESS +:+ " && "
     +:+ "kill $(pgrep -x " +:+ RUNNER_LISTENER_PROCESS +:+ ")")%string.

(** The body of [_check_state_and_flush], one attempt. *)
Definition _check_state_and_flush_attempt (instance : OpenstackInstance)
    (busy : bool) (w : W) : result flush_exn unit * W * list event :=
  let id := instance_id instance in
  let '(conn, w1) := connect instance w in
  match conn with
  | KeyfileMissing => (Ok tt, w1, [GetSSHConnection id])
  | SSHFailed => (Err SSHError, w1, [GetSSHConnection id])
  | Connected ssh_conn =>
      let '(res, w2) := ssh_run base ssh_conn (kill_command busy) w1 in
      let log := [GetSSHConnection id; SSHRun id (kill_command busy)] in
      match res with
      | None => (Err SSHRunRaised, w2, log)
      | Some _ => (Ok tt, w2, log)
      end
  end.

Definition flush_logged (attempt : W -> result flush_exn unit * W * list event)
    (s : W * list event) : result flush_exn unit * (W * list event) :=
  let '(r, w', evs) := attempt s.1 in (r, (w', s.2 ++ evs)).

(** [@retry(tries=3, delay=5, backoff=2, local_logger=logger)]
    [_check_state_and_flush]. *)
Definition _check_state_and_flush (instance : OpenstackInstance) (busy : bool)
    (s : W * list event) : result flush_exn unit * (W * list event) :=
  let '(r, s', _) :=
    Retry.fn_with_retry (fun _ => true) 3 5 None 2 Z.mul Z.min
      (logged_sleep base) (flush_logged (_check_state_and_flush_attempt instance busy))
      s in
  (match r with
   | Ok a => Ok a
   | Err (Retry.Propagated e) => Err e
   | Err Retry.RuntimeError_unreachable => Err RetryRuntimeError
   end, s').

(** The loop of [flush_runners]: [SSHError] is caught, and the loop goes on
    with the next instance; any other exception leaves the loop. *)
Fixpoint flush_instances (instance_list : list OpenstackInstance) (busy : bool)
    (s : W * list event) : result flush_exn unit * (W * list event) :=
  match instance_list with
  | [] => (Ok tt, s)
  | instance :: rest =>
      let '(r, s1) := _check_state_and_flush instance busy s in
      match r with
      | Ok _ | Err SSHError => flush_instances rest busy s1
      | Err e => (Err e, s1)
      end
  end.

Definition flush_runners (remove_token : string) (busy : bool) (w : W) :
    result flush_exn (list RunnerMetrics) * W * list event :=
  let '(instance_list, w1) := get_instances cloud w in
  let '(r, s2) := flush_instances instance_list busy (w1, [GetInstances]) in
  match r with
  | Err e => (Err e, s2.1, s2.2)
  | Ok _ =>
      let '(metrics, w3, log3) :=
        cleanup cloud no_pulled_metrics to_runner_metrics remove_token s2.1 in
      (Ok metrics, w3, s2.2 ++ log3)
  end.

(** What one attempt does: one SSH connection, no sleep, at most the kill
    command; when it raises the exception of the SSH command, the command
    is its last call. *)
Definition attempt_ok (busy : bool)
    (out : result flush_exn unit * W * list event) : Prop :=
  Forall (fun ev => kill_event (kill_command busy) ev = true) out.2 /\
  connect_count out.2 = 1%nat /\ slept out.2 = 0 /\
  (out.1.1 = Ok tt \/ out.1.1 = Err SSHError \/
   (out.1.1 = Err SSHRunRaised /\
    exists id, last out.2 = Some (SSHRun id (kill_command busy)))).

Lemma _check_state_and_flush_attempt_ok (instance : OpenstackInstance)
    (busy : bool) (w : W) :
  attempt_ok busy (_check_state_and_flush_attempt instance busy w).
Proof.
  unfold attempt_ok, _check_state_and_flush_attempt.
  destruct (connect instance w) as [[ssh_conn| |] w1].
  - destruct (ssh_run base ssh_conn (kill_command busy) w1) as [[res|] w2];
      cbn [fst snd];
      (split; [repeat (constructor; [cbn; by rewrite ?String.eqb_refl|]);
               constructor|]);
      (split; [reflexivity|]); (split; [reflexivity|]); eauto 6.
  - cbn [fst snd]. split; [by repeat constructor|]. repeat split; eauto.
  - cbn [fst snd]. split; [by repeat constructor|]. repeat split; eauto.
Qed.

(** What the kill phase adds to the log for [n] instances. *)
Definition kill_phase (busy : bool) (n : nat) (evs : list event) : Prop :=
  Forall (fun ev => kill_event (kill_command busy) ev = true) evs /\
  (connect_count evs <= 3 * n)%nat /\ 0 <= slept evs <= 15 * Z.of_nat n.

Lemma kill_event_sleep (busy : bool) (seconds : Z) :
  seconds = 5 \/ seconds = 10 ->
  kill_event (kill_command busy) (Sleep seconds) = true.
Proof. intros [->| ->]; reflexivity. Qed.

Lemma _check_state_and_flush_shape (instance : OpenstackInstance) (busy : bool)
    (s : W * list event) :
  exists evs : list event,
    (_check_state_and_flush instance busy s).2.2 = s.2 ++ evs /\
    kill_phase busy 1 evs /\ (1 <= connect_count evs)%nat /\
    ((_check_state_and_flush instance busy s).1 = Ok tt \/
     (_check_state_and_flush instance busy s).1 = Err SSHError \/
     ((_check_state_and_flush instance busy s).1 = Err SSHRunRaised /\
      exists id, last evs = Some (SSHRun id (kill_command busy)))).
Proof.
  pose proof (_check_state_and_flush_attempt_ok instance busy) as Hatt.
  unfold _check_state_and_flush, Retry.fn_with_retry.
  generalize dependent (_check_state_and_flush_attempt instance busy).
  intros att Hatt.
  assert (Hlogged : forall s, flush_logged att s
            = ((att s.1).1.1, ((att s.1).1.2, s.2 ++ (att s.1).2))).
  { intros s0. unfold flush_logged. by destruct (att s0.1) as [[r w'] evs]. }
  change (Z.to_nat 3) with 3%nat. cbn [Retry.retry_loop].
  rewrite !Hlogged.
  change (3 - 1 =? 0) with false. change (3 - 1 - 1 =? 0) with false.
  change (3 - 1 - 1 - 1 =? 0) with true.
  change (Retry.next_delay None 2 Z.mul Z.min 5) with 10.
  unfold logged_sleep. cbn [fst snd].
  pose proof (Hatt s.1) as (F1 & C1 & S1 & R1).
  destruct (att s.1) as [[r1 w1] evs1]. cbn [fst snd] in *.
  assert (Hone : forall evs, evs = evs1 ->
            kill_phase busy 1 evs /\ (1 <= connect_count evs)%nat).
  { intros evs ->. unfold kill_phase. rewrite C1, S1. repeat split; [exact F1|lia..]. }
  destruct r1 as [[]|e1].
  { exists evs1. destruct (Hone evs1 eq_refl) as [Hk Hc]. cbn [fst snd].
    split; [reflexivity|]. split; [exact Hk|]. split; [exact Hc|]. by left. }
  pose proof (Hatt (time_sleep base 5 w1)) as (F2 & C2 & S2 & R2).
  destruct (att (time_sleep base 5 w1)) as [[r2 w2] evs2]. cbn [fst snd] in *.
  assert (Htwo : kill_phase busy 1 (evs1 ++ [Sleep 5] ++ evs2) /\
                 (1 <= connect_count (evs1 ++ [Sleep 5] ++ evs2))%nat).
  { unfold kill_phase.
    rewrite !slept_app, !connect_count_app, C1, C2, S1, S2. cbn.
    repeat split; [|lia..].
    apply Forall_app; split; [exact F1|]. by constructor. }
  destruct r2 as [[]|e2].
  { exists (evs1 ++ [Sleep 5] ++ evs2). destruct Htwo as [Hk Hc]. cbn [fst snd].
    rewrite <- !app_assoc.
    split; [reflexivity|]. split; [exact Hk|]. split; [exact Hc|]. by left. }
  pose proof (Hatt (time_sleep base 10 w2)) as (F3 & C3 & S3 & R3).
  destruct (att (time_sleep base 10 w2)) as [[r3 w3] evs3]. cbn [fst snd] in *.
  assert (Hk3 : kill_phase busy 1 (evs1 ++ [Sleep 5] ++ evs2 ++ [Sleep 10] ++ evs3)).
  { unfold kill_phase.
    rewrite !slept_app, !connect_count_app, C1, C2, C3, S1, S2, S3. cbn.
    repeat split; [|lia..].
    apply Forall_app; split; [exact F1|]. constructor; [reflexivity|].
    apply Forall_app; split; [exact F2|]. by constructor. }
  assert (Hc3 : (1 <= connect_count
                        (evs1 ++ [Sleep 5] ++ evs2 ++ [Sleep 10] ++ evs3))%nat).
  { rewrite !connect_count_app, C1. lia. }
  exists (evs1 ++ [Sleep 5] ++ evs2 ++ [Sleep 10] ++ evs3).
  destruct r3 as [[]|e3]; cbn [fst snd]; rewrite <- !app_assoc;
    (split; [reflexivity|]); (split; [exact Hk3|]); (split; [exact Hc3|]);
    [by left|].
  destruct R3 as [H|[H|[H [id Hlast]]]]; [discriminate|right; by left|].
  right; right. split; [exact H|]. exists id.
  rewrite !last_app, Hlast. reflexivity.
Qed.

(** The loop over the instances. *)
Lemma flush_instances_shape (instance_list : list OpenstackInstance) (busy : bool) :
  forall s : W * list event,
    exists evs : list event,
      (flush_instances instance_list busy s).2.2 = s.2 ++ evs /\
      kill_phase busy (length instance_list) evs /\
      ((flush_instances instance_list busy s).1 = Ok tt \/
       ((flush_instances instance_list busy s).1 = Err SSHRunRaised /\
        exists id, last evs = Some (SSHRun id (kill_command busy)))).
Proof.
  induction instance_list as [|instance rest IH]; intros s.
  - exists []. cbn. rewrite app_nil_r. unfold kill_phase. cbn.
    repeat split; auto; lia.
  - cbn [flush_instances].
    destruct (_check_state_and_flush_shape instance busy s)
      as (evs1 & Hlog1 & (F1 & C1 & S1) & _ & R1).
    destruct (_check_state_and_flush instance busy s) as [r s1].
    cbn [fst snd] in *.
    assert (Hgo : exists evs : list event,
              (flush_instances rest busy s1).2.2 = s.2 ++ evs /\
              kill_phase busy (length (instance :: rest)) evs /\
              ((flush_instances rest busy s1).1 = Ok tt \/
               ((flush_instances rest busy s1).1 = Err SSHRunRaised /\
                exists id, last evs = Some (SSHRun id (kill_command busy))))).
    { destruct (IH s1) as (evs2 & Hlog2 & (F2 & C2 & S2) & R2).
      exists (evs1 ++ evs2). rewrite Hlog2, Hlog1, <- app_assoc.
      split; [reflexivity|]. split.
      - unfold kill_phase. rewrite slept_app, connect_count_app.
        cbn [length]. repeat split; [by apply Forall_app|lia..].
      - destruct R2 as [->|[-> [id Hlast]]]; auto.
        right. split; [reflexivity|]. exists id. by rewrite last_app, Hlast. }
    destruct R1 as [->|[->|[-> [id Hlast]]]]; [exact Hgo..|].
    exists evs1. cbn [fst snd]. split; [exact Hlog1|]. split.
    + unfold kill_phase. cbn [length]. repeat split; [exact F1|lia..].
    + right. split; [reflexivity|]. by exists id.
Qed.

Lemma kill_phase_deletes_nothing (busy : bool) (n : nat) (evs : list event) :
  kill_phase busy n evs -> deleted evs = [] /\ verdicts evs = [].
Proof.
  intros (Hall & _). induction Hall as [|ev evs Hev _ IH]; [done|].
  destruct IH as [IH1 IH2]. by destruct ev.
Qed.



End flush.

(** ** A concrete flush

    The demo cloud, with servers that cannot be reached by SSH when they
    are shut off, and a cloud where the SSH command itself raises. *)

Definition demo_connect (instance : OpenstackInstance) (w : DemoWorld) :
    connection unit * DemoWorld :=
  (if String.eqb (status instance) "SHUTOFF" then SSHFailed
   else if String.eqb (status instance) "NOKEY" then KeyfileMissing
   else Connected tt, w).

Definition fleet_with_unreachable_server : DemoWorld :=
  {| clock := 0; ssh_reachable_from := 0;
     cloud_init_output := "status: done";
     platform_health := {| online := true; busy := false; deletable := false |};
     servers := [demo_server "d" "SHUTOFF"; demo_server "k" "NOKEY";
                 demo_server "b" "ERROR"; demo_server "a" "ACTIVE"] |}.

Definition raising_ssh_cloud : Collaborators DemoWorld unit unit := {|
  launch_instance := launch_instance demo_cloud;
  get_instances := get_instances demo_cloud;
  get_ssh_connection := get_ssh_connection demo_cloud;
  delete_instance := delete_instance demo_cloud;
  cloud_cleanup := cloud_cleanup demo_cloud;
  ssh_run := fun _ _ w => (None, w);
  check_runner := check_runner demo_cloud;
  check_active_runner := check_active_runner demo_cloud;
  pull_runner_metrics := pull_runner_metrics demo_cloud;
  _generate_cloud_init := _generate_cloud_init demo_cloud;
  time_sleep := time_sleep demo_cloud;
|}.

Definition demo_flush (base : Collaborators DemoWorld unit unit) (busy : bool)
    (w : DemoWorld) : result flush_exn (list unit) * DemoWorld * list event :=
  flush_runners base demo_connect "Runner.Listener" "Runner.Worker" tt
    (fun _ _ _ => Some tt) "token" busy w.

(** The unreachable server is tried three times, with sleeps of 5 and 10
    seconds, and the flush goes on; only the server in error is deleted,
    by the cleanup. *)
Example flush_goes_on_after_ssh_failures :
  is_ok (demo_flush demo_cloud false fleet_with_unreachable_server).1.1 = true /\
  slept (demo_flush demo_cloud false fleet_with_unreachable_server).2 = 15 /\
  deleted (demo_flush demo_cloud false fleet_with_unreachable_server).2
    = [instance_id (demo_server "b" "ERROR")] /\
  firstn 6 (demo_flush demo_cloud false fleet_with_unreachable_server).2
    = [GetInstances;
       GetSSHConnection (instance_id (demo_server "d" "SHUTOFF")); Sleep 5;
       GetSSHConnection (instance_id (demo_server "d" "SHUTOFF")); Sleep 10;
       GetSSHConnection (instance_id (demo_server "d" "SHUTOFF"))].
Proof. vm_compute. repeat split. Qed.

(** When the kill command raises on the first reachable server, the flush
    stops there: the servers after it are not visited and nothing is
    cleaned up. *)
Example flush_stops_when_the_kill_command_raises :
  demo_flush raising_ssh_cloud true fleet_with_unreachable_server
  = (Err SSHRunRaised, demo_sleep 30 fleet_with_unreachable_server,
     [GetInstances;
      GetSSHConnection (instance_id (demo_server "d" "SHUTOFF")); Sleep 5;
      GetSSHConnection (instance_id (demo_server "d" "SHUTOFF")); Sleep 10;
      GetSSHConnection (instance_id (demo_server "d" "SHUTOFF"));
      GetSSHConnection (instance_id (demo_server "k" "NOKEY"));
      GetSSHConnection (instance_id (demo_server "b" "ERROR"));
      SSHRun (instance_id (demo_server "b" "ERROR"))
        "pgrep -x Runner.Listener && kill $(pgrep -x Runner.Listener);pgrep -x Runner.Worker && kill $(pgrep -x Runner.Worker);";
      Sleep 5;
      GetSSHConnection (instance_id (demo_server "b" "ERROR"));
      SSHRun (instance_id (demo_server "b" "ERROR"))
        "pgrep -x Runner.Listener && kill $(pgrep -x Runner.Listener);pgrep -x Runner.Worker && kill $(pgrep -x Runner.Worker);";
      Sleep 10;
      GetSSHConnection (instance_id (demo_server "b" "ERROR"));
      SSHRun (instance_id (demo_server "b" "ERROR"))
        "pgrep -x Runner.Listener && kill $(pgrep -x Runner.Listener);pgrep -x Runner.Worker && kill $(pgrep -x Runner.Worker);"]).
Proof. vm_compute. reflexivity. Qed.

End OpenStackFlush.
